(** * Booking transaction engine: shallow embedding and verified properties

    The development follows [TransactionService] (createTransaction,
    deductPoints, confirmTransaction, rollbackTransaction, restorePoints,
    expireTransaction, uploadPaymentProof) and [calculateDiscount] from
    utils/helpers.ts.

    Modelling conventions.
    - Tables of the Prisma schema are lists of records; a row carries its
      primary key.  INTEGER columns are [Z]; DOUBLE PRECISION columns and
      JavaScript numbers holding money or points are exact rationals [Q]
      (rounding of IEEE doubles is not modelled), compared with [==].
    - TEXT columns and identifiers are [string]; TIMESTAMP columns are [Z]
      (milliseconds since the epoch).  Every [new Date()] of one service call
      reads the same instant [now], an input of the call.
    - Columns that no operation of the service reads (names, descriptions,
      updatedAt, ...) are left out of the records.
    - A service method is a computation in a state-and-exception monad over
      the database; [prisma.$transaction] commits the callback's writes when
      it returns and discards them when it throws. *)

From Stdlib Require Import List ZArith QArith Qminmax Bool String Ascii Lia Lqa.
Import ListNotations.

Set Implicit Arguments.

(** ** JavaScript number helpers *)

Module Js.

Definition ltb (a b : Q) : bool := negb (Qle_bool b a).   (* a < b  *)
Definition gtb (a b : Q) : bool := negb (Qle_bool a b).   (* a > b  *)
Definition leb (a b : Q) : bool := Qle_bool a b.          (* a <= b *)

(** Truthiness of a number: every number but 0 (NaN does not occur). *)
Definition truthy (a : Q) : bool := negb (Qeq_bool a 0).

(** Truthiness of a string: every string but the empty one. *)
Definition truthy_string (s : string) : bool := negb (String.eqb s "").

End Js.

(** ** utils/helpers.ts: calculateDiscount *)

Inductive DiscountType := PERCENTAGE | FIXED.

(** [maxDiscount] is the optional fourth parameter; [None] is [undefined]. *)
Definition calculateDiscount (amount : Q) (discountType : DiscountType)
    (discountValue : Q) (maxDiscount : option Q) : Q :=
  let discount :=
    match discountType with
    | PERCENTAGE =>
        let d := (amount * discountValue) / 100 in
        match maxDiscount with
        | Some m => if Js.truthy m && Js.gtb d m then m else d
        | None => d
        end
    | FIXED => discountValue
    end in
  Qmin discount amount.

(** ** Data model (prisma migration 20251004222708_dbevntmngmnt) *)

Definition Id := string.
Definition Timestamp := Z.
Bind Scope string_scope with Id.
Bind Scope Z_scope with Timestamp.

Definition id_eqb (a b : Id) : bool := String.eqb a b.

Inductive TransactionStatus :=
| WAITING_FOR_PAYMENT | WAITING_FOR_CONFIRMATION | DONE | REJECTED | EXPIRED | CANCELED.

Definition status_eqb (a b : TransactionStatus) : bool :=
  match a, b with
  | WAITING_FOR_PAYMENT, WAITING_FOR_PAYMENT
  | WAITING_FOR_CONFIRMATION, WAITING_FOR_CONFIRMATION
  | DONE, DONE | REJECTED, REJECTED | EXPIRED, EXPIRED | CANCELED, CANCELED => true
  | _, _ => false
  end.

Module Event.
Record t := mk {
  id : Id;  organizerId : Id;  startDate : Timestamp;
  availableSeats : Z;  bookedSeats : Z;  isPublished : bool }.
Definition with_bookedSeats (n : Z) (e : t) : t :=
  mk (id e) (organizerId e) (startDate e) (availableSeats e) n (isPublished e).
End Event.

Module EventTicketType.
Record t := mk {
  id : Id;  eventId : Id;  name : string;  price : Q;
  quantity : Z;  soldQuantity : Z }.
Definition with_soldQuantity (n : Z) (r : t) : t :=
  mk (id r) (eventId r) (name r) (price r) (quantity r) n.
End EventTicketType.

(** event_vouchers has no column bounding the discount amount. *)
Module EventVoucher.
Record t := mk {
  id : Id;  eventId : Id;  code : string;
  discountType : DiscountType;  discountValue : Q;
  maxUsage : Z;  usedCount : Z;  minPurchaseAmount : Q;
  startDate : Timestamp;  endDate : Timestamp }.
Definition with_usedCount (n : Z) (v : t) : t :=
  mk (id v) (eventId v) (code v) (discountType v) (discountValue v)
     (maxUsage v) n (minPurchaseAmount v) (startDate v) (endDate v).
End EventVoucher.

Module CouponTemplate.
Record t := mk {
  id : Id;  discountType : DiscountType;  discountValue : Q;
  minPurchaseAmount : Q;  maxDiscountAmount : option Q }.
End CouponTemplate.

Module UserCoupon.
Record t := mk {
  id : Id;  userId : Id;  couponTemplateId : Id;  code : string;
  isUsed : bool;  expiryDate : Timestamp }.
Definition with_isUsed (b : bool) (c : t) : t :=
  mk (id c) (userId c) (couponTemplateId c) (code c) b (expiryDate c).
End UserCoupon.

Module UserPoint.
Record t := mk {
  id : Id;  userId : Id;  amount : Q;  sourceType : string;
  expiryDate : Timestamp;  isExpired : bool;  createdAt : Timestamp }.
Definition with_amount (a : Q) (p : t) : t :=
  mk (id p) (userId p) a (sourceType p) (expiryDate p) (isExpired p) (createdAt p).
End UserPoint.

Module TransactionItem.
Record t := mk {
  ticketTypeId : Id;  quantity : Z;  pricePerTicket : Q;  subtotal : Q }.
End TransactionItem.

(** A transaction row together with its [items] relation, as the nested
    create writes it and [include: { items: true }] reads it. *)
Module Transaction.
Record t := mk {
  id : Id;  userId : Id;  eventId : Id;  invoiceNumber : string;
  status : TransactionStatus;
  totalAmount : Q;  pointsUsed : Q;
  voucherId : option Id;  voucherDiscount : Q;
  couponId : option Id;  couponDiscount : Q;
  finalAmount : Q;  expiryTime : Timestamp;
  items : list TransactionItem.t }.
Definition with_status (s : TransactionStatus) (x : t) : t :=
  mk (id x) (userId x) (eventId x) (invoiceNumber x) s
     (totalAmount x) (pointsUsed x) (voucherId x) (voucherDiscount x)
     (couponId x) (couponDiscount x) (finalAmount x) (expiryTime x) (items x).
End Transaction.

Module TransactionPayment.
Record t := mk { transactionId : Id;  paymentProofUrl : string }.
End TransactionPayment.

Module EventAttendee.
Record t := mk {
  eventId : Id;  userId : Id;  transactionId : Id;
  ticketCount : Z;  totalPaid : Q }.
End EventAttendee.

(** The database: one list of rows per table the service touches. *)
Module DB.
Record t := mk {
  event : list Event.t;
  eventTicketType : list EventTicketType.t;
  eventVoucher : list EventVoucher.t;
  couponTemplate : list CouponTemplate.t;
  userCoupon : list UserCoupon.t;
  userPoint : list UserPoint.t;
  transaction : list Transaction.t;
  transactionPayment : list TransactionPayment.t;
  eventAttendee : list EventAttendee.t }.

Definition with_event rows (d : t) : t :=
  mk rows (eventTicketType d) (eventVoucher d) (couponTemplate d) (userCoupon d)
     (userPoint d) (transaction d) (transactionPayment d) (eventAttendee d).
Definition with_eventTicketType rows (d : t) : t :=
  mk (event d) rows (eventVoucher d) (couponTemplate d) (userCoupon d)
     (userPoint d) (transaction d) (transactionPayment d) (eventAttendee d).
Definition with_eventVoucher rows (d : t) : t :=
  mk (event d) (eventTicketType d) rows (couponTemplate d) (userCoupon d)
     (userPoint d) (transaction d) (transactionPayment d) (eventAttendee d).
Definition with_userCoupon rows (d : t) : t :=
  mk (event d) (eventTicketType d) (eventVoucher d) (couponTemplate d) rows
     (userPoint d) (transaction d) (transactionPayment d) (eventAttendee d).
Definition with_userPoint rows (d : t) : t :=
  mk (event d) (eventTicketType d) (eventVoucher d) (couponTemplate d) (userCoupon d)
     rows (transaction d) (transactionPayment d) (eventAttendee d).
Definition with_transaction rows (d : t) : t :=
  mk (event d) (eventTicketType d) (eventVoucher d) (couponTemplate d) (userCoupon d)
     (userPoint d) rows (transactionPayment d) (eventAttendee d).
Definition with_transactionPayment rows (d : t) : t :=
  mk (event d) (eventTicketType d) (eventVoucher d) (couponTemplate d) (userCoupon d)
     (userPoint d) (transaction d) rows (eventAttendee d).
Definition with_eventAttendee rows (d : t) : t :=
  mk (event d) (eventTicketType d) (eventVoucher d) (couponTemplate d) (userCoupon d)
     (userPoint d) (transaction d) (transactionPayment d) rows.
End DB.

(** ** Errors and the service monad *)

(** [code] of [TransactionError] and its subclasses. *)
Inductive ErrorCode :=
| INVALID_INPUT | EVENT_NOT_AVAILABLE | TICKET_TYPES_NOT_FOUND | INVALID_QUANTITY
| INSUFFICIENT_TICKETS | INSUFFICIENT_SEATS | POINTS_ERROR | VOUCHER_ERROR
| COUPON_MINIMUM_NOT_MET | TRANSACTION_NOT_FOUND | TRANSACTION_EXPIRED.

Inductive Error :=
| TransactionError (code : ErrorCode)
| TicketQuantityExceeded        (* new Error(`Ticket quantity exceeded for ...`) *)
| RecordNotFound                (* Prisma P2025: update of a missing row *)
| UniqueConstraint              (* Prisma P2002: duplicate key on create *)
| TypeError                     (* property read on undefined *)
| UploadFailed.                 (* uploadToCloudinary rejected *)

Inductive Result (A : Type) :=
| Ok (a : A)
| Throw (e : Error).
Arguments Throw {A} e.

(** State survives an exception: what was written before a [throw] is
    still there until the enclosing [prisma_transaction] discards it. *)
Definition M (A : Type) : Type := DB.t -> Result A * DB.t.

Definition ret {A} (a : A) : M A := fun db => (Ok a, db).
Definition throw {A} (e : Error) : M A := fun db => (Throw e, db).
Definition bind {A B} (m : M A) (k : A -> M B) : M B :=
  fun db =>
    match m db with
    | (Ok a, db') => k a db'
    | (Throw e, db') => (Throw e, db')
    end.
Definition get : M DB.t := fun db => (Ok db, db).
Definition modify (f : DB.t -> DB.t) : M unit := fun db => (Ok tt, f db).
Definition lift {A} (r : Result A) : M A := fun db => (r, db).

Notation "x <- m ;; k" := (bind m (fun x => k))
  (at level 61, m at next level, right associativity).
Notation "m ;;; k" := (bind m (fun _ => k))
  (at level 61, right associativity).

(** [prisma.$transaction(async (tx) => body)]: interactive transaction;
    the writes of [body] are committed if it returns and rolled back if
    it throws. *)
Definition prisma_transaction {A} (body : M A) : M A :=
  fun db =>
    match body db with
    | (Ok a, db') => (Ok a, db')
    | (Throw e, _) => (Throw e, db)
    end.

(** ** Prisma queries on a table *)

Section Table.
Variable R : Type.
Variable key : R -> Id.

Definition findById (i : Id) (rows : list R) : option R :=
  find (fun r => id_eqb (key r) i) rows.

(** UPDATE ... WHERE id = i *)
Definition updateRows (i : Id) (f : R -> R) (rows : list R) : list R :=
  map (fun r => if id_eqb (key r) i then f r else r) rows.

(** [update({ where: { id }, data })] returns the updated row and throws
    when there is none. *)
Definition update (i : Id) (f : R -> R) (rows : list R) : Result (R * list R) :=
  match findById i rows with
  | None => Throw RecordNotFound
  | Some r => Ok (f r, updateRows i f rows)
  end.

(** [create({ data })] under the primary-key constraint. *)
Definition create (r : R) (rows : list R) : Result (list R) :=
  match findById (key r) rows with
  | Some _ => Throw UniqueConstraint
  | None => Ok (rows ++ [r])
  end.
End Table.

Notation "' pat <- m ;; k" :=
  (bind m (fun x => match x with pat => k end))
  (at level 61, pat pattern, m at next level, right associativity).

Definition updateTable {R} (table : DB.t -> list R) (store : list R -> DB.t -> DB.t)
    (key : R -> Id) (i : Id) (f : R -> R) : M R :=
  fun db =>
    match update key i f (table db) with
    | Ok (r, rows) => (Ok r, store rows db)
    | Throw e => (Throw e, db)
    end.

Definition createRow {R} (table : DB.t -> list R) (store : list R -> DB.t -> DB.t)
    (key : R -> Id) (r : R) : M R :=
  fun db =>
    match create key r (table db) with
    | Ok rows => (Ok r, store rows db)
    | Throw e => (Throw e, db)
    end.

(** [String.prototype.trim], on the ASCII white space characters. *)
Definition is_space (c : ascii) : bool :=
  let n := nat_of_ascii c in
  (Nat.eqb n 32 || (Nat.leb 9 n && Nat.leb n 13))%bool.

Fixpoint trimStart (s : string) : string :=
  match s with
  | EmptyString => EmptyString
  | String c s' => if is_space c then trimStart s' else s
  end.

Fixpoint trimEnd (s : string) : string :=
  match s with
  | EmptyString => EmptyString
  | String c s' =>
      let r := trimEnd s' in
      if (is_space c && String.eqb r "")%bool then EmptyString else String c r
  end.

Definition trim (s : string) : string := trimEnd (trimStart s).

(** ** types/index.ts: TransactionCreateRequest *)

Module TicketLine.
Record t := mk { ticketTypeId : Id;  quantity : Z }.
End TicketLine.

Module TransactionCreateRequest.
Record t := mk {
  eventId : Id;
  ticketTypes : list TicketLine.t;
  pointsUsed : option Q;
  voucherCode : option string;
  couponCode : option string }.
End TransactionCreateRequest.

(** What a call reads from outside the database: the clock, the key Prisma
    generates for a row the call creates, and the generated invoice number. *)
Record Env := mkEnv { now : Timestamp;  newId : Id;  newInvoiceNumber : string }.

(** Entry of the local [ticketUpdates] array of createTransaction. *)
Module TicketUpdate.
Record t := mk {
  id : Id;  quantity : Z;  currentSold : Z;  maxQuantity : Z;
  name : string;  price : Q }.
End TicketUpdate.

(** What [getTransactionById] returns of a booking: the row with its
    items, and the [payment] and [voucher] relations it includes (the
    voucher with the columns of its [select]; the event and user relations
    hold columns that are not modelled). *)
Module TransactionDetail.
Record t := mk {
  transaction : Transaction.t;
  payment : option TransactionPayment.t;
  voucher : option (string * DiscountType * Q) }.
End TransactionDetail.

(** ** TransactionService *)

Section Service.

(** [Date.prototype.setMonth] / [setHours] calendar arithmetic of the
    runtime, behind helpers.ts [addMonths] and [addHours]. *)
Variable addMonths : Timestamp -> Z -> Timestamp.
Variable addHours : Timestamp -> Z -> Timestamp.

(** *** createTransaction, step 1: the event and its requested ticket types *)

Definition findBookableEvent (now : Timestamp) (eventId : Id) (db : DB.t)
  : option Event.t :=
  find (fun e => id_eqb (Event.id e) eventId && Event.isPublished e
                 && (now <? Event.startDate e)%Z)%bool
       (DB.event db).

Definition includedTicketTypes (event : Event.t) (ticketTypes : list TicketLine.t)
    (db : DB.t) : list EventTicketType.t :=
  filter (fun t => id_eqb (EventTicketType.eventId t) (Event.id event)
                   && existsb (fun l => id_eqb (TicketLine.ticketTypeId l)
                                               (EventTicketType.id t)) ticketTypes)%bool
         (DB.eventTicketType db).

Definition missingTicketTypes (eventTicketTypes : list EventTicketType.t)
    (ticketTypes : list TicketLine.t) : list Id :=
  let foundTicketTypeIds := map EventTicketType.id eventTicketTypes in
  let requestedTicketTypeIds := map TicketLine.ticketTypeId ticketTypes in
  filter (fun i => negb (existsb (id_eqb i) foundTicketTypeIds)) requestedTicketTypeIds.

(** *** step 2: the availability loop *)

Fixpoint validateTickets (eventTicketTypes : list EventTicketType.t)
    (ticketTypes : list TicketLine.t) (totalAmount : Q)
    (ticketUpdates : list TicketUpdate.t) : Result (Q * list TicketUpdate.t) :=
  match ticketTypes with
  | [] => Ok (totalAmount, ticketUpdates)
  | item :: rest =>
      match findById EventTicketType.id (TicketLine.ticketTypeId item) eventTicketTypes with
      | None => validateTickets eventTicketTypes rest totalAmount ticketUpdates
      | Some ticketType =>
          if (TicketLine.quantity item <=? 0)%Z
          then Throw (TransactionError INVALID_QUANTITY)
          else
            let availableTickets :=
              (EventTicketType.quantity ticketType
               - EventTicketType.soldQuantity ticketType)%Z in
            if (TicketLine.quantity item >? availableTickets)%Z
            then Throw (TransactionError INSUFFICIENT_TICKETS)
            else
              validateTickets eventTicketTypes rest
                (totalAmount
                 + inject_Z (TicketLine.quantity item) * EventTicketType.price ticketType)
                (ticketUpdates ++
                 [TicketUpdate.mk (EventTicketType.id ticketType)
                    (TicketLine.quantity item)
                    (EventTicketType.soldQuantity ticketType)
                    (EventTicketType.quantity ticketType)
                    (EventTicketType.name ticketType)
                    (EventTicketType.price ticketType)])
      end
  end.

(** *** step 3: the event-level seat budget *)

Definition totalTicketsRequested (ticketTypes : list TicketLine.t) : Z :=
  fold_left (fun sum item => (sum + TicketLine.quantity item)%Z) ticketTypes 0%Z.

Definition availableEventSeats (event : Event.t) : Z :=
  (Event.availableSeats event - Event.bookedSeats event)%Z.

(** *** step 4: points *)

Definition sumAmount (rows : list UserPoint.t) : Q :=
  fold_right (fun p acc => UserPoint.amount p + acc) 0 rows.

(** All points on a user's lots, whatever their expiry. *)
Definition totalPoints (userId : Id) (db : DB.t) : Q :=
  sumAmount (filter (fun p => id_eqb (UserPoint.userId p) userId) (DB.userPoint db)).

(** [userPoint.aggregate({ where: { userId, isExpired: false,
    expiryDate: { gte: now } }, _sum: { amount } })] *)
Definition availablePoints (now : Timestamp) (userId : Id) (db : DB.t) : Q :=
  sumAmount
    (filter (fun p => id_eqb (UserPoint.userId p) userId
                      && negb (UserPoint.isExpired p)
                      && (now <=? UserPoint.expiryDate p)%Z)%bool
            (DB.userPoint db)).

Definition validatePoints (now : Timestamp) (userId : Id) (pointsUsed totalAmount : Q)
    (db : DB.t) : Result Q :=
  if Js.gtb pointsUsed 0 then
    if Js.gtb pointsUsed totalAmount then Throw (TransactionError POINTS_ERROR)
    else if Js.gtb pointsUsed (availablePoints now userId db)
         then Throw (TransactionError POINTS_ERROR)
         else Ok pointsUsed
  else Ok 0.

(** *** step 5: voucher *)

(** [voucherCode && voucherCode.trim() !== ''], then the trimmed code. *)
Definition suppliedCode (code : option string) : option string :=
  match code with
  | Some c =>
      if (Js.truthy_string c && negb (String.eqb (trim c) ""))%bool
      then Some (trim c) else None
  | None => None
  end.

Definition findVoucher (now : Timestamp) (eventId : Id) (code : string) (db : DB.t)
  : option EventVoucher.t :=
  find (fun v => String.eqb (EventVoucher.code v) code
                 && id_eqb (EventVoucher.eventId v) eventId
                 && (EventVoucher.startDate v <=? now)%Z
                 && (now <=? EventVoucher.endDate v)%Z)%bool
       (DB.eventVoucher db).

Definition validateVoucher (now : Timestamp) (eventId : Id) (voucherCode : option string)
    (totalAmount : Q) (db : DB.t) : Result (Q * option EventVoucher.t) :=
  match suppliedCode voucherCode with
  | None => Ok (0, None)
  | Some code =>
      match findVoucher now eventId code db with
      | None => Ok (0, None)
      | Some voucher =>
          if (EventVoucher.usedCount voucher >=? EventVoucher.maxUsage voucher)%Z
          then Throw (TransactionError VOUCHER_ERROR)
          else if Js.ltb totalAmount (EventVoucher.minPurchaseAmount voucher)
          then Throw (TransactionError VOUCHER_ERROR)
          else Ok (calculateDiscount totalAmount (EventVoucher.discountType voucher)
                     (EventVoucher.discountValue voucher) None,
                   Some voucher)
      end
  end.

(** *** step 6: coupon *)

(** [userCoupon.findFirst({ where: { code, userId, isUsed: false,
    expiryDate: { gte: now } }, include: { couponTemplate: true } })];
    the foreign key guarantees the template row. *)
Definition findCoupon (now : Timestamp) (userId : Id) (code : string) (db : DB.t)
  : option (UserCoupon.t * CouponTemplate.t) :=
  match find (fun c => String.eqb (UserCoupon.code c) code
                       && id_eqb (UserCoupon.userId c) userId
                       && negb (UserCoupon.isUsed c)
                       && (now <=? UserCoupon.expiryDate c)%Z)%bool
             (DB.userCoupon db) with
  | None => None
  | Some coupon =>
      match findById CouponTemplate.id (UserCoupon.couponTemplateId coupon)
              (DB.couponTemplate db) with
      | None => None
      | Some template => Some (coupon, template)
      end
  end.

Definition validateCoupon (now : Timestamp) (userId : Id) (couponCode : option string)
    (totalAmount : Q) (db : DB.t) : Result (Q * option UserCoupon.t) :=
  match suppliedCode couponCode with
  | None => Ok (0, None)
  | Some code =>
      match findCoupon now userId code db with
      | None => Ok (0, None)
      | Some (coupon, template) =>
          if Js.ltb totalAmount (CouponTemplate.minPurchaseAmount template)
          then Throw (TransactionError COUPON_MINIMUM_NOT_MET)
          else
            let maxDiscountSafe := CouponTemplate.maxDiscountAmount template in
            Ok (calculateDiscount totalAmount (CouponTemplate.discountType template)
                  (CouponTemplate.discountValue template) maxDiscountSafe,
                Some coupon)
      end
  end.

(** *** step 8: the transaction row and its items *)

Fixpoint makeItems (eventTicketTypes : list EventTicketType.t)
    (ticketTypes : list TicketLine.t) : Result (list TransactionItem.t) :=
  match ticketTypes with
  | [] => Ok []
  | item :: rest =>
      match findById EventTicketType.id (TicketLine.ticketTypeId item) eventTicketTypes with
      | None => Throw TypeError
      | Some ticketType =>
          match makeItems eventTicketTypes rest with
          | Throw e => Throw e
          | Ok items =>
              Ok (TransactionItem.mk (TicketLine.ticketTypeId item)
                    (TicketLine.quantity item)
                    (EventTicketType.price ticketType)
                    (inject_Z (TicketLine.quantity item) * EventTicketType.price ticketType)
                  :: items)
          end
      end
  end.

(** [transaction.create]: primary key and the unique invoice number. *)
Definition createTransactionRow (row : Transaction.t) : M Transaction.t :=
  fun db =>
    if existsb (fun x => String.eqb (Transaction.invoiceNumber x)
                                    (Transaction.invoiceNumber row))
               (DB.transaction db)
    then (Throw UniqueConstraint, db)
    else createRow DB.transaction DB.with_transaction Transaction.id row db.

(** *** step 9: ticket counters, re-checked after each increment *)

Fixpoint updateTicketCounts (ticketUpdates : list TicketUpdate.t) : M unit :=
  match ticketUpdates with
  | [] => ret tt
  | update :: rest =>
      updated <- updateTable DB.eventTicketType DB.with_eventTicketType EventTicketType.id
                   (TicketUpdate.id update)
                   (fun t => EventTicketType.with_soldQuantity
                               (EventTicketType.soldQuantity t + TicketUpdate.quantity update)%Z
                               t) ;;
      if (EventTicketType.soldQuantity updated >? TicketUpdate.maxQuantity update)%Z
      then throw TicketQuantityExceeded
      else updateTicketCounts rest
  end.

(** *** deductPoints *)

Fixpoint insertByExpiry (p : UserPoint.t) (sorted : list UserPoint.t) : list UserPoint.t :=
  match sorted with
  | [] => [p]
  | q :: rest =>
      if (UserPoint.expiryDate p <? UserPoint.expiryDate q)%Z
      then p :: sorted
      else q :: insertByExpiry p rest
  end.

(** [orderBy: { expiryDate: 'asc' }], rows of equal date in table order. *)
Definition orderByExpiryDate (rows : list UserPoint.t) : list UserPoint.t :=
  fold_right insertByExpiry [] rows.

Definition deductible (now : Timestamp) (userId : Id) (p : UserPoint.t) : bool :=
  (id_eqb (UserPoint.userId p) userId
   && negb (UserPoint.isExpired p)
   && (now <=? UserPoint.expiryDate p)%Z
   && Js.gtb (UserPoint.amount p) 0)%bool.

Fixpoint deductLoop (points : list UserPoint.t) (remainingAmount : Q) : M Q :=
  match points with
  | [] => ret remainingAmount
  | point :: rest =>
      if Js.leb remainingAmount 0 then ret remainingAmount
      else
        let deductAmount := Qmin remainingAmount (UserPoint.amount point) in
        _ <- updateTable DB.userPoint DB.with_userPoint UserPoint.id (UserPoint.id point)
               (fun p => UserPoint.with_amount (UserPoint.amount p - deductAmount) p) ;;
        deductLoop rest (remainingAmount - deductAmount)
  end.

Definition deductPoints (now : Timestamp) (userId : Id) (amount : Q) : M unit :=
  if Js.leb amount 0 then ret tt
  else
    db <- get ;;
    let points := orderByExpiryDate (filter (deductible now userId) (DB.userPoint db)) in
    remainingAmount <- deductLoop points amount ;;
    if Js.gtb remainingAmount 0 then throw (TransactionError POINTS_ERROR)
    else ret tt.

(** *** steps 10 to 12: booked seats, voucher usage, coupon latch *)

Definition updateEventBookedSeats (eventId : Id) (n : Z) : M unit :=
  updateTable DB.event DB.with_event Event.id eventId
    (fun e => Event.with_bookedSeats (Event.bookedSeats e + n)%Z e)
  ;;; ret tt.

Definition updateVoucherUsage (appliedVoucher : option EventVoucher.t) : M unit :=
  match appliedVoucher with
  | Some v =>
      updateTable DB.eventVoucher DB.with_eventVoucher EventVoucher.id (EventVoucher.id v)
        (fun r => EventVoucher.with_usedCount (EventVoucher.usedCount r + 1)%Z r)
      ;;; ret tt
  | None => ret tt
  end.

Definition markCouponAsUsed (appliedCoupon : option UserCoupon.t) : M unit :=
  match appliedCoupon with
  | Some c =>
      updateTable DB.userCoupon DB.with_userCoupon UserCoupon.id (UserCoupon.id c)
        (UserCoupon.with_isUsed true)
      ;;; ret tt
  | None => ret tt
  end.

(** *** createTransaction *)

Definition createTransaction (env : Env) (userId : Id)
    (transactionData : TransactionCreateRequest.t) : M Transaction.t :=
  let eventId := TransactionCreateRequest.eventId transactionData in
  let ticketTypes := TransactionCreateRequest.ticketTypes transactionData in
  let pointsUsed :=
    match TransactionCreateRequest.pointsUsed transactionData with
    | Some p => p
    | None => 0
    end in
  let voucherCode := TransactionCreateRequest.voucherCode transactionData in
  let couponCode := TransactionCreateRequest.couponCode transactionData in
  match ticketTypes with
  | [] => throw (TransactionError INVALID_INPUT)
  | _ :: _ =>
    prisma_transaction (
      db <- get ;;
      match findBookableEvent (now env) eventId db with
      | None => throw (TransactionError EVENT_NOT_AVAILABLE)
      | Some event =>
        let eventTicketTypes := includedTicketTypes event ticketTypes db in
        match missingTicketTypes eventTicketTypes ticketTypes with
        | _ :: _ => throw (TransactionError TICKET_TYPES_NOT_FOUND)
        | [] =>
          ' (totalAmount, ticketUpdates) <-
             lift (validateTickets eventTicketTypes ticketTypes 0 []) ;;
          if (totalTicketsRequested ticketTypes >? availableEventSeats event)%Z
          then throw (TransactionError INSUFFICIENT_SEATS)
          else
            pointsDiscount <-
              lift (validatePoints (now env) userId pointsUsed totalAmount db) ;;
            ' (voucherDiscount, appliedVoucher) <-
               lift (validateVoucher (now env) eventId voucherCode totalAmount db) ;;
            ' (couponDiscount, appliedCoupon) <-
               lift (validateCoupon (now env) userId couponCode totalAmount db) ;;
            let finalAmount :=
              Qmax 0 (totalAmount - pointsDiscount - voucherDiscount - couponDiscount) in
            items <- lift (makeItems eventTicketTypes ticketTypes) ;;
            transaction <-
              createTransactionRow
                (Transaction.mk (newId env) userId eventId (newInvoiceNumber env)
                   WAITING_FOR_PAYMENT totalAmount pointsDiscount
                   (option_map EventVoucher.id appliedVoucher) voucherDiscount
                   (option_map UserCoupon.id appliedCoupon) couponDiscount
                   finalAmount (addHours (now env) 2) items) ;;
            updateTicketCounts ticketUpdates ;;;
            updateEventBookedSeats eventId (totalTicketsRequested ticketTypes) ;;;
            updateVoucherUsage appliedVoucher ;;;
            markCouponAsUsed appliedCoupon ;;;
            (if Js.gtb pointsUsed 0
             then deductPoints (now env) userId pointsDiscount
             else ret tt) ;;;
            ret transaction
        end
      end)
  end.

(** *** restorePoints *)

(** [userPoint.findFirst({ where: { userId }, orderBy: { createdAt: 'desc' } })]:
    a scan that keeps the row created last, the earlier row on a tie. *)
Definition laterPoint (userId : Id) (best : option UserPoint.t) (p : UserPoint.t)
  : option UserPoint.t :=
  if id_eqb (UserPoint.userId p) userId then
    match best with
    | None => Some p
    | Some b =>
        if (UserPoint.createdAt b <? UserPoint.createdAt p)%Z then Some p else Some b
    end
  else best.

Definition latestPoint (userId : Id) (rows : list UserPoint.t) : option UserPoint.t :=
  fold_left (laterPoint userId) rows None.

Definition restorePoints (env : Env) (userId : Id) (amount : Q) : M unit :=
  if Js.leb amount 0 then ret tt
  else
    db <- get ;;
    match latestPoint userId (DB.userPoint db) with
    | Some existingPoint =>
        updateTable DB.userPoint DB.with_userPoint UserPoint.id (UserPoint.id existingPoint)
          (fun p => UserPoint.with_amount (UserPoint.amount p + amount) p)
        ;;; ret tt
    | None =>
        createRow DB.userPoint DB.with_userPoint UserPoint.id
          (UserPoint.mk (newId env) userId amount "REFUND"
             (addMonths (now env) 3) false (now env))
        ;;; ret tt
    end.

(** *** rollbackTransaction *)

Fixpoint rollbackItems (items : list TransactionItem.t) : M unit :=
  match items with
  | [] => ret tt
  | item :: rest =>
      updateTable DB.eventTicketType DB.with_eventTicketType EventTicketType.id
        (TransactionItem.ticketTypeId item)
        (fun t => EventTicketType.with_soldQuantity
                    (EventTicketType.soldQuantity t - TransactionItem.quantity item)%Z t)
      ;;; rollbackItems rest
  end.

Definition totalTickets (items : list TransactionItem.t) : Z :=
  fold_left (fun sum item => (sum + TransactionItem.quantity item)%Z) items 0%Z.

(** [if (transaction.voucherId)]: a present, non-empty key. *)
Definition presentId (i : option Id) : option Id :=
  match i with
  | Some s => if Js.truthy_string s then Some s else None
  | None => None
  end.

Definition rollbackBookedSeats (eventId : Id) (n : Z) : M unit :=
  updateTable DB.event DB.with_event Event.id eventId
    (fun e => Event.with_bookedSeats (Event.bookedSeats e - n)%Z e)
  ;;; ret tt.

Definition rollbackVoucherUsage (voucherId : option Id) : M unit :=
  match presentId voucherId with
  | Some i =>
      updateTable DB.eventVoucher DB.with_eventVoucher EventVoucher.id i
        (fun r => EventVoucher.with_usedCount (EventVoucher.usedCount r - 1)%Z r)
      ;;; ret tt
  | None => ret tt
  end.

Definition rollbackCouponUsage (couponId : option Id) : M unit :=
  match presentId couponId with
  | Some i =>
      updateTable DB.userCoupon DB.with_userCoupon UserCoupon.id i
        (UserCoupon.with_isUsed false)
      ;;; ret tt
  | None => ret tt
  end.

Definition rollbackTransaction (env : Env) (transactionId : Id) : M unit :=
  db <- get ;;
  match findById Transaction.id transactionId (DB.transaction db) with
  | None => ret tt
  | Some transaction =>
      rollbackItems (Transaction.items transaction) ;;;
      rollbackBookedSeats (Transaction.eventId transaction)
        (totalTickets (Transaction.items transaction)) ;;;
      rollbackVoucherUsage (Transaction.voucherId transaction) ;;;
      rollbackCouponUsage (Transaction.couponId transaction) ;;;
      if Js.gtb (Transaction.pointsUsed transaction) 0
      then restorePoints env (Transaction.userId transaction)
             (Transaction.pointsUsed transaction)
      else ret tt
  end.

(** *** confirmTransaction *)

(** [transaction.findFirst({ where: { id, event: { organizerId },
    status: 'WAITING_FOR_CONFIRMATION' } })] *)
Definition findForConfirmation (transactionId organizerId : Id) (db : DB.t)
  : option Transaction.t :=
  find (fun x => id_eqb (Transaction.id x) transactionId
                 && existsb (fun e => id_eqb (Event.id e) (Transaction.eventId x)
                                      && id_eqb (Event.organizerId e) organizerId)
                            (DB.event db)
                 && status_eqb (Transaction.status x) WAITING_FOR_CONFIRMATION)%bool
       (DB.transaction db).

Definition confirmTransaction (env : Env) (transactionId organizerId : Id)
    (isAccepted : bool) : M Transaction.t :=
  prisma_transaction (
    db <- get ;;
    match findForConfirmation transactionId organizerId db with
    | None => throw (TransactionError TRANSACTION_NOT_FOUND)
    | Some transaction =>
        let newStatus := if isAccepted then DONE else REJECTED in
        (if isAccepted then
           createRow DB.eventAttendee DB.with_eventAttendee EventAttendee.transactionId
             (EventAttendee.mk (Transaction.eventId transaction)
                (Transaction.userId transaction) transactionId
                (totalTickets (Transaction.items transaction))
                (Transaction.finalAmount transaction))
           ;;; ret tt
         else rollbackTransaction env transactionId) ;;;
        updateTable DB.transaction DB.with_transaction Transaction.id transactionId
          (Transaction.with_status newStatus)
    end).

(** *** expireTransaction *)

Definition expireTransaction (env : Env) (transactionId : Id) : M unit :=
  db <- get ;;
  match findById Transaction.id transactionId (DB.transaction db) with
  | None => ret tt
  | Some transaction =>
      if negb (status_eqb (Transaction.status transaction) WAITING_FOR_PAYMENT)
      then ret tt
      else
        updateTable DB.transaction DB.with_transaction Transaction.id transactionId
          (Transaction.with_status EXPIRED) ;;;
        rollbackTransaction env transactionId
  end.

(** *** uploadPaymentProof *)

Definition findForPayment (transactionId userId : Id) (db : DB.t) : option Transaction.t :=
  find (fun x => id_eqb (Transaction.id x) transactionId
                 && id_eqb (Transaction.userId x) userId
                 && status_eqb (Transaction.status x) WAITING_FOR_PAYMENT)%bool
       (DB.transaction db).

(** [transactionPayment.upsert({ where: { transactionId }, update, create })] *)
Definition upsertPayment (transactionId : Id) (paymentProofUrl : string)
  : M TransactionPayment.t :=
  fun db =>
    let row := TransactionPayment.mk transactionId paymentProofUrl in
    match findById TransactionPayment.transactionId transactionId
            (DB.transactionPayment db) with
    | Some _ =>
        (Ok row,
         DB.with_transactionPayment
           (updateRows TransactionPayment.transactionId transactionId
              (fun _ => row) (DB.transactionPayment db)) db)
    | None =>
        (Ok row, DB.with_transactionPayment (DB.transactionPayment db ++ [row]) db)
    end.

(** [uploaded] is the outcome of [uploadToCloudinary(file)]: the stored
    file's URL, or [None] when the promise rejects. *)
Definition uploadPaymentProof (env : Env) (transactionId userId : Id)
    (uploaded : option string) : M TransactionPayment.t :=
  prisma_transaction (
    db <- get ;;
    match findForPayment transactionId userId db with
    | None => throw (TransactionError TRANSACTION_NOT_FOUND)
    | Some transaction =>
        if (now env >? Transaction.expiryTime transaction)%Z
        then
          expireTransaction env transactionId ;;;
          throw (TransactionError TRANSACTION_EXPIRED)
        else
          match uploaded with
          | None => throw UploadFailed
          | Some paymentProofUrl =>
              payment <- upsertPayment transactionId paymentProofUrl ;;
              updateTable DB.transaction DB.with_transaction Transaction.id transactionId
                (Transaction.with_status WAITING_FOR_CONFIRMATION) ;;;
              ret payment
          end
    end).

(** *** getTransactionById *)

(** [...(userId ? { userId } : {})]: the owner is part of the filter only
    when a non-empty [userId] is passed. *)
Definition getTransactionById (transactionId : Id) (userId : option Id) (db : DB.t)
  : Result TransactionDetail.t :=
  match find (fun x => id_eqb (Transaction.id x) transactionId
                       && match presentId userId with
                          | Some u => id_eqb (Transaction.userId x) u
                          | None => true
                          end)%bool
             (DB.transaction db) with
  | None => Throw (TransactionError TRANSACTION_NOT_FOUND)
  | Some transaction =>
      Ok (TransactionDetail.mk transaction
            (findById TransactionPayment.transactionId transactionId
               (DB.transactionPayment db))
            (match Transaction.voucherId transaction with
             | Some i =>
                 option_map (fun v => (EventVoucher.code v, EventVoucher.discountType v,
                                       EventVoucher.discountValue v))
                            (findById EventVoucher.id i (DB.eventVoucher db))
             | None => None
             end))
  end.


(** ** The engine as a transition system *)

Inductive Op :=
| OpCreate (env : Env) (userId : Id) (transactionData : TransactionCreateRequest.t)
| OpUpload (env : Env) (transactionId userId : Id) (uploaded : option string)
| OpConfirm (env : Env) (transactionId organizerId : Id) (isAccepted : bool)
| OpExpire (env : Env) (transactionId : Id).

(** The committed state after one call.  [OpExpire] is the expiry path
    run as a unit of work of its own. *)
Definition step (db : DB.t) (op : Op) : DB.t :=
  match op with
  | OpCreate env userId transactionData =>
      snd (createTransaction env userId transactionData db)
  | OpUpload env transactionId userId uploaded =>
      snd (uploadPaymentProof env transactionId userId uploaded db)
  | OpConfirm env transactionId organizerId isAccepted =>
      snd (confirmTransaction env transactionId organizerId isAccepted db)
  | OpExpire env transactionId =>
      snd (prisma_transaction (expireTransaction env transactionId) db)
  end.

Definition run (db : DB.t) (ops : list Op) : DB.t := fold_left step ops db.

End Service.

(** ** services/voucherService.ts: VoucherService *)

(** The service throws plain [Error]s: [new Error(message)].  The message
    of the minimum purchase error ends in the formatted amount, kept apart
    here; an error thrown below the service (by the Prisma client or the
    runtime) passes through. *)
Inductive Failure :=
| PlainError (message : string)
| PlainErrorWithAmount (message : string) (amount : Q)
| Rethrown (e : Error).

Inductive Outcome (A : Type) :=
| Returned (a : A)
| Raised (e : Failure).
Arguments Raised {A} e.

Definition Plain (A : Type) : Type := DB.t -> Outcome A * DB.t.

(** [prisma.$transaction] around a callback that throws plain errors. *)
Definition plain_transaction {A} (body : Plain A) : Plain A :=
  fun db =>
    match body db with
    | (Returned a, db') => (Returned a, db')
    | (Raised e, _) => (Raised e, db)
    end.

Module VoucherCreateRequest.
Record t := mk {
  code : string;  discountType : DiscountType;  discountValue : Q;
  maxUsage : Z;  minPurchaseAmount : option Q;
  startDate : Timestamp;  endDate : Timestamp }.
End VoucherCreateRequest.

(** [Partial<VoucherCreateRequest>]: a field that is absent is not written. *)
Module VoucherUpdate.
Record t := mk {
  code : option string;  discountType : option DiscountType;  discountValue : option Q;
  maxUsage : option Z;  minPurchaseAmount : option Q;
  startDate : option Timestamp;  endDate : option Timestamp }.
End VoucherUpdate.

Module VoucherService.

(** [event.findFirst({ where: { id: eventId, organizerId } })] *)
Definition ownedEvent (eventId organizerId : Id) (db : DB.t) : option Event.t :=
  find (fun e => id_eqb (Event.id e) eventId
                 && id_eqb (Event.organizerId e) organizerId)%bool
       (DB.event db).

(** [eventVoucher.findFirst({ where: { id: voucherId, event: { organizerId } } })] *)
Definition ownedVoucher (voucherId organizerId : Id) (db : DB.t) : option EventVoucher.t :=
  find (fun v => id_eqb (EventVoucher.id v) voucherId
                 && existsb (fun e => id_eqb (Event.id e) (EventVoucher.eventId v)
                                      && id_eqb (Event.organizerId e) organizerId)
                            (DB.event db))%bool
       (DB.eventVoucher db).

(** [usedCount] takes the default of its column. *)
Definition createVoucher (env : Env) (eventId organizerId : Id)
    (voucherData : VoucherCreateRequest.t) : Plain EventVoucher.t :=
  plain_transaction (fun db =>
    match ownedEvent eventId organizerId db with
    | None => (Raised (PlainError "Event not found or access denied"), db)
    | Some event =>
        match find (fun v => String.eqb (EventVoucher.code v)
                                        (VoucherCreateRequest.code voucherData))
                   (DB.eventVoucher db) with
        | Some existingVoucher => (Raised (PlainError "Voucher code already exists"), db)
        | None =>
            let voucher :=
              EventVoucher.mk (newId env) eventId
                (VoucherCreateRequest.code voucherData)
                (VoucherCreateRequest.discountType voucherData)
                (VoucherCreateRequest.discountValue voucherData)
                (VoucherCreateRequest.maxUsage voucherData)
                0
                (match VoucherCreateRequest.minPurchaseAmount voucherData with
                 | Some a => if Js.truthy a then a else 0
                 | None => 0
                 end)
                (VoucherCreateRequest.startDate voucherData)
                (VoucherCreateRequest.endDate voucherData) in
            match create EventVoucher.id voucher (DB.eventVoucher db) with
            | Ok rows => (Returned voucher, DB.with_eventVoucher rows db)
            | Throw e => (Raised (Rethrown e), db)
            end
        end
    end).

(** [eventVoucher.findMany({ where: { eventId, startDate: { lte: now },
    endDate: { gte: now }, usedCount: { lt: maxUsage } }, select })]; the
    [select] keeps the columns of the record but [eventId]. *)
Definition getActiveVouchers (now : Timestamp) (eventId : Id) (db : DB.t)
  : list EventVoucher.t :=
  filter (fun v => id_eqb (EventVoucher.eventId v) eventId
                   && (EventVoucher.startDate v <=? now)%Z
                   && (now <=? EventVoucher.endDate v)%Z
                   && (EventVoucher.usedCount v <? EventVoucher.maxUsage v)%Z)%bool
         (DB.eventVoucher db).

Definition orElse {A} (o : option A) (a : A) : A :=
  match o with
  | Some x => x
  | None => a
  end.

(** [data: updateData] *)
Definition applyUpdate (updateData : VoucherUpdate.t) (v : EventVoucher.t)
  : EventVoucher.t :=
  EventVoucher.mk (EventVoucher.id v) (EventVoucher.eventId v)
    (orElse (VoucherUpdate.code updateData) (EventVoucher.code v))
    (orElse (VoucherUpdate.discountType updateData) (EventVoucher.discountType v))
    (orElse (VoucherUpdate.discountValue updateData) (EventVoucher.discountValue v))
    (orElse (VoucherUpdate.maxUsage updateData) (EventVoucher.maxUsage v))
    (EventVoucher.usedCount v)
    (orElse (VoucherUpdate.minPurchaseAmount updateData) (EventVoucher.minPurchaseAmount v))
    (orElse (VoucherUpdate.startDate updateData) (EventVoucher.startDate v))
    (orElse (VoucherUpdate.endDate updateData) (EventVoucher.endDate v)).

(** [eventVoucher.update({ where: { id: voucherId }, data: updateData })]
    under the unique index event_vouchers_code_key. *)
Definition updateVoucherRow (voucherId : Id) (updateData : VoucherUpdate.t)
  : Plain EventVoucher.t :=
  fun db =>
    match update EventVoucher.id voucherId (applyUpdate updateData)
            (DB.eventVoucher db) with
    | Throw e => (Raised (Rethrown e), db)
    | Ok (updatedVoucher, rows) =>
        if existsb (fun v => negb (id_eqb (EventVoucher.id v) voucherId)
                             && String.eqb (EventVoucher.code v)
                                           (EventVoucher.code updatedVoucher))%bool
                   (DB.eventVoucher db)
        then (Raised (Rethrown UniqueConstraint), db)
        else (Returned updatedVoucher, DB.with_eventVoucher rows db)
    end.

Definition updateVoucher (voucherId organizerId : Id) (updateData : VoucherUpdate.t)
  : Plain EventVoucher.t :=
  plain_transaction (fun db =>
    match ownedVoucher voucherId organizerId db with
    | None => (Raised (PlainError "Voucher not found or access denied"), db)
    | Some voucher =>
        let existingVoucher :=
          match VoucherUpdate.code updateData with
          | Some code =>
              if (Js.truthy_string code
                  && negb (String.eqb code (EventVoucher.code voucher)))%bool
              then find (fun v => String.eqb (EventVoucher.code v) code
                                  && negb (id_eqb (EventVoucher.id v) voucherId))%bool
                        (DB.eventVoucher db)
              else None
          | None => None
          end in
        match existingVoucher with
        | Some _ => (Raised (PlainError "Voucher code already exists"), db)
        | None => updateVoucherRow voucherId updateData db
        end
    end).

(** The voucher relation of a booking after its voucher row is deleted:
    transactions_voucherId_fkey is ON DELETE SET NULL. *)
Definition clearVoucher (voucherId : Id) (x : Transaction.t) : Transaction.t :=
  match Transaction.voucherId x with
  | Some i =>
      if id_eqb i voucherId
      then Transaction.mk (Transaction.id x) (Transaction.userId x) (Transaction.eventId x)
             (Transaction.invoiceNumber x) (Transaction.status x)
             (Transaction.totalAmount x) (Transaction.pointsUsed x)
             None (Transaction.voucherDiscount x)
             (Transaction.couponId x) (Transaction.couponDiscount x)
             (Transaction.finalAmount x) (Transaction.expiryTime x) (Transaction.items x)
      else x
  | None => x
  end.

Definition deleteVoucher (voucherId organizerId : Id) : Plain string :=
  fun db =>
    match ownedVoucher voucherId organizerId db with
    | None => (Raised (PlainError "Voucher not found or access denied"), db)
    | Some voucher =>
        (Returned "Voucher deleted successfully"%string,
         DB.with_transaction (map (clearVoucher voucherId) (DB.transaction db))
           (DB.with_eventVoucher
              (filter (fun v => negb (id_eqb (EventVoucher.id v) voucherId))
                      (DB.eventVoucher db))
              db))
    end.

Definition validateVoucher (now : Timestamp) (code : string) (eventId : Id)
    (totalAmount : Q) (db : DB.t) : Outcome EventVoucher.t :=
  match find (fun v => String.eqb (EventVoucher.code v) code
                       && id_eqb (EventVoucher.eventId v) eventId
                       && (EventVoucher.startDate v <=? now)%Z
                       && (now <=? EventVoucher.endDate v)%Z
                       && (EventVoucher.usedCount v <? EventVoucher.maxUsage v)%Z)%bool
             (DB.eventVoucher db) with
  | None => Raised (PlainError "Invalid or expired voucher")
  | Some voucher =>
      if Js.ltb totalAmount (EventVoucher.minPurchaseAmount voucher)
      then Raised (PlainErrorWithAmount "Minimum purchase amount for this voucher is "
                     (EventVoucher.minPurchaseAmount voucher))
      else Returned voucher
  end.

(** The calls of the service that write, as operations on the database. *)
Inductive Op :=
| OpCreate (env : Env) (eventId organizerId : Id) (voucherData : VoucherCreateRequest.t)
| OpUpdate (voucherId organizerId : Id) (updateData : VoucherUpdate.t)
| OpDelete (voucherId organizerId : Id).

Definition step (db : DB.t) (op : Op) : DB.t :=
  match op with
  | OpCreate env eventId organizerId voucherData =>
      snd (createVoucher env eventId organizerId voucherData db)
  | OpUpdate voucherId organizerId updateData =>
      snd (updateVoucher voucherId organizerId updateData db)
  | OpDelete voucherId organizerId =>
      snd (deleteVoucher voucherId organizerId db)
  end.

End VoucherService.

(** ** The older TransactionService (unnamed/part_001)

    The copy of the service from before the fixes: createTransaction and
    deductPoints differ from the ones above, the other methods are the
    same up to the errors they throw, which are plain [Error]s here. *)

Definition plain_ret {A} (a : A) : Plain A := fun db => (Returned a, db).
Definition plain_raise {A} (message : string) : Plain A :=
  fun db => (Raised (PlainError message), db).
Definition plain_bind {A B} (m : Plain A) (k : A -> Plain B) : Plain B :=
  fun db =>
    match m db with
    | (Returned a, db') => k a db'
    | (Raised e, db') => (Raised e, db')
    end.
(** A call of the Prisma client, or of a helper modelled on it: what it
    throws passes through. *)
Definition call {A} (m : M A) : Plain A :=
  fun db =>
    match m db with
    | (Ok a, db') => (Returned a, db')
    | (Throw e, db') => (Raised (Rethrown e), db')
    end.
Definition plain_lift {A} (r : Outcome A) : Plain A := fun db => (r, db).

Notation "x <~ m ;; k" := (plain_bind m (fun x => k))
  (at level 61, m at next level, right associativity).
Notation "m ;;~ k" := (plain_bind m (fun _ => k))
  (at level 61, right associativity).
Notation "' pat <~ m ;; k" :=
  (plain_bind m (fun x => match x with pat => k end))
  (at level 61, pat pattern, m at next level, right associativity).

Module Legacy.

Section Service.

Variable addHours : Timestamp -> Z -> Timestamp.

(** [event.findFirst({ where: { id: eventId, isPublished: true },
    include: { ticketTypes: true } })] *)
Definition findPublishedEvent (eventId : Id) (db : DB.t) : option Event.t :=
  find (fun e => id_eqb (Event.id e) eventId && Event.isPublished e)%bool (DB.event db).

Definition ticketTypesOf (event : Event.t) (db : DB.t) : list EventTicketType.t :=
  filter (fun t => id_eqb (EventTicketType.eventId t) (Event.id event))
         (DB.eventTicketType db).

(** The loop over the requested lines; [ticketUpdates] holds pairs
    [{ id, quantity }]. *)
Fixpoint validateTickets (eventTicketTypes : list EventTicketType.t)
    (ticketTypes : list TicketLine.t) (totalAmount : Q)
    (ticketUpdates : list (Id * Z)) : Outcome (Q * list (Id * Z)) :=
  match ticketTypes with
  | [] => Returned (totalAmount, ticketUpdates)
  | item :: rest =>
      match findById EventTicketType.id (TicketLine.ticketTypeId item) eventTicketTypes with
      | None =>
          Raised (PlainError ("Ticket type " ++ TicketLine.ticketTypeId item ++ " not found"))
      | Some ticketType =>
          if (EventTicketType.soldQuantity ticketType + TicketLine.quantity item
              >? EventTicketType.quantity ticketType)%Z
          then Raised (PlainError ("Not enough tickets for "
                                   ++ EventTicketType.name ticketType))
          else
            validateTickets eventTicketTypes rest
              (totalAmount
               + inject_Z (TicketLine.quantity item) * EventTicketType.price ticketType)
              (ticketUpdates ++ [(EventTicketType.id ticketType, TicketLine.quantity item)])
      end
  end.

Definition validatePoints (now : Timestamp) (userId : Id) (pointsUsed totalAmount : Q)
    (db : DB.t) : Outcome Q :=
  if Js.gtb pointsUsed 0 then
    if Js.gtb pointsUsed (availablePoints now userId db)
    then Raised (PlainError "Insufficient points")
    else Returned (Qmin pointsUsed totalAmount)
  else Returned 0.

(** [if (voucherCode)]: the code is looked up as it was sent. *)
Definition validateVoucher (now : Timestamp) (eventId : Id) (voucherCode : option string)
    (totalAmount : Q) (db : DB.t) : Outcome (Q * option EventVoucher.t) :=
  match voucherCode with
  | Some code =>
      if Js.truthy_string code then
        match findVoucher now eventId code db with
        | None => Raised (PlainError "Invalid or expired voucher")
        | Some voucher =>
            if Js.ltb totalAmount (EventVoucher.minPurchaseAmount voucher)
            then Raised (PlainErrorWithAmount "Minimum purchase for voucher is "
                           (EventVoucher.minPurchaseAmount voucher))
            else Returned (calculateDiscount totalAmount (EventVoucher.discountType voucher)
                             (EventVoucher.discountValue voucher) None,
                           Some voucher)
        end
      else Returned (0, None)
  | None => Returned (0, None)
  end.

Definition validateCoupon (now : Timestamp) (userId : Id) (couponCode : option string)
    (totalAmount : Q) (db : DB.t) : Outcome (Q * option UserCoupon.t) :=
  match couponCode with
  | Some code =>
      if Js.truthy_string code then
        match findCoupon now userId code db with
        | None => Raised (PlainError "Invalid or expired coupon")
        | Some (coupon, template) =>
            if Js.ltb totalAmount (CouponTemplate.minPurchaseAmount template)
            then Raised (PlainErrorWithAmount "Minimum purchase for coupon is "
                           (CouponTemplate.minPurchaseAmount template))
            else
              let maxDiscountSafe := CouponTemplate.maxDiscountAmount template in
              Returned (calculateDiscount totalAmount (CouponTemplate.discountType template)
                          (CouponTemplate.discountValue template) maxDiscountSafe,
                        Some coupon)
        end
      else Returned (0, None)
  | None => Returned (0, None)
  end.

(** The increments of the sold counters, with no check after them. *)
Fixpoint updateTicketsSold (ticketUpdates : list (Id * Z)) : M unit :=
  match ticketUpdates with
  | [] => ret tt
  | update :: rest =>
      updateTable DB.eventTicketType DB.with_eventTicketType EventTicketType.id
        (fst update)
        (fun t => EventTicketType.with_soldQuantity
                    (EventTicketType.soldQuantity t + snd update)%Z t)
      ;;; updateTicketsSold rest
  end.

(** The lots are read without the [amount > 0] filter, and what could
    not be taken is not reported. *)
Definition deductPoints (now : Timestamp) (userId : Id) (amount : Q) : M unit :=
  db <- get ;;
  let points :=
    orderByExpiryDate
      (filter (fun p => id_eqb (UserPoint.userId p) userId
                        && negb (UserPoint.isExpired p)
                        && (now <=? UserPoint.expiryDate p)%Z)%bool
              (DB.userPoint db)) in
  deductLoop points amount ;;; ret tt.

Definition createTransaction (env : Env) (userId : Id)
    (transactionData : TransactionCreateRequest.t) : Plain Transaction.t :=
  let eventId := TransactionCreateRequest.eventId transactionData in
  let ticketTypes := TransactionCreateRequest.ticketTypes transactionData in
  let pointsUsed :=
    match TransactionCreateRequest.pointsUsed transactionData with
    | Some p => p
    | None => 0
    end in
  let voucherCode := TransactionCreateRequest.voucherCode transactionData in
  let couponCode := TransactionCreateRequest.couponCode transactionData in
  plain_transaction (
    db <~ call get ;;
    match findPublishedEvent eventId db with
    | None => plain_raise "Event not found or not published"
    | Some event =>
      let eventTicketTypes := ticketTypesOf event db in
      ' (totalAmount, ticketUpdates) <~
         plain_lift (validateTickets eventTicketTypes ticketTypes 0 []) ;;
      pointsDiscount <~
        plain_lift (validatePoints (now env) userId pointsUsed totalAmount db) ;;
      ' (voucherDiscount, appliedVoucher) <~
         plain_lift (validateVoucher (now env) eventId voucherCode totalAmount db) ;;
      ' (couponDiscount, appliedCoupon) <~
         plain_lift (validateCoupon (now env) userId couponCode totalAmount db) ;;
      let finalAmount :=
        Qmax 0 (totalAmount - pointsDiscount - voucherDiscount - couponDiscount) in
      items <~ call (lift (makeItems eventTicketTypes ticketTypes)) ;;
      transaction <~
        call (createTransactionRow
                  (Transaction.mk (newId env) userId eventId (newInvoiceNumber env)
                     WAITING_FOR_PAYMENT totalAmount pointsDiscount
                     (option_map EventVoucher.id appliedVoucher) voucherDiscount
                     (option_map UserCoupon.id appliedCoupon) couponDiscount
                     finalAmount (addHours (now env) 2) items)) ;;
      call (updateTicketsSold ticketUpdates) ;;~
      call (updateEventBookedSeats eventId (totalTicketsRequested ticketTypes)) ;;~
      call (markCouponAsUsed appliedCoupon) ;;~
      call (updateVoucherUsage appliedVoucher) ;;~
      call (if Js.gtb pointsUsed 0
              then deductPoints (now env) userId pointsDiscount
              else ret tt) ;;~
      plain_ret transaction
    end).

End Service.

End Legacy.

(** ** Vocabulary of the properties *)

Definition preserves {T A} (proj : DB.t -> T) (m : M A) : Prop :=
  forall db, proj (snd (m db)) = proj db.

Definition decided (isAccepted : bool) : TransactionStatus :=
  if isAccepted then DONE else REJECTED.




(** Tickets of type [i] in a list of (ticket type, quantity) pairs. *)
Definition quantityFor (i : Id) (l : list (Id * Z)) : Z :=
  fold_right (fun e acc => if id_eqb (fst e) i then (snd e + acc)%Z else acc) 0%Z l.

Definition lineKeys (ticketTypes : list TicketLine.t) : list (Id * Z) :=
  map (fun l => (TicketLine.ticketTypeId l, TicketLine.quantity l)) ticketTypes.
Definition updateKeys (ticketUpdates : list TicketUpdate.t) : list (Id * Z) :=
  map (fun u => (TicketUpdate.id u, TicketUpdate.quantity u)) ticketUpdates.
Definition itemKeys (items : list TransactionItem.t) : list (Id * Z) :=
  map (fun it => (TransactionItem.ticketTypeId it, TransactionItem.quantity it)) items.

(** Every sold counter moved by an amount that depends on the row's key. *)
Definition adjustSold (k : Id -> Z) (rows : list EventTicketType.t)
  : list EventTicketType.t :=
  map (fun t => EventTicketType.with_soldQuantity
                  (EventTicketType.soldQuantity t + k (EventTicketType.id t))%Z t) rows.

Definition sumKeys (l : list (Id * Z)) : Z := fold_right (fun e acc => (snd e + acc)%Z) 0%Z l.

(** Bookings that hold their tickets: every status but those reached
    through a rollback (and CANCELED, which no operation produces). *)
Definition holds (s : TransactionStatus) : bool :=
  match s with
  | WAITING_FOR_PAYMENT | WAITING_FOR_CONFIRMATION | DONE => true
  | REJECTED | EXPIRED | CANCELED => false
  end.

(** Tickets of type [i] held by the bookings of the database. *)
Definition reserved (i : Id) (txs : list Transaction.t) : Z :=
  fold_right
    (fun x acc =>
       if holds (Transaction.status x)
       then (quantityFor i (itemKeys (Transaction.items x)) + acc)%Z
       else acc)
    0%Z txs.

Fixpoint uniqueKeys (l : list Id) : bool :=
  match l with
  | [] => true
  | x :: rest => negb (existsb (id_eqb x) rest) && uniqueKeys rest
  end.

(** A database the engine can start from: ticket types and bookings
    have unique keys, bookings that hold tickets hold positive
    quantities, and every sold counter lies between the tickets held
    against it and the capacity. *)
Definition consistent (db : DB.t) : bool :=
  uniqueKeys (map EventTicketType.id (DB.eventTicketType db))
  && uniqueKeys (map Transaction.id (DB.transaction db))
  && forallb (fun x => negb (holds (Transaction.status x))
                       || forallb (fun it => (0 <? TransactionItem.quantity it)%Z)
                                  (Transaction.items x))
             (DB.transaction db)
  && forallb (fun t => (reserved (EventTicketType.id t) (DB.transaction db)
                        <=? EventTicketType.soldQuantity t)%Z
                       && (EventTicketType.soldQuantity t <=? EventTicketType.quantity t)%Z)
             (DB.eventTicketType db).

Record Inv (db : DB.t) : Prop := {
  inv_ticketTypes : NoDup (map EventTicketType.id (DB.eventTicketType db));
  inv_transactions : NoDup (map Transaction.id (DB.transaction db));
  inv_positive :
    forall x, In x (DB.transaction db) -> holds (Transaction.status x) = true ->
              forall it, In it (Transaction.items x) -> (0 < TransactionItem.quantity it)%Z;
  inv_bounds :
    forall t, In t (DB.eventTicketType db) ->
              (reserved (EventTicketType.id t) (DB.transaction db)
               <= EventTicketType.soldQuantity t <= EventTicketType.quantity t)%Z
}.

(** Two databases with the same inventory and rewards tables. *)
Definition sameLedger (a b : DB.t) : Prop :=
  DB.eventTicketType a = DB.eventTicketType b
  /\ DB.event a = DB.event b
  /\ DB.eventVoucher a = DB.eventVoucher b
  /\ DB.userCoupon a = DB.userCoupon b
  /\ DB.userPoint a = DB.userPoint b.


(** The rows a rollback of booking [x] updates are there: its ticket
    types, its event, its voucher and coupon if it has them, and a lot of
    the buyer to take the refund if points were used. *)
Definition rollbackReady (x : Transaction.t) (d : DB.t) : Prop :=
  (forall it, In it (Transaction.items x) ->
              In (TransactionItem.ticketTypeId it)
                 (map EventTicketType.id (DB.eventTicketType d)))
  /\ In (Transaction.eventId x) (map Event.id (DB.event d))
  /\ (forall i, presentId (Transaction.voucherId x) = Some i ->
                In i (map EventVoucher.id (DB.eventVoucher d)))
  /\ (forall i, presentId (Transaction.couponId x) = Some i ->
                In i (map UserCoupon.id (DB.userCoupon d)))
  /\ (Js.gtb (Transaction.pointsUsed x) 0 = true ->
      exists p, latestPoint (Transaction.userId x) (DB.userPoint d) = Some p).

(** The status changes the engine makes. *)
Definition transition (s s' : TransactionStatus) : bool :=
  match s, s' with
  | WAITING_FOR_PAYMENT, WAITING_FOR_CONFIRMATION
  | WAITING_FOR_PAYMENT, EXPIRED
  | WAITING_FOR_CONFIRMATION, DONE
  | WAITING_FOR_CONFIRMATION, REJECTED => true
  | _, _ => false
  end.

(** The statuses no call of the engine looks for. *)
Definition settled (s : TransactionStatus) : bool :=
  match s with
  | DONE | REJECTED | EXPIRED | CANCELED => true
  | WAITING_FOR_PAYMENT | WAITING_FOR_CONFIRMATION => false
  end.

(** The attendee row an accepted booking gets. *)
Definition attendeeOf (x : Transaction.t) : EventAttendee.t :=
  EventAttendee.mk (Transaction.eventId x) (Transaction.userId x) (Transaction.id x)
    (totalTickets (Transaction.items x)) (Transaction.finalAmount x).

(** A projection of the database that reads none of the tables the
    booking flow writes before an organizer accepts. *)
Definition frame {T} (proj : DB.t -> T) : Prop :=
  (forall rows db, proj (DB.with_event rows db) = proj db)
  /\ (forall rows db, proj (DB.with_eventTicketType rows db) = proj db)
  /\ (forall rows db, proj (DB.with_eventVoucher rows db) = proj db)
  /\ (forall rows db, proj (DB.with_userCoupon rows db) = proj db)
  /\ (forall rows db, proj (DB.with_userPoint rows db) = proj db)
  /\ (forall rows db, proj (DB.with_transaction rows db) = proj db)
  /\ (forall rows db, proj (DB.with_transactionPayment rows db) = proj db).

(** The attendee list matches the bookings: keys are unique, every
    attendee row is the row of a DONE booking, and every DONE booking has
    its row. *)
Record Attended (db : DB.t) : Prop := {
  att_transactions : NoDup (map Transaction.id (DB.transaction db));
  att_attendees : NoDup (map EventAttendee.transactionId (DB.eventAttendee db));
  att_accepted :
    forall a, In a (DB.eventAttendee db) ->
              exists x, In x (DB.transaction db) /\ Transaction.status x = DONE
                        /\ a = attendeeOf x;
  att_recorded :
    forall x, In x (DB.transaction db) -> Transaction.status x = DONE ->
              In (attendeeOf x) (DB.eventAttendee db)
}.

(** Every event has at most as many seats booked as it offers. *)
Definition seatsWithinCapacity (db : DB.t) : Prop :=
  forall e, In e (DB.event db) -> (Event.bookedSeats e <= Event.availableSeats e)%Z.

(** Seats of event [eventId] held by the bookings of the database. *)
Definition seatsHeld (eventId : Id) (txs : list Transaction.t) : Z :=
  fold_right
    (fun x acc =>
       if (holds (Transaction.status x) && id_eqb (Transaction.eventId x) eventId)%bool
       then (totalTickets (Transaction.items x) + acc)%Z
       else acc)
    0%Z txs.

(** ** Sample data, used to run the model on concrete inputs *)

Module Sample.

Local Open Scope string_scope.

(** A runtime whose months all have 30 days and whose hours never shift. *)
Definition addMonths (d : Timestamp) (m : Z) : Timestamp := (d + m * 2592000000)%Z.
Definition addHours (d : Timestamp) (h : Z) : Timestamp := (d + h * 3600000)%Z.

Definition ev1 : Event.t := Event.mk "ev1" "org1" 9000000 100 0 true.

Definition tt1 : EventTicketType.t := EventTicketType.mk "tt1" "ev1" "Regular" 100000 2 0.
Definition tt2 : EventTicketType.t := EventTicketType.mk "tt2" "ev1" "VIP" 250000 1 0.

Definition v1 : EventVoucher.t :=
  EventVoucher.mk "v1" "ev1" "SAVE10" PERCENTAGE 10 1 0 0 0 8000000.
(** A voucher whose usage limit is reached. *)
Definition v2 : EventVoucher.t :=
  EventVoucher.mk "v2" "ev1" "FULL" FIXED 5000 3 3 0 0 8000000.

Definition ct1 : CouponTemplate.t :=
  CouponTemplate.mk "ct1" PERCENTAGE 10 50000 (Some 25000).

Definition c1 : UserCoupon.t := UserCoupon.mk "c1" "u1" "ct1" "CPN-FRESH" false 8000000.
(** A coupon that has been redeemed already. *)
Definition c2 : UserCoupon.t := UserCoupon.mk "c2" "u1" "ct1" "CPN-USED" true 8000000.

(** Two live lots and, created last, a lot that has expired. *)
Definition p1 : UserPoint.t := UserPoint.mk "p1" "u1" 30000 "REFERRAL" 7000000 false 10.
Definition p2 : UserPoint.t := UserPoint.mk "p2" "u1" 20000 "REFERRAL" 6000000 false 20.
Definition p3 : UserPoint.t := UserPoint.mk "p3" "u1" 0 "REFERRAL" 500000 true 30.

Definition db0 : DB.t :=
  DB.mk [ev1] [tt1; tt2] [v1; v2] [ct1] [c1; c2] [p1; p2; p3] [] [] [].

Definition env1 : Env := mkEnv 1000000 "tx1" "INV-1000000-AAAAAA".
Definition env2 : Env := mkEnv 1000500 "tx2" "INV-1000500-BBBBBB".
Definition env3 : Env := mkEnv 1001000 "id3" "INV-1001000-CCCCCC".
(** After the two-hour payment window of a booking made at [env1]. *)
Definition envLate : Env := mkEnv 8300000 "id4" "INV-8300000-DDDDDD".

Definition line (i : Id) (q : Z) : TicketLine.t := TicketLine.mk i q.

(** Two Regular tickets, paid in part with 40000 points and the voucher. *)
Definition req1 : TransactionCreateRequest.t :=
  TransactionCreateRequest.mk "ev1" [line "tt1" 2] (Some 40000) (Some "SAVE10") None.

(** With a code no voucher carries, and with the voucher whose limit is reached. *)
Definition reqUnknownVoucher : TransactionCreateRequest.t :=
  TransactionCreateRequest.mk "ev1" [line "tt1" 2] None (Some "NOSUCHCODE") None.
Definition reqExhaustedVoucher : TransactionCreateRequest.t :=
  TransactionCreateRequest.mk "ev1" [line "tt1" 2] None (Some "FULL") None.
Definition reqVip : TransactionCreateRequest.t :=
  TransactionCreateRequest.mk "ev1" [line "tt2" 1] None None None.
Definition reqOneMore : TransactionCreateRequest.t :=
  TransactionCreateRequest.mk "ev1" [line "tt1" 1] None None None.

(** An event with a single seat left and a ticket type with five. *)
Definition evSmall : Event.t := Event.mk "ev2" "org1" 9000000 10 9 true.
Definition ttSmall : EventTicketType.t := EventTicketType.mk "tt9" "ev2" "Regular" 50000 5 0.
Definition dbSmall : DB.t := DB.mk [evSmall] [ttSmall] [] [] [] [] [] [] [].
Definition reqTwoSeats : TransactionCreateRequest.t :=
  TransactionCreateRequest.mk "ev2" [line "tt9" 2] None None None.

Definition create := createTransaction addHours.
Definition confirm := confirmTransaction addMonths.
Definition upload := uploadPaymentProof addMonths.
Definition rollback := rollbackTransaction addMonths.
Definition expire := expireTransaction addMonths.

Definition proofUrl : string := "https://res.cloudinary.com/demo/proof.png".

(** The booking of [req1] made, paid for and awaiting the organizer. *)
Definition db1 : DB.t := snd (create env1 "u1" req1 db0).
Definition db2 : DB.t := snd (upload env2 "tx1" "u1" (Some proofUrl) db1).
(** ... and then rejected. *)
Definition db3 : DB.t := snd (confirm env3 "tx1" "org1" false db2).

(** A day at the box office: a booking that is paid and accepted, one
    ticket too many, a VIP booking that is left to expire. *)
Definition ops : list Op :=
  [ OpCreate env1 "u1" req1;
    OpUpload env2 "tx1" "u1" (Some proofUrl);
    OpConfirm env3 "tx1" "org1" true;
    OpCreate (mkEnv 1002000 "tx2" "INV-1002000-EEEEEE") "u1" reqOneMore;
    OpCreate (mkEnv 1003000 "tx3" "INV-1003000-FFFFFF") "u1" reqVip;
    OpExpire envLate "tx3" ].

(** The booking of [req1] paid for and accepted. *)
Definition db4 : DB.t := snd (confirm env3 "tx1" "org1" true db2).

(** An order with a line of no tickets. *)
Definition reqNoTickets : TransactionCreateRequest.t :=
  TransactionCreateRequest.mk "ev1" [line "tt1" 1; line "tt2" 0] None None None.

(** Twice two Regular tickets, of which there are two. *)
Definition reqTwice : TransactionCreateRequest.t :=
  TransactionCreateRequest.mk "ev1" [line "tt1" 2; line "tt1" 2] None None None.

(** The organizer's voucher desk: a new voucher, an edit of SAVE10, the
    same edit tried on FULL, FULL deleted, and a stranger's attempt. *)
Definition envVoucher : Env := mkEnv 1000000 "v3" "INV-1000000-GGGGGG".
Definition voucherReq : VoucherCreateRequest.t :=
  VoucherCreateRequest.mk "EARLY" FIXED 15000 5 None 500000 8000000.
Definition voucherEdit : VoucherUpdate.t :=
  VoucherUpdate.mk (Some "SAVE15") None (Some 15) None None None None.
Definition voucherOps : list VoucherService.Op :=
  [ VoucherService.OpCreate envVoucher "ev1" "org1" voucherReq;
    VoucherService.OpUpdate "v1" "org1" voucherEdit;
    VoucherService.OpUpdate "v2" "org1" voucherEdit;
    VoucherService.OpDelete "v2" "org1";
    VoucherService.OpDelete "v1" "org9" ].

End Sample.

(** * Properties *)

(** ** JavaScript comparisons *)

Module JsFacts.

Lemma ltb_lt a b : Js.ltb a b = true <-> a < b.
Proof.
  unfold Js.ltb. rewrite negb_true_iff.
  split; intro H.
  - apply Qnot_le_lt. intro C. apply Qle_bool_iff in C. congruence.
  - destruct (Qle_bool b a) eqn:E; [|reflexivity].
    apply Qle_bool_iff in E. exfalso. apply (Qlt_not_le _ _ H E).
Qed.

Lemma ltb_ge a b : Js.ltb a b = false <-> b <= a.
Proof.
  unfold Js.ltb. rewrite negb_false_iff. apply Qle_bool_iff.
Qed.

Lemma gtb_gt a b : Js.gtb a b = true <-> b < a.
Proof. apply ltb_lt. Qed.

Lemma gtb_le a b : Js.gtb a b = false <-> a <= b.
Proof. apply ltb_ge. Qed.

Lemma leb_le a b : Js.leb a b = true <-> a <= b.
Proof. apply Qle_bool_iff. Qed.

Lemma leb_gt a b : Js.leb a b = false <-> b < a.
Proof.
  unfold Js.leb. split; intro H.
  - apply Qnot_le_lt. intro C. apply Qle_bool_iff in C. congruence.
  - destruct (Qle_bool a b) eqn:E; [|reflexivity].
    apply Qle_bool_iff in E. exfalso. apply (Qlt_not_le _ _ H E).
Qed.

Lemma truthy_nonzero a : Js.truthy a = true <-> ~ a == 0.
Proof.
  unfold Js.truthy. rewrite negb_true_iff. split; intro H.
  - intro C. apply Qeq_bool_iff in C. congruence.
  - destruct (Qeq_bool a 0) eqn:E; [|reflexivity].
    apply Qeq_bool_iff in E. contradiction.
Qed.

End JsFacts.


(** ** The discount calculator *)

Lemma Qmin_cases (a b : Q) :
  (a <= b /\ Qmin a b == a) \/ (b <= a /\ Qmin a b == b).
Proof.
  destruct (Q.min_spec a b) as [[H E]|[H E]].
  - left. split; [apply Qlt_le_weak; exact H | exact E].
  - right. split; assumption.
Qed.

Lemma percentage_nonneg (amount value : Q) :
  0 <= amount -> 0 <= value -> 0 <= amount * value / 100.
Proof.
  intros Ha Hv. unfold Qdiv.
  apply Qmult_le_0_compat.
  - apply Qmult_le_0_compat; assumption.
  - discriminate.
Qed.

(** What the cap test of [calculateDiscount] yields for a positive cap. *)
Lemma cap_applied (d m : Q) :
  0 < m -> (if Js.truthy m && Js.gtb d m then m else d) == Qmin d m.
Proof.
  intro Hm.
  assert (T : Js.truthy m = true).
  { apply JsFacts.truthy_nonzero. intro C. rewrite C in Hm. apply (Qlt_irrefl 0 Hm). }
  rewrite T. simpl.
  destruct (Js.gtb d m) eqn:G.
  - apply JsFacts.gtb_gt in G. destruct (Qmin_cases d m) as [[H E]|[H E]]; rewrite E.
    + exfalso. apply (Qlt_not_le _ _ G H).
    + reflexivity.
  - apply JsFacts.gtb_le in G. destruct (Qmin_cases d m) as [[H E]|[H E]]; rewrite E.
    + reflexivity.
    + apply Qle_antisym; assumption.
Qed.

(** C5 (as amended).  For a non-negative base amount, a non-negative rule
    value and a cap that, when present, is positive: a percentage rule
    yields [amount * value / 100] clamped to the cap and then to the
    amount, a fixed rule yields [min value amount], and the discount lies
    in [[0, amount]]. *)
Theorem calculateDiscount_contract (amount value : Q) (t : DiscountType) (cap : option Q) :
  0 <= amount -> 0 <= value -> (forall m, cap = Some m -> 0 < m) ->
  (t = PERCENTAGE ->
     calculateDiscount amount t value cap ==
     Qmin (match cap with
           | Some m => Qmin (amount * value / 100) m
           | None => amount * value / 100
           end) amount)
  /\ (t = FIXED -> calculateDiscount amount t value cap == Qmin value amount)
  /\ 0 <= calculateDiscount amount t value cap <= amount.
Proof.
  intros Ha Hv Hcap.
  pose proof (percentage_nonneg Ha Hv) as Hp.
  split; [|split].
  - intros ->. unfold calculateDiscount.
    destruct cap as [m|]; [|reflexivity].
    rewrite (cap_applied _ (Hcap m eq_refl)). reflexivity.
  - intros ->. reflexivity.
  - unfold calculateDiscount. destruct t.
    + destruct cap as [m|].
      * rewrite (cap_applied _ (Hcap m eq_refl)).
        pose proof (Hcap m eq_refl) as Hm.
        destruct (Qmin_cases (amount * value / 100) m) as [[H1 E1]|[H1 E1]];
          destruct (Qmin_cases (Qmin (amount * value / 100) m) amount) as [[H2 E2]|[H2 E2]];
          rewrite E2; rewrite ?E1 in *; split; auto using Qle_refl, Qlt_le_weak.
      * destruct (Qmin_cases (amount * value / 100) amount) as [[H2 E2]|[H2 E2]];
          rewrite E2; split; auto using Qle_refl.
    + destruct (Qmin_cases value amount) as [[H2 E2]|[H2 E2]];
        rewrite E2; split; auto using Qle_refl.
Qed.

Lemma calculateDiscount_contract_witness :
  0 <= 120000 /\ 0 <= 10
  /\ 0 <= calculateDiscount 120000 PERCENTAGE 10 (Some 20000) <= 120000.
Proof.
  assert (H0 : 0 <= 120000) by (vm_compute; discriminate).
  assert (H1 : 0 <= 10) by (vm_compute; discriminate).
  assert (H2 : forall m : Q, Some 20000 = Some m -> 0 < m).
  { intros m E. injection E as <-. reflexivity. }
  split; [exact H0|]. split; [exact H1|].
  exact (proj2 (proj2 (@calculateDiscount_contract 120000 10 PERCENTAGE
                         (Some 20000) H0 H1 H2))).
Defined.

(** C5, as stated, fails: a fixed rule of negative value gives a negative
    discount, outside [[0, amount]]. *)
Lemma calculateDiscount_negative_value :
  calculateDiscount 100 FIXED (-5) None == -5
  /\ ~ (0 <= calculateDiscount 100 FIXED (-5) None <= 100).
Proof.
  split.
  - vm_compute. reflexivity.
  - intros [H _]. vm_compute in H. apply H. reflexivity.
Qed.

Example calculateDiscount_percentage_capped :
  calculateDiscount 200000 PERCENTAGE 50 (Some 25000) == 25000.
Proof. vm_compute. reflexivity. Qed.

Example calculateDiscount_fixed_clamped :
  calculateDiscount 30000 FIXED 50000 None == 30000.
Proof. vm_compute. reflexivity. Qed.

(** A cap of 0 fails the truthiness test and is not applied. *)
Lemma calculateDiscount_zero_cap_ignored :
  calculateDiscount 1000 PERCENTAGE 10 (Some 0) == 100.
Proof. vm_compute. reflexivity. Qed.

(** ** Reasoning about the service monad *)

Lemma bind_ok A B (m : M A) (k : A -> M B) db b db' :
  bind m k db = (Ok b, db') ->
  exists a db1, m db = (Ok a, db1) /\ k a db1 = (Ok b, db').
Proof.
  unfold bind. destruct (m db) as [[a|e] db1]; intro H.
  - exists a, db1. split; [reflexivity | exact H].
  - discriminate.
Qed.

Lemma bind_run A B (m : M A) (k : A -> M B) db a db1 :
  m db = (Ok a, db1) -> bind m k db = k a db1.
Proof. unfold bind. intros ->. reflexivity. Qed.

Lemma bind_throw A B (m : M A) (k : A -> M B) db e db1 :
  m db = (Throw e, db1) -> bind m k db = (Throw e, db1).
Proof. unfold bind. intros ->. reflexivity. Qed.

Lemma lift_ok A (r : Result A) db a db' :
  lift r db = (Ok a, db') -> r = Ok a /\ db' = db.
Proof. unfold lift. intro H. inversion H. split; reflexivity. Qed.

Lemma ret_ok A (a b : A) db db' : ret a db = (Ok b, db') -> b = a /\ db' = db.
Proof. unfold ret. intro H. inversion H. split; reflexivity. Qed.

Lemma prisma_transaction_ok A (body : M A) db a db' :
  prisma_transaction body db = (Ok a, db') -> body db = (Ok a, db').
Proof.
  unfold prisma_transaction. destruct (body db) as [[x|e] d]; intro H.
  - exact H.
  - discriminate.
Qed.

Lemma prisma_transaction_commit A (body : M A) db a db' :
  body db = (Ok a, db') -> prisma_transaction body db = (Ok a, db').
Proof. unfold prisma_transaction. intros ->. reflexivity. Qed.


(** A unit of work either commits what its body wrote or leaves the
    database as it found it. *)
Lemma prisma_transaction_atomic A (body : M A) db :
  (exists a, prisma_transaction body db = (Ok a, snd (body db)))
  \/ (exists e, prisma_transaction body db = (Throw e, db)).
Proof.
  unfold prisma_transaction. destruct (body db) as [[a|e] d]; simpl.
  - left. exists a. reflexivity.
  - right. exists e. reflexivity.
Qed.

Ltac bind_inv H :=
  let a := fresh "a" in
  let d := fresh "d" in
  let H1 := fresh "Hm" in
  apply bind_ok in H; destruct H as (a & d & H1 & H).

(** *** Tables *)

Section TableFacts.
Variable R : Type.
Variable key : R -> Id.

Lemma id_eqb_eq (a b : Id) : id_eqb a b = true <-> a = b.
Proof. apply String.eqb_eq. Qed.

Lemma id_eqb_neq (a b : Id) : id_eqb a b = false <-> a <> b.
Proof. apply String.eqb_neq. Qed.

Lemma id_eqb_refl (a : Id) : id_eqb a a = true.
Proof. apply String.eqb_refl. Qed.

Lemma findById_some i rows r :
  findById key i rows = Some r -> In r rows /\ key r = i.
Proof.
  unfold findById. intro H. apply find_some in H.
  destruct H as [H1 H2]. apply id_eqb_eq in H2. split; assumption.
Qed.

Lemma findById_none i rows :
  findById key i rows = None <-> ~ In i (map key rows).
Proof.
  unfold findById. induction rows as [|r rows IH]; simpl.
  - split; [intros _ []| reflexivity].
  - destruct (id_eqb (key r) i) eqn:E.
    + apply id_eqb_eq in E. split; [discriminate|]. intro H. exfalso. apply H. left. exact E.
    + apply id_eqb_neq in E. rewrite IH. split.
      * intros H [C|C]; [exact (E C) | exact (H C)].
      * intros H C. apply H. right. exact C.
Qed.

Lemma findById_in i rows :
  In i (map key rows) -> exists r, findById key i rows = Some r.
Proof.
  intro H. destruct (findById key i rows) as [r|] eqn:E.
  - exists r. reflexivity.
  - apply findById_none in E. contradiction.
Qed.

(** Under the primary-key constraint the row of a key is the one found. *)
Lemma findById_unique i rows r :
  NoDup (map key rows) -> In r rows -> key r = i -> findById key i rows = Some r.
Proof.
  unfold findById. induction rows as [|x rows IH]; simpl; intros ND Hin Hk.
  - contradiction.
  - inversion ND as [|? ? Hx ND']; subst.
    destruct Hin as [->|Hin].
    + rewrite id_eqb_refl. reflexivity.
    + destruct (id_eqb (key x) (key r)) eqn:E.
      * apply id_eqb_eq in E. exfalso. apply Hx. rewrite E. apply in_map. exact Hin.
      * apply IH; auto.
Qed.

Lemma updateRows_keys i f rows :
  (forall r, key (f r) = key r) ->
  map key (updateRows key i f rows) = map key rows.
Proof.
  intro Hf. unfold updateRows. rewrite map_map. apply map_ext.
  intro r. destruct (id_eqb (key r) i); auto.
Qed.

Lemma updateRows_absent i f rows :
  ~ In i (map key rows) -> updateRows key i f rows = rows.
Proof.
  unfold updateRows. induction rows as [|r rows IH]; simpl; intro H.
  - reflexivity.
  - destruct (id_eqb (key r) i) eqn:E.
    + apply id_eqb_eq in E. exfalso. apply H. left. exact E.
    + f_equal. apply IH. intro C. apply H. right. exact C.
Qed.

Lemma updateRows_in i f rows r' :
  In r' (updateRows key i f rows) ->
  exists r, In r rows /\ ((key r = i /\ r' = f r) \/ (key r <> i /\ r' = r)).
Proof.
  unfold updateRows. intro H. apply in_map_iff in H. destruct H as (r & E & Hin).
  exists r. split; [exact Hin|].
  destruct (id_eqb (key r) i) eqn:K.
  - left. apply id_eqb_eq in K. split; [exact K | symmetry; exact E].
  - right. apply id_eqb_neq in K. split; [exact K | symmetry; exact E].
Qed.



Lemma update_ok i f rows r' rows' :
  update key i f rows = Ok (r', rows') ->
  exists r, findById key i rows = Some r /\ r' = f r /\ rows' = updateRows key i f rows.
Proof.
  unfold update. destruct (findById key i rows) as [r|]; intro H; [|discriminate].
  inversion H. exists r. repeat split.
Qed.

Variable table : DB.t -> list R.
Variable store : list R -> DB.t -> DB.t.

Lemma updateTable_ok i f db r' db' :
  updateTable table store key i f db = (Ok r', db') ->
  exists r, findById key i (table db) = Some r /\ r' = f r
            /\ db' = store (updateRows key i f (table db)) db.
Proof.
  unfold updateTable, update.
  destruct (findById key i (table db)) as [r|]; intro H; [|discriminate].
  inversion H. exists r. repeat split.
Qed.

Lemma updateTable_found i f db r :
  findById key i (table db) = Some r ->
  updateTable table store key i f db = (Ok (f r), store (updateRows key i f (table db)) db).
Proof. unfold updateTable, update. intros ->. reflexivity. Qed.

Lemma updateTable_throw i f db e db' :
  updateTable table store key i f db = (Throw e, db') -> db' = db.
Proof.
  unfold updateTable. destruct (update key i f (table db)) as [[r rows]|e']; intro H;
    inversion H; reflexivity.
Qed.

Lemma createRow_ok r db r' db' :
  createRow table store key r db = (Ok r', db') ->
  findById key (key r) (table db) = None /\ r' = r /\ db' = store (table db ++ [r]) db.
Proof.
  unfold createRow, create.
  destruct (findById key (key r) (table db)); intro H; [discriminate|].
  inversion H. repeat split.
Qed.

Lemma createRow_fresh r db :
  findById key (key r) (table db) = None ->
  createRow table store key r db = (Ok r, store (table db ++ [r]) db).
Proof. unfold createRow, create. intros ->. reflexivity. Qed.

End TableFacts.

(** *** Tables an operation leaves alone *)

Lemma preserves_ret T A (proj : DB.t -> T) (a : A) : preserves proj (ret a).
Proof. intro db. reflexivity. Qed.

Lemma preserves_throw T A (proj : DB.t -> T) e : preserves proj (@throw A e).
Proof. intro db. reflexivity. Qed.

Lemma preserves_lift T A (proj : DB.t -> T) (r : Result A) : preserves proj (lift r).
Proof. intro db. reflexivity. Qed.

Lemma preserves_get T (proj : DB.t -> T) : preserves proj get.
Proof. intro db. reflexivity. Qed.

Lemma preserves_bind T A B (proj : DB.t -> T) (m : M A) (k : A -> M B) :
  preserves proj m -> (forall a, preserves proj (k a)) -> preserves proj (bind m k).
Proof.
  intros Hm Hk db. unfold bind. specialize (Hm db).
  destruct (m db) as [[a|e] d]; simpl in *.
  - rewrite Hk. exact Hm.
  - exact Hm.
Qed.

Lemma preserves_updateTable T R (proj : DB.t -> T) (table : DB.t -> list R) store key i f :
  (forall rows db, proj (store rows db) = proj db) ->
  preserves proj (updateTable table store key i f).
Proof.
  intros Hs db. unfold updateTable.
  destruct (update key i f (table db)) as [[r rows]|e]; simpl; auto.
Qed.

Lemma preserves_createRow T R (proj : DB.t -> T) (table : DB.t -> list R) store key r :
  (forall rows db, proj (store rows db) = proj db) ->
  preserves proj (createRow table store key r).
Proof.
  intros Hs db. unfold createRow.
  destruct (create key r (table db)) as [rows|e]; simpl; auto.
Qed.

Lemma preserves_run T A (proj : DB.t -> T) (m : M A) db r db' :
  preserves proj m -> m db = (r, db') -> proj db' = proj db.
Proof. intros H E. specialize (H db). rewrite E in H. exact H. Qed.

Ltac preserves_step :=
  first
    [ apply preserves_ret
    | apply preserves_throw
    | apply preserves_lift
    | apply preserves_get
    | apply preserves_updateTable; reflexivity
    | apply preserves_createRow; reflexivity
    | apply preserves_bind; [|intro]
    | match goal with
      | |- preserves _ (match ?x with _ => _ end) => destruct x
      end
    | assumption ].

Ltac preserves_tac := repeat preserves_step.

Lemma find_none_all A (f : A -> bool) (l : list A) :
  (forall x, In x l -> f x = false) -> find f l = None.
Proof.
  induction l as [|a l IH]; simpl; intro H; [reflexivity|].
  rewrite (H a (or_introl eq_refl)). apply IH. intros x Hx. apply H. right. exact Hx.
Qed.

(** Case analysis on the minima and maxima of a goal, for [lra]. *)
Ltac qminmax :=
  repeat match goal with
  | |- context [Qmin ?a ?b] =>
      let m := fresh "m" in
      pose proof (Q.min_spec a b); set (m := Qmin a b) in *; clearbody m
  | |- context [Qmax ?a ?b] =>
      let m := fresh "m" in
      pose proof (Q.max_spec a b); set (m := Qmax a b) in *; clearbody m
  | H : context [Qmin ?a ?b] |- _ =>
      let m := fresh "m" in
      pose proof (Q.min_spec a b); set (m := Qmin a b) in *; clearbody m
  | H : context [Qmax ?a ?b] |- _ =>
      let m := fresh "m" in
      pose proof (Q.max_spec a b); set (m := Qmax a b) in *; clearbody m
  end.

Section Properties.

Variable addMonths : Timestamp -> Z -> Timestamp.
Variable addHours : Timestamp -> Z -> Timestamp.

(** *** Which tables each helper writes *)

Lemma restorePoints_writes_points T (proj : DB.t -> T) env userId amount :
  (forall rows db, proj (DB.with_userPoint rows db) = proj db) ->
  preserves proj (restorePoints addMonths env userId amount).
Proof.
  intro H. unfold restorePoints.
  destruct (Js.leb amount 0); [apply preserves_ret|].
  apply preserves_bind; [apply preserves_get|]. intro db.
  destruct (latestPoint userId (DB.userPoint db)).
  - apply preserves_bind; [|intro; apply preserves_ret].
    apply preserves_updateTable. exact H.
  - apply preserves_bind; [|intro; apply preserves_ret].
    apply preserves_createRow. exact H.
Qed.

Lemma rollbackItems_writes_ticketTypes T (proj : DB.t -> T) items :
  (forall rows db, proj (DB.with_eventTicketType rows db) = proj db) ->
  preserves proj (rollbackItems items).
Proof.
  intro H. induction items as [|item rest IH]; simpl.
  - apply preserves_ret.
  - apply preserves_bind; [|intro; exact IH].
    apply preserves_updateTable. exact H.
Qed.

Lemma rollbackTransaction_keeps_transactions env transactionId :
  preserves DB.transaction (rollbackTransaction addMonths env transactionId).
Proof.
  unfold rollbackTransaction.
  apply preserves_bind; [apply preserves_get|]. intro db.
  destruct (findById Transaction.id transactionId (DB.transaction db)) as [x|];
    [|apply preserves_ret].
  apply preserves_bind; [apply rollbackItems_writes_ticketTypes; reflexivity|]. intros _.
  apply preserves_bind; [unfold rollbackBookedSeats; preserves_tac|]. intros _.
  apply preserves_bind; [unfold rollbackVoucherUsage; preserves_tac|]. intros _.
  apply preserves_bind; [unfold rollbackCouponUsage; preserves_tac|]. intros _.
  destruct (Js.gtb (Transaction.pointsUsed x) 0); [|apply preserves_ret].
  apply restorePoints_writes_points. reflexivity.
Qed.

(** *** confirmTransaction *)

Lemma confirmTransaction_ok env transactionId organizerId isAccepted db x db1 :
  confirmTransaction addMonths env transactionId organizerId isAccepted db = (Ok x, db1) ->
  exists x0 r,
    findForConfirmation transactionId organizerId db = Some x0
    /\ findById Transaction.id transactionId (DB.transaction db) = Some r
    /\ x = Transaction.with_status (decided isAccepted) r
    /\ DB.transaction db1 =
       updateRows Transaction.id transactionId
         (Transaction.with_status (decided isAccepted)) (DB.transaction db).
Proof.
  intro H. apply prisma_transaction_ok in H.
  bind_inv H. apply ret_ok in Hm. destruct Hm as [-> ->].
  destruct (findForConfirmation transactionId organizerId db) as [x0|] eqn:F;
    [|discriminate].
  bind_inv H.
  assert (K : DB.transaction d = DB.transaction db).
  { destruct isAccepted.
    - bind_inv Hm. apply ret_ok in Hm. destruct Hm as [_ ->].
      apply createRow_ok in Hm0. destruct Hm0 as (_ & _ & ->). reflexivity.
    - eapply preserves_run; [apply rollbackTransaction_keeps_transactions | exact Hm]. }
  apply updateTable_ok in H. destruct H as (r & Fr & -> & ->).
  simpl. rewrite K in *.
  exists x0, r. repeat split; assumption.
Qed.

Lemma findForConfirmation_decided transactionId organizerId isAccepted db1 rows :
  DB.transaction db1 =
    updateRows Transaction.id transactionId
      (Transaction.with_status (decided isAccepted)) rows ->
  findForConfirmation transactionId organizerId db1 = None.
Proof.
  intro E. unfold findForConfirmation. rewrite E.
  apply find_none_all. intros y Hy.
  apply updateRows_in in Hy. destruct Hy as (r & _ & [[K ->]|[K ->]]).
  - destruct isAccepted; simpl; rewrite andb_false_r; reflexivity.
  - apply id_eqb_neq in K. rewrite K. reflexivity.
Qed.

(** C7.  A call of confirmTransaction that succeeds leaves the booking
    DONE (accepted) or REJECTED; every later call for the same booking
    id, whatever its other arguments, throws TRANSACTION_NOT_FOUND and
    leaves the database as it is.  So the rollback, which only runs
    inside a successful rejecting call, runs at most once. *)
Theorem confirmTransaction_at_most_once
    env transactionId organizerId isAccepted db x db1
    env' organizerId' isAccepted' :
  confirmTransaction addMonths env transactionId organizerId isAccepted db = (Ok x, db1) ->
  (exists x0, findForConfirmation transactionId organizerId db = Some x0
              /\ Transaction.status x0 = WAITING_FOR_CONFIRMATION)
  /\ Transaction.status x = decided isAccepted
  /\ (forall y, In y (DB.transaction db1) -> Transaction.id y = transactionId ->
                Transaction.status y = decided isAccepted)
  /\ confirmTransaction addMonths env' transactionId organizerId' isAccepted' db1
     = (Throw (TransactionError TRANSACTION_NOT_FOUND), db1).
Proof.
  intro H. apply confirmTransaction_ok in H.
  destruct H as (x0 & r & F & Fr & -> & E).
  split; [|split; [|split]].
  - exists x0. split; [exact F|].
    unfold findForConfirmation in F. apply find_some in F. destruct F as [_ F].
    apply andb_true_iff in F. destruct F as [_ F].
    destruct (Transaction.status x0); simpl in F; congruence.
  - reflexivity.
  - intros y Hy Ky. rewrite E in Hy. apply updateRows_in in Hy.
    destruct Hy as (r0 & _ & [[_ ->]|[K ->]]); [reflexivity | contradiction].
  - unfold confirmTransaction, prisma_transaction, bind, get.
    rewrite (@findForConfirmation_decided transactionId organizerId' isAccepted db1 _ E).
    reflexivity.
Qed.

(** *** createTransaction: what a successful call went through *)

Lemma createTransaction_ok env userId data db tx db' :
  createTransaction addHours env userId data db = (Ok tx, db') ->
  let eventId := TransactionCreateRequest.eventId data in
  let ticketTypes := TransactionCreateRequest.ticketTypes data in
  let pointsUsed :=
    match TransactionCreateRequest.pointsUsed data with Some p => p | None => 0 end in
  exists event totalAmount ticketUpdates pointsDiscount
         voucherDiscount appliedVoucher couponDiscount appliedCoupon items
         d1 d2 d3 d4 d5,
    let eventTicketTypes := includedTicketTypes event ticketTypes db in
    ticketTypes <> []
    /\ findBookableEvent (now env) eventId db = Some event
    /\ missingTicketTypes eventTicketTypes ticketTypes = []
    /\ validateTickets eventTicketTypes ticketTypes 0 [] = Ok (totalAmount, ticketUpdates)
    /\ (totalTicketsRequested ticketTypes <= availableEventSeats event)%Z
    /\ validatePoints (now env) userId pointsUsed totalAmount db = Ok pointsDiscount
    /\ validateVoucher (now env) eventId (TransactionCreateRequest.voucherCode data)
         totalAmount db = Ok (voucherDiscount, appliedVoucher)
    /\ validateCoupon (now env) userId (TransactionCreateRequest.couponCode data)
         totalAmount db = Ok (couponDiscount, appliedCoupon)
    /\ makeItems eventTicketTypes ticketTypes = Ok items
    /\ tx = Transaction.mk (newId env) userId eventId (newInvoiceNumber env)
              WAITING_FOR_PAYMENT totalAmount pointsDiscount
              (option_map EventVoucher.id appliedVoucher) voucherDiscount
              (option_map UserCoupon.id appliedCoupon) couponDiscount
              (Qmax 0 (totalAmount - pointsDiscount - voucherDiscount - couponDiscount))
              (addHours (now env) 2) items
    /\ createTransactionRow tx db = (Ok tx, d1)
    /\ updateTicketCounts ticketUpdates d1 = (Ok tt, d2)
    /\ updateEventBookedSeats eventId (totalTicketsRequested ticketTypes) d2 = (Ok tt, d3)
    /\ updateVoucherUsage appliedVoucher d3 = (Ok tt, d4)
    /\ markCouponAsUsed appliedCoupon d4 = (Ok tt, d5)
    /\ (if Js.gtb pointsUsed 0 then deductPoints (now env) userId pointsDiscount
        else ret tt) d5 = (Ok tt, db').
Proof.
  intros H eventId ticketTypes pointsUsed.
  unfold createTransaction in H.
  fold eventId ticketTypes pointsUsed in H.
  destruct ticketTypes as [|l0 ls] eqn:TT; [discriminate|]. rewrite <- TT in *.
  apply prisma_transaction_ok in H.
  bind_inv H. apply ret_ok in Hm. destruct Hm as [-> ->].
  destruct (findBookableEvent (now env) eventId db) as [event|] eqn:FE; [|discriminate].
  destruct (missingTicketTypes (includedTicketTypes event ticketTypes db) ticketTypes)
    eqn:MT; [|discriminate].
  bind_inv H. apply lift_ok in Hm. destruct Hm as [VT ->].
  destruct a as [totalAmount ticketUpdates].
  destruct (totalTicketsRequested ticketTypes >? availableEventSeats event)%Z eqn:SE;
    [discriminate|].
  bind_inv H. apply lift_ok in Hm. destruct Hm as [VP ->]. rename a into pointsDiscount.
  bind_inv H. apply lift_ok in Hm. destruct Hm as [VV ->].
  destruct a as [voucherDiscount appliedVoucher].
  bind_inv H. apply lift_ok in Hm. destruct Hm as [VC ->].
  destruct a as [couponDiscount appliedCoupon].
  bind_inv H. apply lift_ok in Hm. destruct Hm as [MI ->]. rename a into items.
  bind_inv H. rename Hm into CR, a into row, d into d1.
  bind_inv H. rename Hm into UT, d into d2. destruct a.
  bind_inv H. rename Hm into UE, d into d3. destruct a.
  bind_inv H. rename Hm into UV, d into d4. destruct a.
  bind_inv H. rename Hm into UC, d into d5. destruct a.
  bind_inv H. rename Hm into DP. destruct a.
  apply ret_ok in H. destruct H as [E ->]. subst row.
  assert (R : tx = Transaction.mk (newId env) userId eventId (newInvoiceNumber env)
              WAITING_FOR_PAYMENT totalAmount pointsDiscount
              (option_map EventVoucher.id appliedVoucher) voucherDiscount
              (option_map UserCoupon.id appliedCoupon) couponDiscount
              (Qmax 0 (totalAmount - pointsDiscount - voucherDiscount - couponDiscount))
              (addHours (now env) 2) items).
  { unfold createTransactionRow in CR.
    destruct (existsb _ _) in CR; [discriminate|].
    apply createRow_ok in CR. destruct CR as (_ & -> & _). reflexivity. }
  exists event, totalAmount, ticketUpdates, pointsDiscount,
         voucherDiscount, appliedVoucher, couponDiscount, appliedCoupon, items,
         d1, d2, d3, d4, d5.
  simpl. rewrite <- R in CR.
  repeat split; try assumption.
  - rewrite TT. discriminate.
  - rewrite Z.gtb_ltb in SE. apply Z.ltb_ge in SE. exact SE.
Qed.

(** *** The voucher and coupon stages *)

Lemma validateVoucher_applied now eventId voucherCode totalAmount db d v :
  validateVoucher now eventId voucherCode totalAmount db = Ok (d, Some v) ->
  (exists code, suppliedCode voucherCode = Some code
                /\ findVoucher now eventId code db = Some v)
  /\ In v (DB.eventVoucher db)
  /\ (EventVoucher.usedCount v < EventVoucher.maxUsage v)%Z
  /\ EventVoucher.minPurchaseAmount v <= totalAmount
  /\ d = calculateDiscount totalAmount (EventVoucher.discountType v)
           (EventVoucher.discountValue v) None.
Proof.
  unfold validateVoucher.
  destruct (suppliedCode voucherCode) as [code|]; [|discriminate].
  destruct (findVoucher now eventId code db) as [v0|] eqn:F; [|discriminate].
  destruct (EventVoucher.usedCount v0 >=? EventVoucher.maxUsage v0)%Z eqn:U; [discriminate|].
  destruct (Js.ltb totalAmount (EventVoucher.minPurchaseAmount v0)) eqn:P; [discriminate|].
  intro H. inversion H; subst. split; [|split; [|split; [|split]]].
  - exists code. split; [reflexivity | exact F].
  - unfold findVoucher in F. apply find_some in F. apply F.
  - rewrite Z.geb_leb in U. apply Z.leb_gt in U. exact U.
  - apply JsFacts.ltb_ge. exact P.
  - reflexivity.
Qed.

Lemma validateVoucher_skipped now eventId voucherCode totalAmount db d :
  validateVoucher now eventId voucherCode totalAmount db = Ok (d, None) -> d = 0.
Proof.
  unfold validateVoucher.
  destruct (suppliedCode voucherCode) as [code|]; [|intro H; inversion H; reflexivity].
  destruct (findVoucher now eventId code db) as [v0|];
    [|intro H; inversion H; reflexivity].
  destruct (_ >=? _)%Z; [discriminate|].
  destruct (Js.ltb _ _); discriminate.
Qed.

Lemma findCoupon_some now userId code db c t :
  findCoupon now userId code db = Some (c, t) ->
  In c (DB.userCoupon db)
  /\ UserCoupon.code c = code /\ UserCoupon.userId c = userId
  /\ UserCoupon.isUsed c = false /\ (now <= UserCoupon.expiryDate c)%Z
  /\ findById CouponTemplate.id (UserCoupon.couponTemplateId c) (DB.couponTemplate db)
     = Some t.
Proof.
  unfold findCoupon.
  destruct (find _ (DB.userCoupon db)) as [c0|] eqn:F; [|discriminate].
  destruct (findById CouponTemplate.id _ _) as [t0|] eqn:T; [|discriminate].
  intro H. inversion H; subst.
  apply find_some in F. destruct F as [Hin F].
  repeat (apply andb_true_iff in F; destruct F as [F ?]).
  repeat split; auto.
  - apply String.eqb_eq. exact F.
  - apply id_eqb_eq. assumption.
  - apply negb_true_iff. assumption.
  - apply Z.leb_le. assumption.
Qed.

Lemma validateCoupon_applied now userId couponCode totalAmount db d c :
  validateCoupon now userId couponCode totalAmount db = Ok (d, Some c) ->
  exists code t,
    suppliedCode couponCode = Some code
    /\ findCoupon now userId code db = Some (c, t)
    /\ CouponTemplate.minPurchaseAmount t <= totalAmount
    /\ d = calculateDiscount totalAmount (CouponTemplate.discountType t)
             (CouponTemplate.discountValue t) (CouponTemplate.maxDiscountAmount t).
Proof.
  unfold validateCoupon.
  destruct (suppliedCode couponCode) as [code|]; [|discriminate].
  destruct (findCoupon now userId code db) as [[c0 t]|] eqn:F; [|discriminate].
  destruct (Js.ltb totalAmount (CouponTemplate.minPurchaseAmount t)) eqn:P; [discriminate|].
  intro H. inversion H; subst.
  exists code, t. repeat split; auto. apply JsFacts.ltb_ge. exact P.
Qed.

Lemma validateCoupon_skipped now userId couponCode totalAmount db d :
  validateCoupon now userId couponCode totalAmount db = Ok (d, None) -> d = 0.
Proof.
  unfold validateCoupon.
  destruct (suppliedCode couponCode) as [code|]; [|intro H; inversion H; reflexivity].
  destruct (findCoupon now userId code db) as [[c0 t]|];
    [|intro H; inversion H; reflexivity].
  destruct (Js.ltb _ _); discriminate.
Qed.

(** C10.  The voucher discount recorded on a booking is
    [calculateDiscount] of the total with the voucher's type and value
    and no cap argument, so for a percentage voucher it is
    [total * value / 100] clamped by the total alone; the coupon
    discount is computed with the template's [maxDiscountAmount] as
    cap. *)
Theorem voucher_discount_has_no_cap env userId data db tx db' :
  createTransaction addHours env userId data db = (Ok tx, db') ->
  (forall voucherId, Transaction.voucherId tx = Some voucherId ->
     exists v,
       In v (DB.eventVoucher db) /\ EventVoucher.id v = voucherId
       /\ Transaction.voucherDiscount tx =
          calculateDiscount (Transaction.totalAmount tx) (EventVoucher.discountType v)
            (EventVoucher.discountValue v) None
       /\ (EventVoucher.discountType v = PERCENTAGE ->
           Transaction.voucherDiscount tx ==
           Qmin (Transaction.totalAmount tx * EventVoucher.discountValue v / 100)
                (Transaction.totalAmount tx)))
  /\ (forall couponId, Transaction.couponId tx = Some couponId ->
        exists c t,
          In c (DB.userCoupon db) /\ UserCoupon.id c = couponId
          /\ findById CouponTemplate.id (UserCoupon.couponTemplateId c)
               (DB.couponTemplate db) = Some t
          /\ Transaction.couponDiscount tx =
             calculateDiscount (Transaction.totalAmount tx)
               (CouponTemplate.discountType t) (CouponTemplate.discountValue t)
               (CouponTemplate.maxDiscountAmount t)).
Proof.
  intro H. apply createTransaction_ok in H.
  destruct H as (event & totalAmount & ticketUpdates & pointsDiscount & vd & av & cd & ac
                 & items & d1 & d2 & d3 & d4 & d5 & H).
  destruct H as (_ & _ & _ & _ & _ & _ & VV & VC & _ & -> & _).
  simpl. split.
  - intros voucherId E. destruct av as [v|]; [|discriminate].
    simpl in E. injection E as <-.
    apply validateVoucher_applied in VV.
    destruct VV as (_ & Hin & _ & _ & ->).
    exists v. repeat split; auto.
    intro P. rewrite P. reflexivity.
  - intros couponId E. destruct ac as [c|]; [|discriminate].
    simpl in E. injection E as <-.
    apply validateCoupon_applied in VC.
    destruct VC as (code & t & _ & F & _ & ->).
    apply findCoupon_some in F. destruct F as (Hin & _ & _ & _ & _ & T).
    exists c, t. repeat split; auto.
Qed.

(** *** Atomicity of createTransaction *)

Lemma createTransaction_atomic env userId data db :
  (exists tx db', createTransaction addHours env userId data db = (Ok tx, db'))
  \/ (exists e, createTransaction addHours env userId data db = (Throw e, db)).
Proof.
  unfold createTransaction.
  destruct (TransactionCreateRequest.ticketTypes data) as [|l0 ls].
  - right. eexists. reflexivity.
  - match goal with
    | |- context [prisma_transaction ?b db] =>
        destruct (prisma_transaction_atomic b db) as [[a E]|[e E]]
    end.
    + left. exists a. eexists. exact E.
    + right. exists e. exact E.
Qed.

Lemma createTransaction_throw env userId data db e db' :
  createTransaction addHours env userId data db = (Throw e, db') -> db' = db.
Proof.
  intro H.
  destruct (createTransaction_atomic env userId data db) as [(tx & d & E)|(e' & E)];
    rewrite E in H; inversion H; reflexivity.
Qed.

(** C8.  When the requested quantities add up to more than the seats the
    event has left, createTransaction does not succeed and writes
    nothing; a request that passed the per-ticket-type checks of step 2
    is refused with INSUFFICIENT_SEATS. *)
Theorem createTransaction_insufficient_seats env userId data db event :
  findBookableEvent (now env) (TransactionCreateRequest.eventId data) db = Some event ->
  (totalTicketsRequested (TransactionCreateRequest.ticketTypes data)
   > Event.availableSeats event - Event.bookedSeats event)%Z ->
  (exists e, createTransaction addHours env userId data db = (Throw e, db))
  /\ (forall totalAmount ticketUpdates,
        TransactionCreateRequest.ticketTypes data <> [] ->
        missingTicketTypes
          (includedTicketTypes event (TransactionCreateRequest.ticketTypes data) db)
          (TransactionCreateRequest.ticketTypes data) = [] ->
        validateTickets
          (includedTicketTypes event (TransactionCreateRequest.ticketTypes data) db)
          (TransactionCreateRequest.ticketTypes data) 0 []
          = Ok (totalAmount, ticketUpdates) ->
        createTransaction addHours env userId data db
          = (Throw (TransactionError INSUFFICIENT_SEATS), db)).
Proof.
  set (eventId := TransactionCreateRequest.eventId data).
  set (ticketTypes := TransactionCreateRequest.ticketTypes data).
  intros FE Hgt. split.
  - destruct (createTransaction_atomic env userId data db) as [(tx & d & E)|(e & E)].
    + exfalso. apply createTransaction_ok in E.
      destruct E as (event' & totalAmount & ticketUpdates & pd & vd & av & cd & ac
                     & items & d1 & d2 & d3 & d4 & d5 & E).
      destruct E as (_ & FE' & _ & _ & SE & _).
      fold eventId in FE'. rewrite FE in FE'. injection FE' as <-.
      fold ticketTypes in SE. unfold availableEventSeats in SE. lia.
    + exists e. exact E.
  - intros totalAmount ticketUpdates NE MT VT.
    unfold createTransaction. fold eventId ticketTypes.
    destruct ticketTypes as [|l0 ls] eqn:TT; [contradiction|]. rewrite <- TT in *.
    unfold prisma_transaction, bind, get, lift.
    rewrite FE, MT, VT.
    assert (G : (totalTicketsRequested ticketTypes >? availableEventSeats event)%Z = true).
    { unfold availableEventSeats. apply Z.gtb_lt. lia. }
    rewrite G. reflexivity.
Qed.

(** *** Codes that do not resolve, codes that resolve *)



(** A coupon that is already used is not found by the coupon query. *)
Lemma findCoupon_used now userId code db :
  (forall c, In c (DB.userCoupon db) -> UserCoupon.code c = code ->
             UserCoupon.userId c = userId -> UserCoupon.isUsed c = true) ->
  findCoupon now userId code db = None.
Proof.
  intro H. unfold findCoupon.
  rewrite find_none_all; [reflexivity|].
  intros c Hin.
  destruct (String.eqb (UserCoupon.code c) code) eqn:E1; [|reflexivity].
  destruct (id_eqb (UserCoupon.userId c) userId) eqn:E2; [|reflexivity].
  apply String.eqb_eq in E1. apply id_eqb_eq in E2.
  rewrite (H c Hin E1 E2). reflexivity.
Qed.


(** *** Point lots: sums and the expiry order *)














(** *** Lists related row by row *)


Lemma Forall2_of_map A B (R : A -> B -> Prop) (g : A -> B) l :
  (forall a, In a l -> R a (g a)) -> Forall2 R l (map g l).
Proof.
  induction l as [|a l IH]; intro H; simpl; constructor.
  - apply H. left. reflexivity.
  - apply IH. intros b Hb. apply H. right. exact Hb.
Qed.




Lemma NoDup_key_eq R (key : R -> Id) rows a b :
  NoDup (map key rows) -> In a rows -> In b rows -> key a = key b -> a = b.
Proof.
  induction rows as [|x rows IH]; simpl; intros ND Ha Hb E; [contradiction|].
  inversion ND as [|? ? Hx ND']; subst.
  destruct Ha as [->|Ha]; destruct Hb as [->|Hb].
  - reflexivity.
  - exfalso. apply Hx. rewrite E. apply in_map. exact Hb.
  - exfalso. apply Hx. rewrite <- E. apply in_map. exact Ha.
  - apply IH; assumption.
Qed.

Lemma updateRows_other R (key : R -> Id) i f rows q :
  In q rows -> key q <> i -> In q (updateRows key i f rows).
Proof.
  intros Hin Hk. unfold updateRows. apply in_map_iff. exists q. split; [|exact Hin].
  apply id_eqb_neq in Hk. rewrite Hk. reflexivity.
Qed.


(** *** deductLoop *)





(** *** deductPoints *)








(** *** restorePoints *)

Lemma latestPoint_fold userId rows : forall best,
  (forall b, best = Some b -> UserPoint.userId b = userId) ->
  match fold_left (laterPoint userId) rows best with
  | Some p =>
      (In p rows \/ best = Some p) /\ UserPoint.userId p = userId
      /\ (forall q, In q rows -> UserPoint.userId q = userId ->
                    (UserPoint.createdAt q <= UserPoint.createdAt p)%Z)
      /\ (forall b, best = Some b -> (UserPoint.createdAt b <= UserPoint.createdAt p)%Z)
  | None => best = None /\ forall q, In q rows -> UserPoint.userId q <> userId
  end.
Proof.
  induction rows as [|x rows IH]; intros best Hb; simpl.
  - destruct best as [b|].
    + split; [right; reflexivity|]. split; [apply Hb; reflexivity|].
      split; [intros q []|]. intros b' E. injection E as <-. lia.
    + split; [reflexivity | intros q []].
  - assert (Hstep : forall b, laterPoint userId best x = Some b -> UserPoint.userId b = userId).
    { unfold laterPoint. intros b.
      destruct (id_eqb (UserPoint.userId x) userId) eqn:K; [|apply Hb].
      apply id_eqb_eq in K. destruct best as [b0|].
      - destruct (_ <? _)%Z; intro E; injection E as <-; [exact K | apply Hb; reflexivity].
      - intro E. injection E as <-. exact K. }
    specialize (IH _ Hstep).
    destruct (fold_left (laterPoint userId) rows (laterPoint userId best x)) as [p|].
    + destruct IH as (I1 & I2 & I3 & I4). unfold laterPoint in I1, I4.
      destruct (id_eqb (UserPoint.userId x) userId) eqn:K.
      * destruct best as [b0|].
        -- destruct (UserPoint.createdAt b0 <? UserPoint.createdAt x)%Z eqn:L.
           ++ apply Z.ltb_lt in L. pose proof (I4 x eq_refl).
              split; [destruct I1 as [I1|I1]; [left; right; exact I1 |
                                             left; left; injection I1 as ->; reflexivity]|].
              split; [exact I2|]. split.
              ** intros q [<-|Hq] Uq; [lia | apply I3; assumption].
              ** intros b E. injection E as <-. lia.
           ++ apply Z.ltb_ge in L. pose proof (I4 b0 eq_refl).
              split; [destruct I1 as [I1|I1]; [left; right; exact I1 | right; exact I1]|].
              split; [exact I2|]. split.
              ** intros q [<-|Hq] Uq; [lia | apply I3; assumption].
              ** intros b E. injection E as <-. lia.
        -- pose proof (I4 x eq_refl).
           split; [destruct I1 as [I1|I1]; [left; right; exact I1 |
                                          left; left; injection I1 as ->; reflexivity]|].
           split; [exact I2|]. split.
           ** intros q [<-|Hq] Uq; [lia | apply I3; assumption].
           ** intros b E. discriminate.
      * apply id_eqb_neq in K.
        split; [destruct I1 as [I1|I1]; [left; right; exact I1 | right; exact I1]|].
        split; [exact I2|]. split.
        -- intros q [<-|Hq] Uq; [contradiction | apply I3; assumption].
        -- exact I4.
    + destruct IH as (I1 & I2). unfold laterPoint in I1.
      destruct (id_eqb (UserPoint.userId x) userId) eqn:K.
      * destruct best as [b0|]; [destruct (_ <? _)%Z|]; discriminate.
      * apply id_eqb_neq in K. split; [exact I1|].
        intros q [<-|Hq]; [exact K | apply I2; exact Hq].
Qed.

(** The lot restorePoints tops up is picked by creation time alone. *)
Lemma latestPoint_spec userId rows :
  match latestPoint userId rows with
  | Some p =>
      In p rows /\ UserPoint.userId p = userId
      /\ (forall q, In q rows -> UserPoint.userId q = userId ->
                    (UserPoint.createdAt q <= UserPoint.createdAt p)%Z)
  | None => forall q, In q rows -> UserPoint.userId q <> userId
  end.
Proof.
  unfold latestPoint.
  pose proof (@latestPoint_fold userId rows None) as H.
  destruct (fold_left (laterPoint userId) rows None) as [p|].
  - destruct H as (I1 & I2 & I3 & _); [discriminate|].
    destruct I1 as [I1|I1]; [|discriminate]. repeat split; assumption.
  - destruct H as (_ & I2); [discriminate|]. exact I2.
Qed.

Lemma restorePoints_latest env userId amount db p :
  0 < amount ->
  latestPoint userId (DB.userPoint db) = Some p ->
  restorePoints addMonths env userId amount db
  = (Ok tt,
     DB.with_userPoint
       (updateRows UserPoint.id (UserPoint.id p)
          (fun r => UserPoint.with_amount (UserPoint.amount r + amount) r)
          (DB.userPoint db)) db).
Proof.
  intros Hpos L. unfold restorePoints.
  assert (G : Js.leb amount 0 = false) by (apply JsFacts.leb_gt; exact Hpos).
  rewrite G. unfold bind at 1. unfold get. rewrite L.
  pose proof (latestPoint_spec userId (DB.userPoint db)) as S. rewrite L in S.
  destruct S as (Hin & _ & _).
  destruct (@findById_in _ UserPoint.id (UserPoint.id p) (DB.userPoint db)) as (r & F).
  { apply in_map. exact Hin. }
  unfold bind. rewrite (@updateTable_found _ UserPoint.id DB.userPoint DB.with_userPoint
                          (UserPoint.id p) _ db r F).
  reflexivity.
Qed.

Lemma restorePoints_first_lot env userId amount db :
  0 < amount ->
  latestPoint userId (DB.userPoint db) = None ->
  findById UserPoint.id (newId env) (DB.userPoint db) = None ->
  restorePoints addMonths env userId amount db
  = (Ok tt,
     DB.with_userPoint
       (DB.userPoint db ++
        [UserPoint.mk (newId env) userId amount "REFUND"
           (addMonths (now env) 3) false (now env)]) db).
Proof.
  intros Hpos L F. unfold restorePoints.
  assert (G : Js.leb amount 0 = false) by (apply JsFacts.leb_gt; exact Hpos).
  rewrite G. unfold bind at 1. unfold get. rewrite L.
  unfold bind. rewrite createRow_fresh; [reflexivity | exact F].
Qed.

(** C9.  restorePoints adds the whole refund to the user's lot created
    last, chosen without looking at [isExpired] or [expiryDate], and
    creates a REFUND lot expiring three months on only for a user who
    has no lot.  There is a booking whose create-then-rollback leaves
    the sum of the user's lots unchanged and the balance available for
    spending strictly smaller. *)
Theorem restorePoints_tops_up_latest_lot :
  (forall env userId amount db,
      0 < amount ->
      match latestPoint userId (DB.userPoint db) with
      | Some p =>
          In p (DB.userPoint db) /\ UserPoint.userId p = userId
          /\ (forall q, In q (DB.userPoint db) -> UserPoint.userId q = userId ->
                        (UserPoint.createdAt q <= UserPoint.createdAt p)%Z)
          /\ restorePoints addMonths env userId amount db
             = (Ok tt,
                DB.with_userPoint
                  (updateRows UserPoint.id (UserPoint.id p)
                     (fun r => UserPoint.with_amount (UserPoint.amount r + amount) r)
                     (DB.userPoint db)) db)
      | None =>
          (forall q, In q (DB.userPoint db) -> UserPoint.userId q <> userId)
          /\ (findById UserPoint.id (newId env) (DB.userPoint db) = None ->
              restorePoints addMonths env userId amount db
              = (Ok tt,
                 DB.with_userPoint
                   (DB.userPoint db ++
                    [UserPoint.mk (newId env) userId amount "REFUND"
                       (addMonths (now env) 3) false (now env)]) db))
      end)
  /\ (exists env userId data db tx db1 env' db2,
        createTransaction addHours env userId data db = (Ok tx, db1)
        /\ rollbackTransaction addMonths env' (Transaction.id tx) db1 = (Ok tt, db2)
        /\ totalPoints userId db2 == totalPoints userId db
        /\ availablePoints (now env') userId db2 < availablePoints (now env') userId db).
Proof.
  split.
  - intros env userId amount db Hpos.
    pose proof (latestPoint_spec userId (DB.userPoint db)) as S.
    destruct (latestPoint userId (DB.userPoint db)) as [p|] eqn:L.
    + destruct S as (S1 & S2 & S3). repeat split; try assumption.
      apply restorePoints_latest; assumption.
    + split; [exact S|]. intro F. apply restorePoints_first_lot; assumption.
  - exists Sample.env1, "u1"%string, Sample.req1, Sample.db0.
    eexists. eexists. exists Sample.env3. eexists.
    split; [lazy; reflexivity|].
    split; [lazy; reflexivity|].
    split; vm_compute; reflexivity.
Qed.

(** *** Ticket counters *)

Lemma EventTicketType_eta t n :
  n = EventTicketType.soldQuantity t -> EventTicketType.with_soldQuantity n t = t.
Proof. intros ->. destruct t. reflexivity. Qed.

Lemma adjustSold_ext k k' rows :
  (forall t, In t rows -> k (EventTicketType.id t) = k' (EventTicketType.id t)) ->
  adjustSold k rows = adjustSold k' rows.
Proof.
  intro H. unfold adjustSold. apply map_ext_in. intros t Ht. rewrite (H t Ht). reflexivity.
Qed.

Lemma adjustSold_zero k rows :
  (forall t, In t rows -> k (EventTicketType.id t) = 0%Z) -> adjustSold k rows = rows.
Proof.
  intro H. unfold adjustSold. rewrite <- (map_id rows) at 2.
  apply map_ext_in. intros t Ht. apply EventTicketType_eta. rewrite (H t Ht). lia.
Qed.

Lemma adjustSold_twice k1 k2 rows :
  adjustSold k2 (adjustSold k1 rows) = adjustSold (fun i => (k1 i + k2 i)%Z) rows.
Proof.
  unfold adjustSold. rewrite map_map. apply map_ext. intro t.
  destruct t. unfold EventTicketType.with_soldQuantity. simpl. f_equal. lia.
Qed.

Lemma adjustSold_keys k rows :
  map EventTicketType.id (adjustSold k rows) = map EventTicketType.id rows.
Proof. unfold adjustSold. rewrite map_map. apply map_ext. intro t. reflexivity. Qed.

Lemma updateRows_adjust i q rows :
  updateRows EventTicketType.id i
    (fun t => EventTicketType.with_soldQuantity (EventTicketType.soldQuantity t + q)%Z t) rows
  = adjustSold (fun j => if id_eqb j i then q else 0%Z) rows.
Proof.
  unfold updateRows, adjustSold. apply map_ext. intro t.
  destruct (id_eqb (EventTicketType.id t) i); [reflexivity|].
  symmetry. apply EventTicketType_eta. lia.
Qed.

Lemma quantityFor_cons i j q l :
  quantityFor i ((j, q) :: l) = ((if id_eqb j i then q else 0) + quantityFor i l)%Z.
Proof. simpl. destruct (id_eqb j i); lia. Qed.

Lemma quantityFor_app i l1 l2 :
  quantityFor i (l1 ++ l2) = (quantityFor i l1 + quantityFor i l2)%Z.
Proof.
  induction l1 as [|[j q] l1 IH]; [reflexivity|].
  rewrite <- app_comm_cons, !quantityFor_cons, IH. lia.
Qed.

Lemma quantityFor_nonneg i l :
  (forall e, In e l -> (0 <= snd e)%Z) -> (0 <= quantityFor i l)%Z.
Proof.
  induction l as [|[j q] l IH]; intro H; [simpl; lia|].
  rewrite quantityFor_cons.
  assert (0 <= q)%Z by (apply (H (j, q)); left; reflexivity).
  assert (0 <= quantityFor i l)%Z by (apply IH; intros e He; apply H; right; exact He).
  destruct (id_eqb j i); lia.
Qed.

(** *** rollbackItems *)

Lemma rollbackItems_ok items : forall d d',
  rollbackItems items d = (Ok tt, d') ->
  d' = DB.with_eventTicketType
         (adjustSold (fun i => (- quantityFor i (itemKeys items))%Z)
                     (DB.eventTicketType d)) d
  /\ (forall it, In it items ->
                 In (TransactionItem.ticketTypeId it)
                    (map EventTicketType.id (DB.eventTicketType d))).
Proof.
  induction items as [|it items IH]; intros d d' H; simpl in H.
  - apply ret_ok in H. destruct H as [_ ->]. split; [|intros it []].
    rewrite adjustSold_zero; [destruct d; reflexivity|]. intros t _. reflexivity.
  - bind_inv H. apply updateTable_ok in Hm. destruct Hm as (r & F & _ & ->).
    apply IH in H. destruct H as [-> Hex]. split.
    + assert (E : adjustSold (fun i => (- quantityFor i (itemKeys items))%Z)
                    (updateRows EventTicketType.id (TransactionItem.ticketTypeId it)
                       (fun t => EventTicketType.with_soldQuantity
                                   (EventTicketType.soldQuantity t
                                    - TransactionItem.quantity it)%Z t)
                       (DB.eventTicketType d))
                  = adjustSold (fun i => (- quantityFor i (itemKeys (it :: items)))%Z)
                      (DB.eventTicketType d)).
      { change (fun t => EventTicketType.with_soldQuantity
                           (EventTicketType.soldQuantity t - TransactionItem.quantity it)%Z t)
          with (fun t => EventTicketType.with_soldQuantity
                           (EventTicketType.soldQuantity t
                            + - TransactionItem.quantity it)%Z t).
        rewrite updateRows_adjust, adjustSold_twice. apply adjustSold_ext.
        intros t _. unfold itemKeys. simpl map. rewrite quantityFor_cons.
        destruct (id_eqb (EventTicketType.id t) (TransactionItem.ticketTypeId it)) eqn:K.
        - apply id_eqb_eq in K. rewrite K, id_eqb_refl. lia.
        - apply id_eqb_neq in K.
          assert (K' : id_eqb (TransactionItem.ticketTypeId it) (EventTicketType.id t)
                       = false).
          { apply id_eqb_neq. intro C. apply K. symmetry. exact C. }
          rewrite K'. lia. }
      unfold DB.with_eventTicketType. simpl. rewrite E. reflexivity.
    + intros it' [<-|Hin].
      * apply findById_some in F. destruct F as [Fin Fk]. rewrite <- Fk.
        apply in_map. exact Fin.
      * specialize (Hex it' Hin). simpl in Hex.
        rewrite updateRows_keys in Hex; [exact Hex|]. intro t. reflexivity.
Qed.

Lemma rollbackItems_run items : forall d,
  (forall it, In it items ->
              In (TransactionItem.ticketTypeId it)
                 (map EventTicketType.id (DB.eventTicketType d))) ->
  exists d', rollbackItems items d = (Ok tt, d').
Proof.
  induction items as [|it items IH]; intros d H; simpl.
  - eexists. reflexivity.
  - destruct (@findById_in _ EventTicketType.id (TransactionItem.ticketTypeId it)
                (DB.eventTicketType d)) as (r & F).
    { apply H. left. reflexivity. }
    rewrite (@bind_run _ _ _ _ _ _ _
               (@updateTable_found _ EventTicketType.id DB.eventTicketType
                  DB.with_eventTicketType (TransactionItem.ticketTypeId it) _ d r F)).
    apply IH. intros it' Hin. simpl. rewrite updateRows_keys; [|intro t; reflexivity].
    apply H. right. exact Hin.
Qed.

(** *** updateTicketCounts *)

Lemma updateTicketCounts_ok ticketUpdates : forall d d',
  updateTicketCounts ticketUpdates d = (Ok tt, d') ->
  d' = DB.with_eventTicketType
         (adjustSold (fun i => quantityFor i (updateKeys ticketUpdates))
                     (DB.eventTicketType d)) d.
Proof.
  induction ticketUpdates as [|u us IH]; intros d d' H; simpl in H.
  - apply ret_ok in H. destruct H as [_ ->].
    rewrite adjustSold_zero; [destruct d; reflexivity|]. intros t _. reflexivity.
  - bind_inv H. apply updateTable_ok in Hm. destruct Hm as (r & F & -> & ->).
    destruct (_ >? _)%Z; [discriminate|].
    apply IH in H. subst d'.
    assert (E : adjustSold (fun i => quantityFor i (updateKeys us))
                  (updateRows EventTicketType.id (TicketUpdate.id u)
                     (fun t => EventTicketType.with_soldQuantity
                                 (EventTicketType.soldQuantity t
                                  + TicketUpdate.quantity u)%Z t)
                     (DB.eventTicketType d))
                = adjustSold (fun i => quantityFor i (updateKeys (u :: us)))
                    (DB.eventTicketType d)).
    { rewrite updateRows_adjust, adjustSold_twice. apply adjustSold_ext.
      intros t _. unfold updateKeys. simpl map. rewrite quantityFor_cons.
      destruct (id_eqb (EventTicketType.id t) (TicketUpdate.id u)) eqn:K.
      - apply id_eqb_eq in K. rewrite K, id_eqb_refl. lia.
      - apply id_eqb_neq in K.
        assert (K' : id_eqb (TicketUpdate.id u) (EventTicketType.id t) = false).
        { apply id_eqb_neq. intro C. apply K. symmetry. exact C. }
        rewrite K'. lia. }
    unfold DB.with_eventTicketType. simpl. rewrite E. reflexivity.
Qed.

(** The re-check after each increment keeps every counter within its
    capacity, provided each update carries the capacity of its row. *)
Lemma updateTicketCounts_bounded ticketUpdates : forall d d',
  NoDup (map EventTicketType.id (DB.eventTicketType d)) ->
  (forall t, In t (DB.eventTicketType d) ->
             (EventTicketType.soldQuantity t <= EventTicketType.quantity t)%Z) ->
  (forall u t, In u ticketUpdates -> In t (DB.eventTicketType d) ->
               EventTicketType.id t = TicketUpdate.id u ->
               TicketUpdate.maxQuantity u = EventTicketType.quantity t) ->
  updateTicketCounts ticketUpdates d = (Ok tt, d') ->
  forall t, In t (DB.eventTicketType d') ->
            (EventTicketType.soldQuantity t <= EventTicketType.quantity t)%Z.
Proof.
  induction ticketUpdates as [|u us IH]; intros d d' ND B M H; simpl in H.
  - apply ret_ok in H. destruct H as [_ ->]. exact B.
  - bind_inv H. apply updateTable_ok in Hm. destruct Hm as (r & F & -> & ->).
    destruct (_ >? _)%Z eqn:C; [discriminate|].
    rewrite Z.gtb_ltb in C. apply Z.ltb_ge in C. simpl in C.
    apply findById_some in F. destruct F as [Fin Fk].
    pose proof (M u r (or_introl eq_refl) Fin Fk) as Mr.
    eapply IH; [| | |exact H].
    + simpl. rewrite updateRows_keys; [exact ND | intro t; reflexivity].
    + simpl. intros t Ht. apply updateRows_in in Ht.
      destruct Ht as (t0 & Ht0 & [[K ->]|[K ->]]).
      * assert (t0 = r) by (eapply NoDup_key_eq; [exact ND| | |]; eauto; congruence).
        subst t0. simpl. lia.
      * apply B. exact Ht0.
    + simpl. intros u' t Hu Ht Kt. apply updateRows_in in Ht.
      destruct Ht as (t0 & Ht0 & [[K ->]|[K ->]]).
      * simpl in *. apply (M u' t0 (or_intror Hu) Ht0 Kt).
      * apply (M u' t0 (or_intror Hu) Ht0 Kt).
Qed.

(** *** Lines, updates and items carry the same quantities *)

Lemma makeItems_ok eventTicketTypes ticketTypes : forall items,
  makeItems eventTicketTypes ticketTypes = Ok items ->
  itemKeys items = lineKeys ticketTypes
  /\ (forall l, In l ticketTypes ->
        exists t, findById EventTicketType.id (TicketLine.ticketTypeId l) eventTicketTypes
                  = Some t).
Proof.
  induction ticketTypes as [|l ls IH]; intros items H; simpl in H.
  - inversion H. split; [reflexivity | intros l []].
  - destruct (findById EventTicketType.id (TicketLine.ticketTypeId l) eventTicketTypes)
      as [t|] eqn:F; [|discriminate].
    destruct (makeItems eventTicketTypes ls) as [items'|]; [|discriminate].
    inversion H; subst. destruct (IH items' eq_refl) as [E Hf]. split.
    + unfold itemKeys, lineKeys in *. simpl. rewrite E. reflexivity.
    + intros l' [<-|Hl]; [exists t; exact F | apply Hf; exact Hl].
Qed.

Lemma validateTickets_ok eventTicketTypes ticketTypes : forall totalAmount acc total' ups,
  (forall l, In l ticketTypes ->
     exists t, findById EventTicketType.id (TicketLine.ticketTypeId l) eventTicketTypes
               = Some t) ->
  validateTickets eventTicketTypes ticketTypes totalAmount acc = Ok (total', ups) ->
  updateKeys ups = updateKeys acc ++ lineKeys ticketTypes
  /\ (forall l, In l ticketTypes -> (0 < TicketLine.quantity l)%Z)
  /\ (forall u, In u ups ->
        In u acc
        \/ exists t, In t eventTicketTypes
                     /\ EventTicketType.id t = TicketUpdate.id u
                     /\ TicketUpdate.maxQuantity u = EventTicketType.quantity t).
Proof.
  induction ticketTypes as [|l ls IH]; intros totalAmount acc total' ups Hf H; simpl in H.
  - inversion H; subst. split; [|split].
    + unfold lineKeys. simpl. rewrite app_nil_r. reflexivity.
    + intros l [].
    + intros u Hu. left. exact Hu.
  - destruct (Hf l (or_introl eq_refl)) as (t & F). rewrite F in H.
    destruct (TicketLine.quantity l <=? 0)%Z eqn:Q; [discriminate|].
    destruct (_ >? _)%Z; [discriminate|].
    apply IH in H; [|intros l' Hl'; apply Hf; right; exact Hl'].
    destruct H as (E & P & U). split; [|split].
    + rewrite E. unfold updateKeys, lineKeys. rewrite map_app. simpl.
      rewrite <- app_assoc. simpl.
      apply findById_some in F. destruct F as [_ Fk]. rewrite Fk. reflexivity.
    + intros l' [<-|Hl']; [apply Z.leb_gt in Q; exact Q | apply P; exact Hl'].
    + intros u Hu. destruct (U u Hu) as [Hacc|Hex]; [|right; exact Hex].
      apply in_app_or in Hacc. destruct Hacc as [Hacc|[<-|[]]]; [left; exact Hacc|].
      right. exists t. simpl. apply findById_some in F. destruct F as [Fin Fk].
      repeat split; auto.
Qed.

Lemma totalTicketsRequested_sum ticketTypes :
  totalTicketsRequested ticketTypes = sumKeys (lineKeys ticketTypes).
Proof.
  unfold totalTicketsRequested.
  assert (G : forall a, fold_left (fun sum item => (sum + TicketLine.quantity item)%Z)
                          ticketTypes a = (a + sumKeys (lineKeys ticketTypes))%Z).
  { induction ticketTypes as [|l ls IH]; intro a; simpl; [lia|]. rewrite IH. lia. }
  rewrite G. lia.
Qed.

Lemma totalTickets_sum items : totalTickets items = sumKeys (itemKeys items).
Proof.
  unfold totalTickets.
  assert (G : forall a, fold_left (fun sum item => (sum + TransactionItem.quantity item)%Z)
                          items a = (a + sumKeys (itemKeys items))%Z).
  { induction items as [|l ls IH]; intro a; simpl; [lia|]. rewrite IH. lia. }
  rewrite G. lia.
Qed.

(** *** The single-row steps of createTransaction and of the rollback *)

Lemma findById_app_fresh R (key : R -> Id) rows r :
  findById key (key r) rows = None -> findById key (key r) (rows ++ [r]) = Some r.
Proof.
  unfold findById. induction rows as [|x rows IH]; simpl.
  - intros _. rewrite id_eqb_refl. reflexivity.
  - destruct (id_eqb (key x) (key r)); [discriminate | exact IH].
Qed.

Lemma createTransactionRow_ok row db r d1 :
  createTransactionRow row db = (Ok r, d1) ->
  findById Transaction.id (Transaction.id row) (DB.transaction db) = None
  /\ r = row
  /\ d1 = DB.with_transaction (DB.transaction db ++ [row]) db.
Proof.
  unfold createTransactionRow. destruct (existsb _ _); [discriminate|].
  apply createRow_ok.
Qed.

Lemma updateEventBookedSeats_ok eventId n d d' :
  updateEventBookedSeats eventId n d = (Ok tt, d') ->
  In eventId (map Event.id (DB.event d))
  /\ d' = DB.with_event
            (updateRows Event.id eventId
               (fun e => Event.with_bookedSeats (Event.bookedSeats e + n)%Z e)
               (DB.event d)) d.
Proof.
  unfold updateEventBookedSeats. intro H. bind_inv H.
  apply ret_ok in H. destruct H as [_ ->].
  apply updateTable_ok in Hm. destruct Hm as (r & F & _ & ->).
  split; [|reflexivity].
  apply findById_some in F. destruct F as [Fin Fk]. rewrite <- Fk. apply in_map. exact Fin.
Qed.

Lemma updateVoucherUsage_ok appliedVoucher d d' :
  updateVoucherUsage appliedVoucher d = (Ok tt, d') ->
  d' = match appliedVoucher with
       | Some v =>
           DB.with_eventVoucher
             (updateRows EventVoucher.id (EventVoucher.id v)
                (fun r => EventVoucher.with_usedCount (EventVoucher.usedCount r + 1)%Z r)
                (DB.eventVoucher d)) d
       | None => d
       end.
Proof.
  unfold updateVoucherUsage. destruct appliedVoucher as [v|]; intro H.
  - bind_inv H. apply ret_ok in H. destruct H as [_ ->].
    apply updateTable_ok in Hm. destruct Hm as (r & F & _ & ->). reflexivity.
  - apply ret_ok in H. apply H.
Qed.

Lemma markCouponAsUsed_ok appliedCoupon d d' :
  markCouponAsUsed appliedCoupon d = (Ok tt, d') ->
  d' = match appliedCoupon with
       | Some c =>
           DB.with_userCoupon
             (updateRows UserCoupon.id (UserCoupon.id c) (UserCoupon.with_isUsed true)
                (DB.userCoupon d)) d
       | None => d
       end.
Proof.
  unfold markCouponAsUsed. destruct appliedCoupon as [c|]; intro H.
  - bind_inv H. apply ret_ok in H. destruct H as [_ ->].
    apply updateTable_ok in Hm. destruct Hm as (r & F & _ & ->). reflexivity.
  - apply ret_ok in H. apply H.
Qed.

Lemma rollbackBookedSeats_run eventId n d :
  In eventId (map Event.id (DB.event d)) ->
  rollbackBookedSeats eventId n d
  = (Ok tt,
     DB.with_event
       (updateRows Event.id eventId
          (fun e => Event.with_bookedSeats (Event.bookedSeats e - n)%Z e)
          (DB.event d)) d).
Proof.
  intro H. destruct (findById_in Event.id _ _ H) as (r & F).
  unfold rollbackBookedSeats, bind.
  rewrite (@updateTable_found _ Event.id DB.event DB.with_event eventId _ d r F).
  reflexivity.
Qed.

Lemma rollbackVoucherUsage_run voucherId d :
  (forall i, presentId voucherId = Some i -> In i (map EventVoucher.id (DB.eventVoucher d))) ->
  rollbackVoucherUsage voucherId d
  = (Ok tt,
     match presentId voucherId with
     | Some i =>
         DB.with_eventVoucher
           (updateRows EventVoucher.id i
              (fun r => EventVoucher.with_usedCount (EventVoucher.usedCount r - 1)%Z r)
              (DB.eventVoucher d)) d
     | None => d
     end).
Proof.
  intro H. unfold rollbackVoucherUsage.
  destruct (presentId voucherId) as [i|]; [|reflexivity].
  destruct (findById_in EventVoucher.id _ _ (H i eq_refl)) as (r & F).
  unfold bind.
  rewrite (@updateTable_found _ EventVoucher.id DB.eventVoucher DB.with_eventVoucher
             i _ d r F).
  reflexivity.
Qed.

Lemma rollbackCouponUsage_run couponId d :
  (forall i, presentId couponId = Some i -> In i (map UserCoupon.id (DB.userCoupon d))) ->
  rollbackCouponUsage couponId d
  = (Ok tt,
     match presentId couponId with
     | Some i =>
         DB.with_userCoupon
           (updateRows UserCoupon.id i (UserCoupon.with_isUsed false) (DB.userCoupon d)) d
     | None => d
     end).
Proof.
  intro H. unfold rollbackCouponUsage.
  destruct (presentId couponId) as [i|]; [|reflexivity].
  destruct (findById_in UserCoupon.id _ _ (H i eq_refl)) as (r & F).
  unfold bind.
  rewrite (@updateTable_found _ UserCoupon.id DB.userCoupon DB.with_userCoupon
             i _ d r F).
  reflexivity.
Qed.

Lemma presentId_some i : i <> ""%string -> presentId (Some i) = Some i.
Proof.
  intro H. unfold presentId, Js.truthy_string.
  apply String.eqb_neq in H. rewrite H. reflexivity.
Qed.

Lemma validatePoints_ok now userId pointsUsed totalAmount db pointsDiscount :
  validatePoints now userId pointsUsed totalAmount db = Ok pointsDiscount ->
  (Js.gtb pointsUsed 0 = true /\ pointsDiscount = pointsUsed
   /\ pointsUsed <= totalAmount /\ pointsUsed <= availablePoints now userId db)
  \/ (Js.gtb pointsUsed 0 = false /\ pointsDiscount = 0).
Proof.
  unfold validatePoints. destruct (Js.gtb pointsUsed 0) eqn:G.
  - destruct (Js.gtb pointsUsed totalAmount) eqn:G1; [discriminate|].
    destruct (Js.gtb pointsUsed (availablePoints now userId db)) eqn:G2; [discriminate|].
    intro H. inversion H; subst. left. repeat split.
    + apply JsFacts.gtb_le. exact G1.
    + apply JsFacts.gtb_le. exact G2.
  - intro H. inversion H. right. split; reflexivity.
Qed.

(** *** The rollback of a booking, step by step *)

Lemma rollbackTransaction_run env' transactionId d x :
  findById Transaction.id transactionId (DB.transaction d) = Some x ->
  (forall it, In it (Transaction.items x) ->
              In (TransactionItem.ticketTypeId it)
                 (map EventTicketType.id (DB.eventTicketType d))) ->
  In (Transaction.eventId x) (map Event.id (DB.event d)) ->
  (forall i, presentId (Transaction.voucherId x) = Some i ->
             In i (map EventVoucher.id (DB.eventVoucher d))) ->
  (forall i, presentId (Transaction.couponId x) = Some i ->
             In i (map UserCoupon.id (DB.userCoupon d))) ->
  (Js.gtb (Transaction.pointsUsed x) 0 = true ->
   exists p, latestPoint (Transaction.userId x) (DB.userPoint d) = Some p) ->
  exists d',
    rollbackTransaction addMonths env' transactionId d = (Ok tt, d')
    /\ DB.transaction d' = DB.transaction d
    /\ DB.eventTicketType d' =
       adjustSold (fun i => (- quantityFor i (itemKeys (Transaction.items x)))%Z)
         (DB.eventTicketType d)
    /\ DB.event d' =
       updateRows Event.id (Transaction.eventId x)
         (fun e => Event.with_bookedSeats
                     (Event.bookedSeats e - totalTickets (Transaction.items x))%Z e)
         (DB.event d)
    /\ DB.eventVoucher d' =
       match presentId (Transaction.voucherId x) with
       | Some i =>
           updateRows EventVoucher.id i
             (fun r => EventVoucher.with_usedCount (EventVoucher.usedCount r - 1)%Z r)
             (DB.eventVoucher d)
       | None => DB.eventVoucher d
       end
    /\ DB.userCoupon d' =
       match presentId (Transaction.couponId x) with
       | Some i =>
           updateRows UserCoupon.id i (UserCoupon.with_isUsed false) (DB.userCoupon d)
       | None => DB.userCoupon d
       end
    /\ DB.userPoint d' =
       (if Js.gtb (Transaction.pointsUsed x) 0 then
          match latestPoint (Transaction.userId x) (DB.userPoint d) with
          | Some p =>
              updateRows UserPoint.id (UserPoint.id p)
                (fun r => UserPoint.with_amount
                            (UserPoint.amount r + Transaction.pointsUsed x) r)
                (DB.userPoint d)
          | None => DB.userPoint d
          end
        else DB.userPoint d).
Proof.
  intros F Hit Hev Hv Hc Hp.
  unfold rollbackTransaction. unfold bind at 1. unfold get. rewrite F.
  destruct (rollbackItems_run (Transaction.items x) d Hit) as (e1 & R1).
  pose proof (rollbackItems_ok _ _ R1) as [E1 _].
  rewrite (@bind_run _ _ _ _ _ _ _ R1). subst e1.
  match goal with
  | |- context [bind (rollbackBookedSeats ?e ?n) ?k ?s] =>
      rewrite (@bind_run _ _ _ k s _ _ (@rollbackBookedSeats_run e n s Hev))
  end.
  match goal with
  | |- context [bind (rollbackVoucherUsage ?v) ?k ?s] =>
      rewrite (@bind_run _ _ _ k s _ _ (@rollbackVoucherUsage_run v s Hv))
  end.
  match goal with
  | |- context [bind (rollbackCouponUsage ?c) ?k ?s] =>
      assert (Hc' : forall i, presentId c = Some i ->
                              In i (map UserCoupon.id (DB.userCoupon s)));
      [ intros i Pi; destruct (presentId (Transaction.voucherId x)); simpl;
        apply Hc; exact Pi
      | rewrite (@bind_run _ _ _ k s _ _ (@rollbackCouponUsage_run c s Hc'));
        clear Hc' ]
  end.
  destruct (Js.gtb (Transaction.pointsUsed x) 0) eqn:G.
  - destruct (Hp eq_refl) as (p & L).
    assert (Hpos : 0 < Transaction.pointsUsed x) by (apply JsFacts.gtb_gt; exact G).
    match goal with
    | |- context [restorePoints addMonths env' ?u ?a ?s] =>
        assert (L' : latestPoint u (DB.userPoint s) = Some p)
    end.
    { destruct (presentId (Transaction.voucherId x));
        destruct (presentId (Transaction.couponId x)); simpl; exact L. }
    rewrite (restorePoints_latest env' _ _ Hpos L').
    eexists. split; [reflexivity|]. rewrite L.
    destruct (presentId (Transaction.voucherId x));
      destruct (presentId (Transaction.couponId x)); simpl; repeat split; reflexivity.
  - eexists. split; [reflexivity|].
    destruct (presentId (Transaction.voucherId x));
      destruct (presentId (Transaction.couponId x)); simpl; repeat split; reflexivity.
Qed.

(** *** What a successful createTransaction has written *)

Lemma deductLoop_writes_points T (proj : DB.t -> T) points :
  (forall rows db, proj (DB.with_userPoint rows db) = proj db) ->
  forall rem, preserves proj (deductLoop points rem).
Proof.
  intro H. induction points as [|p rest IH]; intro rem; simpl.
  - apply preserves_ret.
  - destruct (Js.leb rem 0); [apply preserves_ret|].
    apply preserves_bind; [|intro; apply IH].
    apply preserves_updateTable. exact H.
Qed.

Lemma deductPoints_writes_points T (proj : DB.t -> T) now userId amount :
  (forall rows db, proj (DB.with_userPoint rows db) = proj db) ->
  preserves proj (deductPoints now userId amount).
Proof.
  intro H. unfold deductPoints.
  destruct (Js.leb amount 0); [apply preserves_ret|].
  apply preserves_bind; [apply preserves_get|]. intro db.
  apply preserves_bind; [apply deductLoop_writes_points; exact H|]. intro rem.
  destruct (Js.gtb rem 0); [apply preserves_throw | apply preserves_ret].
Qed.

Lemma createTransaction_tables env userId data db tx db1 :
  createTransaction addHours env userId data db = (Ok tx, db1) ->
  exists ticketUpdates appliedVoucher appliedCoupon,
    findById Transaction.id (Transaction.id tx) (DB.transaction db) = None
    /\ updateKeys ticketUpdates = lineKeys (TransactionCreateRequest.ticketTypes data)
    /\ itemKeys (Transaction.items tx) = lineKeys (TransactionCreateRequest.ticketTypes data)
    /\ Transaction.voucherId tx = option_map EventVoucher.id appliedVoucher
    /\ Transaction.couponId tx = option_map UserCoupon.id appliedCoupon
    /\ (forall v, appliedVoucher = Some v -> In v (DB.eventVoucher db))
    /\ (forall c, appliedCoupon = Some c ->
                  In c (DB.userCoupon db) /\ UserCoupon.isUsed c = false)
    /\ In (Transaction.eventId tx) (map Event.id (DB.event db))
    /\ (forall it, In it (Transaction.items tx) ->
          (0 < TransactionItem.quantity it)%Z
          /\ In (TransactionItem.ticketTypeId it)
                (map EventTicketType.id (DB.eventTicketType db)))
    /\ Transaction.status tx = WAITING_FOR_PAYMENT
    /\ DB.transaction db1 = DB.transaction db ++ [tx]
    /\ DB.eventTicketType db1 =
       adjustSold (fun i => quantityFor i (updateKeys ticketUpdates)) (DB.eventTicketType db)
    /\ DB.event db1 =
       updateRows Event.id (Transaction.eventId tx)
         (fun e => Event.with_bookedSeats
                     (Event.bookedSeats e
                      + totalTicketsRequested (TransactionCreateRequest.ticketTypes data))%Z e)
         (DB.event db)
    /\ DB.eventVoucher db1 =
       match appliedVoucher with
       | Some v =>
           updateRows EventVoucher.id (EventVoucher.id v)
             (fun r => EventVoucher.with_usedCount (EventVoucher.usedCount r + 1)%Z r)
             (DB.eventVoucher db)
       | None => DB.eventVoucher db
       end
    /\ DB.userCoupon db1 =
       match appliedCoupon with
       | Some c =>
           updateRows UserCoupon.id (UserCoupon.id c) (UserCoupon.with_isUsed true)
             (DB.userCoupon db)
       | None => DB.userCoupon db
       end.
Proof.
  intro H. apply createTransaction_ok in H.
  destruct H as (event & totalAmount & ticketUpdates & pointsDiscount & vd & av & cd & ac
                 & items & d1 & d2 & d3 & d4 & d5 & H).
  destruct H as (NE & FE & MT & VT & SE & VP & VV & VC & MI & R & CR & UT & UE & UV & UC & DP).
  exists ticketUpdates, av, ac.
  apply createTransactionRow_ok in CR. destruct CR as (Fresh & _ & ->).
  apply updateTicketCounts_ok in UT. subst d2.
  apply updateEventBookedSeats_ok in UE. destruct UE as [EvIn ->].
  apply updateVoucherUsage_ok in UV. subst d4.
  apply markCouponAsUsed_ok in UC. subst d5.
  destruct (makeItems_ok _ _ MI) as [IK Found].
  destruct (validateTickets_ok _ _ _ _ Found VT) as (UK & Pos & _).
  assert (Keep : forall T (proj : DB.t -> T),
             (forall rows db, proj (DB.with_userPoint rows db) = proj db) ->
             forall d, (if Js.gtb match TransactionCreateRequest.pointsUsed data with
                                  | Some p => p | None => 0 end 0
                        then deductPoints (now env) userId pointsDiscount
                        else ret tt) d = (Ok tt, db1) -> proj db1 = proj d).
  { intros T proj Hproj d E. eapply preserves_run; [|exact E].
    destruct (Js.gtb _ 0); [apply deductPoints_writes_points; exact Hproj
                           | apply preserves_ret]. }
  assert (Etx : Transaction.eventId tx = TransactionCreateRequest.eventId data)
    by (rewrite R; reflexivity).
  split; [exact Fresh|]. split; [exact UK|].
  split; [rewrite R; exact IK|].
  split; [rewrite R; reflexivity|]. split; [rewrite R; reflexivity|].
  split.
  { intros v ->. apply validateVoucher_applied in VV. apply VV. }
  split.
  { intros c ->. apply validateCoupon_applied in VC.
    destruct VC as (code & t & _ & F & _). apply findCoupon_some in F.
    split; apply F. }
  split; [rewrite Etx; exact EvIn|].
  split.
  { intros it Hit. rewrite R in Hit. simpl in Hit.
    assert (Hk : In (TransactionItem.ticketTypeId it, TransactionItem.quantity it)
                    (lineKeys (TransactionCreateRequest.ticketTypes data))).
    { rewrite <- IK. unfold itemKeys.
      apply (in_map (fun it => (TransactionItem.ticketTypeId it,
                                TransactionItem.quantity it))). exact Hit. }
    unfold lineKeys in Hk. apply in_map_iff in Hk. destruct Hk as (l & El & Hl).
    injection El as E1 E2. rewrite <- E1, <- E2. split; [apply Pos; exact Hl|].
    destruct (Found l Hl) as (t & Ft). apply findById_some in Ft.
    destruct Ft as [Ft1 Ft2]. rewrite <- Ft2. apply in_map.
    unfold includedTicketTypes in Ft1. apply filter_In in Ft1. apply Ft1. }
  split; [rewrite R; reflexivity|].
  rewrite Etx.
  split; [rewrite (Keep _ DB.transaction (fun _ _ => eq_refl) _ DP);
          destruct av, ac; reflexivity|].
  split; [rewrite (Keep _ DB.eventTicketType (fun _ _ => eq_refl) _ DP);
          destruct av, ac; reflexivity|].
  split; [rewrite (Keep _ DB.event (fun _ _ => eq_refl) _ DP);
          destruct av, ac; reflexivity|].
  split; [rewrite (Keep _ DB.eventVoucher (fun _ _ => eq_refl) _ DP);
          destruct av, ac; reflexivity|].
  rewrite (Keep _ DB.userCoupon (fun _ _ => eq_refl) _ DP).
  destruct av, ac; reflexivity.
Qed.




(** *** Create, then roll back *)

Lemma EventVoucher_eta v n :
  n = EventVoucher.usedCount v -> EventVoucher.with_usedCount n v = v.
Proof. intros ->. destruct v. reflexivity. Qed.

Lemma Event_eta e n : n = Event.bookedSeats e -> Event.with_bookedSeats n e = e.
Proof. intros ->. destruct e. reflexivity. Qed.

Lemma UserCoupon_eta c b : b = UserCoupon.isUsed c -> UserCoupon.with_isUsed b c = c.
Proof. intros ->. destruct c. reflexivity. Qed.

Lemma quantityFor_sumKeys_eq l l' i : l = l' -> quantityFor i l = quantityFor i l'.
Proof. intros ->. reflexivity. Qed.


(** ** The inventory invariant *)

Lemma uniqueKeys_NoDup l : uniqueKeys l = true -> NoDup l.
Proof.
  induction l as [|x l IH]; simpl; intro H; [constructor|].
  apply andb_true_iff in H. destruct H as [H1 H2]. constructor.
  - intro C. apply negb_true_iff in H1.
    assert (E : existsb (id_eqb x) l = true).
    { apply existsb_exists. exists x. split; [exact C | apply id_eqb_refl]. }
    congruence.
  - apply IH. exact H2.
Qed.

Lemma consistent_Inv db : consistent db = true -> Inv db.
Proof.
  unfold consistent. intro H.
  repeat (apply andb_true_iff in H; destruct H as [H ?]).
  constructor.
  - apply uniqueKeys_NoDup. assumption.
  - apply uniqueKeys_NoDup. assumption.
  - intros x Hx Hh it Hit.
    match goal with
    | P : forallb _ (DB.transaction db) = true |- _ =>
        rewrite forallb_forall in P; specialize (P x Hx)
    end.
    rewrite Hh in *. simpl in *.
    match goal with
    | P : forallb _ (Transaction.items x) = true |- _ =>
        rewrite forallb_forall in P; specialize (P it Hit); apply Z.ltb_lt in P; exact P
    end.
  - intros t Ht.
    match goal with
    | P : forallb _ (DB.eventTicketType db) = true |- _ =>
        rewrite forallb_forall in P; specialize (P t Ht);
        apply andb_true_iff in P; destruct P as [P1 P2];
        apply Z.leb_le in P1; apply Z.leb_le in P2
    end.
    lia.
Qed.

Lemma reserved_app i l1 l2 : reserved i (l1 ++ l2) = (reserved i l1 + reserved i l2)%Z.
Proof.
  induction l1 as [|x l1 IH]; simpl; [reflexivity|].
  destruct (holds (Transaction.status x)); rewrite IH; lia.
Qed.

Lemma itemKeys_nonneg items :
  (forall it, In it items -> (0 < TransactionItem.quantity it)%Z) ->
  forall e, In e (itemKeys items) -> (0 <= snd e)%Z.
Proof.
  intros H e He. unfold itemKeys in He. apply in_map_iff in He.
  destruct He as (it & <- & Hit). simpl. specialize (H it Hit). lia.
Qed.

Lemma reserved_nonneg i txs :
  (forall x, In x txs -> holds (Transaction.status x) = true ->
             forall it, In it (Transaction.items x) -> (0 < TransactionItem.quantity it)%Z) ->
  (0 <= reserved i txs)%Z.
Proof.
  induction txs as [|x txs IH]; simpl; intro H; [lia|].
  assert (0 <= reserved i txs)%Z by (apply IH; intros y Hy; apply H; right; exact Hy).
  destruct (holds (Transaction.status x)) eqn:Hx; [|assumption].
  assert (0 <= quantityFor i (itemKeys (Transaction.items x)))%Z.
  { apply quantityFor_nonneg. apply itemKeys_nonneg. apply (H x (or_introl eq_refl) Hx). }
  lia.
Qed.

(** Moving the one booking keyed [transactionId] to status [s] moves
    its tickets in or out of the reserved count. *)
Lemma reserved_with_status i transactionId s txs x :
  NoDup (map Transaction.id txs) ->
  In x txs -> Transaction.id x = transactionId ->
  reserved i (updateRows Transaction.id transactionId (Transaction.with_status s) txs)
  = (reserved i txs
     - (if holds (Transaction.status x)
        then quantityFor i (itemKeys (Transaction.items x)) else 0)
     + (if holds s then quantityFor i (itemKeys (Transaction.items x)) else 0))%Z.
Proof.
  induction txs as [|y txs IH]; intros ND Hin K; [contradiction|].
  inversion ND as [|? ? Hy ND']; subst. simpl.
  destruct (id_eqb (Transaction.id y) (Transaction.id x)) eqn:E.
  - apply id_eqb_eq in E.
    assert (y = x).
    { destruct Hin as [Hin|Hin]; [exact Hin|].
      exfalso. apply Hy. rewrite E. apply in_map. exact Hin. }
    subst y. simpl.
    fold (updateRows Transaction.id (Transaction.id x) (Transaction.with_status s) txs).
    rewrite updateRows_absent; [|exact Hy].
    destruct (holds s); destruct (holds (Transaction.status x)); lia.
  - apply id_eqb_neq in E.
    destruct Hin as [Hin|Hin]; [exfalso; apply E; rewrite Hin; reflexivity|].
    fold (updateRows Transaction.id (Transaction.id x) (Transaction.with_status s) txs).
    rewrite (IH ND' Hin eq_refl).
    destruct (holds (Transaction.status y)); lia.
Qed.

Lemma NoDup_snoc (l : list Id) (x : Id) : NoDup l -> ~ In x l -> NoDup (l ++ [x]).
Proof.
  induction l as [|y l IH]; simpl; intros ND Hx.
  - constructor; [intros []|constructor].
  - inversion ND as [|? ? Hy ND']; subst. constructor.
    + intro C. apply in_app_or in C. destruct C as [C|[C|[]]].
      * exact (Hy C).
      * apply Hx. left. symmetry. exact C.
    + apply IH; [exact ND'|]. intro C. apply Hx. right. exact C.
Qed.

Lemma adjustSold_in k rows t' :
  In t' (adjustSold k rows) ->
  exists t, In t rows
            /\ t' = EventTicketType.with_soldQuantity
                      (EventTicketType.soldQuantity t + k (EventTicketType.id t))%Z t.
Proof.
  unfold adjustSold. intro H. apply in_map_iff in H. destruct H as (t & E & Ht).
  exists t. split; [exact Ht | symmetry; exact E].
Qed.

(** *** createTransaction keeps the invariant *)

Lemma createTransaction_bounded env userId data db tx db1 :
  NoDup (map EventTicketType.id (DB.eventTicketType db)) ->
  (forall t, In t (DB.eventTicketType db) ->
             (EventTicketType.soldQuantity t <= EventTicketType.quantity t)%Z) ->
  createTransaction addHours env userId data db = (Ok tx, db1) ->
  forall t, In t (DB.eventTicketType db1) ->
            (EventTicketType.soldQuantity t <= EventTicketType.quantity t)%Z.
Proof.
  intros ND B H.
  pose proof (@createTransaction_tables _ _ _ _ _ _ H) as T.
  destruct T as (ups' & av' & ac' & _ & UK' & _ & _ & _ & _ & _ & _ & _ & _ & _ & TT1 & _).
  apply createTransaction_ok in H.
  destruct H as (event & totalAmount & ticketUpdates & pointsDiscount & vd & av & cd & ac
                 & items & d1 & d2 & d3 & d4 & d5 & H).
  destruct H as (NE & FE & MT & VT & SE & VP & VV & VC & MI & R & CR & UT & _).
  apply createTransactionRow_ok in CR. destruct CR as (_ & _ & ->).
  destruct (makeItems_ok _ _ MI) as [IK Found].
  destruct (validateTickets_ok _ _ _ _ Found VT) as (UK & _ & Match).
  assert (E2 : DB.eventTicketType d2 = DB.eventTicketType db1).
  { rewrite (@updateTicketCounts_ok _ _ _ UT), TT1. simpl.
    apply adjustSold_ext. intros t _.
    assert (K : updateKeys ticketUpdates = updateKeys ups')
      by (simpl in UK; congruence).
    rewrite K. reflexivity. }
  rewrite <- E2.
  eapply updateTicketCounts_bounded; [| | |exact UT].
  - exact ND.
  - exact B.
  - simpl. intros u t Hu Ht Kt.
    destruct (Match u Hu) as [[]|(t0 & Ht0 & K0 & M0)].
    unfold includedTicketTypes in Ht0. apply filter_In in Ht0. destruct Ht0 as [Ht0 _].
    assert (t = t0) by (eapply NoDup_key_eq; [exact ND| | |]; eauto; congruence).
    subst t0. exact M0.
Qed.

Lemma createTransaction_Inv env userId data db :
  Inv db -> Inv (snd (createTransaction addHours env userId data db)).
Proof.
  intro I.
  destruct (createTransaction_atomic env userId data db) as [(tx & db1 & E)|(e & E)];
    rewrite E; simpl; [|exact I].
  pose proof (@createTransaction_bounded _ _ _ _ _ _ (inv_ticketTypes I)
                (fun t Ht => proj2 (inv_bounds I t Ht)) E) as B.
  apply createTransaction_tables in E.
  destruct E as (ups & av & ac & Fresh & UK & IK & _ & _ & _ & _ & _
                 & Items & St & T1 & TT1 & _).
  constructor.
  - rewrite TT1, adjustSold_keys. apply (inv_ticketTypes I).
  - rewrite T1, map_app. simpl. apply NoDup_snoc; [apply (inv_transactions I)|].
    apply findById_none. exact Fresh.
  - intros x Hx Hh it Hit. rewrite T1 in Hx. apply in_app_or in Hx.
    destruct Hx as [Hx|[<-|[]]].
    + apply (inv_positive I x Hx Hh it Hit).
    + apply (Items it Hit).
  - intros t' Ht'. split; [|apply B; exact Ht'].
    rewrite TT1 in Ht'. apply adjustSold_in in Ht'. destruct Ht' as (t & Ht & ->).
    simpl. rewrite T1, reserved_app. simpl. rewrite St. simpl.
    rewrite IK, UK. pose proof (inv_bounds I t Ht). lia.
Qed.

(** *** Status transitions keep the invariant *)

Lemma rollbackTransaction_ok env transactionId d d' x :
  findById Transaction.id transactionId (DB.transaction d) = Some x ->
  rollbackTransaction addMonths env transactionId d = (Ok tt, d') ->
  DB.eventTicketType d' =
    adjustSold (fun i => (- quantityFor i (itemKeys (Transaction.items x)))%Z)
      (DB.eventTicketType d)
  /\ DB.transaction d' = DB.transaction d.
Proof.
  intros F H. split.
  - unfold rollbackTransaction in H. bind_inv H.
    apply ret_ok in Hm. destruct Hm as [-> ->]. rewrite F in H.
    bind_inv H. repeat match goal with u : unit |- _ => destruct u end.
    apply rollbackItems_ok in Hm. destruct Hm as [-> _].
    match type of H with
    | ?m _ = _ => assert (P : preserves DB.eventTicketType m)
    end.
    { apply preserves_bind; [unfold rollbackBookedSeats; preserves_tac|]. intros _.
      apply preserves_bind; [unfold rollbackVoucherUsage; preserves_tac|]. intros _.
      apply preserves_bind; [unfold rollbackCouponUsage; preserves_tac|]. intros _.
      destruct (Js.gtb (Transaction.pointsUsed x) 0); [|apply preserves_ret].
      apply restorePoints_writes_points. reflexivity. }
    rewrite (@preserves_run _ _ _ _ _ _ _ P H). reflexivity.
  - eapply preserves_run; [apply rollbackTransaction_keeps_transactions | exact H].
Qed.

Lemma Inv_transition db db' transactionId x s :
  Inv db ->
  In x (DB.transaction db) -> Transaction.id x = transactionId ->
  holds (Transaction.status x) = true ->
  DB.transaction db' =
    updateRows Transaction.id transactionId (Transaction.with_status s) (DB.transaction db) ->
  (holds s = true /\ DB.eventTicketType db' = DB.eventTicketType db)
  \/ (holds s = false
      /\ DB.eventTicketType db' =
         adjustSold (fun i => (- quantityFor i (itemKeys (Transaction.items x)))%Z)
           (DB.eventTicketType db)) ->
  Inv db'.
Proof.
  intros I Hx Kx Hh T TT.
  assert (Pos : forall it, In it (Transaction.items x) -> (0 < TransactionItem.quantity it)%Z)
    by (apply (inv_positive I x Hx Hh)).
  constructor.
  - destruct TT as [[_ ->]|[_ ->]]; [|rewrite adjustSold_keys]; apply (inv_ticketTypes I).
  - rewrite T, updateRows_keys; [apply (inv_transactions I) | intro r; reflexivity].
  - intros y Hy Hhy it Hit. rewrite T in Hy. apply updateRows_in in Hy.
    destruct Hy as (y0 & Hy0 & [[K ->]|[K ->]]).
    + assert (y0 = x) by (eapply NoDup_key_eq; [exact (inv_transactions I)| | |];
                          eauto; congruence).
      subst y0. apply Pos. exact Hit.
    + apply (inv_positive I y0 Hy0 Hhy it Hit).
  - intros t' Ht'. rewrite T.
    rewrite (@reserved_with_status _ transactionId s _ x (inv_transactions I) Hx Kx).
    rewrite Hh.
    destruct TT as [[Hs E]|[Hs E]]; rewrite Hs; rewrite E in Ht'.
    + pose proof (inv_bounds I t' Ht'). lia.
    + apply adjustSold_in in Ht'. destruct Ht' as (t & Ht & ->). simpl.
      pose proof (inv_bounds I t Ht).
      assert (0 <= quantityFor (EventTicketType.id t) (itemKeys (Transaction.items x)))%Z.
      { apply quantityFor_nonneg. apply itemKeys_nonneg. exact Pos. }
      lia.
Qed.

Lemma uploadPaymentProof_ok env transactionId userId uploaded db pay db' :
  uploadPaymentProof addMonths env transactionId userId uploaded db = (Ok pay, db') ->
  exists x,
    findForPayment transactionId userId db = Some x
    /\ (now env <= Transaction.expiryTime x)%Z
    /\ DB.transaction db' =
       updateRows Transaction.id transactionId
         (Transaction.with_status WAITING_FOR_CONFIRMATION) (DB.transaction db)
    /\ DB.eventTicketType db' = DB.eventTicketType db
    /\ sameLedger db' db.
Proof.
  intro H. apply prisma_transaction_ok in H.
  bind_inv H. apply ret_ok in Hm. destruct Hm as [-> ->].
  destruct (findForPayment transactionId userId db) as [x|] eqn:F; [|discriminate].
  destruct (now env >? Transaction.expiryTime x)%Z eqn:L.
  - bind_inv H. discriminate.
  - destruct uploaded as [url|]; [|discriminate].
    bind_inv H. bind_inv H. apply ret_ok in H. destruct H as [_ ->].
    apply updateTable_ok in Hm0. destruct Hm0 as (r & Fr & _ & ->).
    assert (E : DB.transaction d = DB.transaction db /\ sameLedger d db).
    { unfold upsertPayment in Hm.
      destruct (findById TransactionPayment.transactionId transactionId
                  (DB.transactionPayment db)); inversion Hm;
        (split; [reflexivity | unfold sameLedger; repeat split]). }
    destruct E as [E1 E2].
    exists x. split; [reflexivity|]. split.
    + rewrite Z.gtb_ltb in L. apply Z.ltb_ge in L. exact L.
    + simpl. rewrite E1. split; [reflexivity|]. split; [apply E2 | exact E2].
Qed.

Lemma findForPayment_some transactionId userId db x :
  findForPayment transactionId userId db = Some x ->
  In x (DB.transaction db) /\ Transaction.id x = transactionId
  /\ Transaction.userId x = userId /\ Transaction.status x = WAITING_FOR_PAYMENT.
Proof.
  unfold findForPayment. intro H. apply find_some in H. destruct H as [Hin H].
  repeat (apply andb_true_iff in H; destruct H as [H ?]).
  repeat split; auto.
  - apply id_eqb_eq. exact H.
  - apply id_eqb_eq. assumption.
  - destruct (Transaction.status x); simpl in *; congruence.
Qed.

Lemma findForConfirmation_some transactionId organizerId db x :
  findForConfirmation transactionId organizerId db = Some x ->
  In x (DB.transaction db) /\ Transaction.id x = transactionId
  /\ Transaction.status x = WAITING_FOR_CONFIRMATION.
Proof.
  unfold findForConfirmation. intro H. apply find_some in H. destruct H as [Hin H].
  repeat (apply andb_true_iff in H; destruct H as [H ?]).
  repeat split; auto.
  - apply id_eqb_eq. exact H.
  - destruct (Transaction.status x); simpl in *; congruence.
Qed.

Lemma uploadPaymentProof_Inv env transactionId userId uploaded db :
  Inv db -> Inv (snd (uploadPaymentProof addMonths env transactionId userId uploaded db)).
Proof.
  intro I.
  destruct (uploadPaymentProof addMonths env transactionId userId uploaded db)
    as [[pay|e] db'] eqn:E; simpl.
  - apply uploadPaymentProof_ok in E. destruct E as (x & F & _ & T & TT & _).
    apply findForPayment_some in F. destruct F as (Hx & Kx & _ & Sx).
    eapply Inv_transition; [exact I | exact Hx | exact Kx | rewrite Sx; reflexivity
                           | exact T | left; split; [reflexivity | exact TT]].
  - unfold uploadPaymentProof in E.
    match type of E with
    | prisma_transaction ?b db = _ =>
        destruct (prisma_transaction_atomic b db) as [[a E']|[e' E']];
        rewrite E' in E; inversion E; subst; exact I
    end.
Qed.

Lemma confirmTransaction_Inv env transactionId organizerId isAccepted db :
  Inv db ->
  Inv (snd (confirmTransaction addMonths env transactionId organizerId isAccepted db)).
Proof.
  intro I.
  destruct (confirmTransaction addMonths env transactionId organizerId isAccepted db)
    as [[x|e] db'] eqn:E; simpl.
  - pose proof (@confirmTransaction_ok _ _ _ _ _ _ _ E) as (x0 & r & F & Fr & _ & T).
    apply findForConfirmation_some in F. destruct F as (Hx & Kx & Sx).
    assert (r = x0).
    { apply findById_some in Fr. destruct Fr as [Hr Kr].
      eapply NoDup_key_eq; [exact (inv_transactions I)| | |]; eauto; congruence. }
    subst r.
    eapply Inv_transition; [exact I | exact Hx | exact Kx | rewrite Sx; reflexivity
                           | exact T |].
    apply prisma_transaction_ok in E.
    bind_inv E. apply ret_ok in Hm. destruct Hm as [-> ->].
    destruct (findForConfirmation transactionId organizerId db); [|discriminate].
    bind_inv E. apply updateTable_ok in E. destruct E as (r' & _ & _ & ->). simpl.
    destruct isAccepted.
    + left. split; [reflexivity|].
      bind_inv Hm. apply ret_ok in Hm. destruct Hm as [_ ->].
      apply createRow_ok in Hm0. destruct Hm0 as (_ & _ & ->). reflexivity.
    + right. split; [reflexivity|]. destruct a.
      apply (@rollbackTransaction_ok _ _ _ _ _ Fr Hm).
  - unfold confirmTransaction in E.
    match type of E with
    | prisma_transaction ?b db = _ =>
        destruct (prisma_transaction_atomic b db) as [[a E']|[e' E']];
        rewrite E' in E; inversion E; subst; exact I
    end.
Qed.

Lemma expireTransaction_Inv env transactionId db :
  Inv db ->
  Inv (snd (prisma_transaction (expireTransaction addMonths env transactionId) db)).
Proof.
  intro I.
  destruct (prisma_transaction (expireTransaction addMonths env transactionId) db)
    as [[u|e] db'] eqn:E; simpl.
  - apply prisma_transaction_ok in E. unfold expireTransaction in E.
    bind_inv E. apply ret_ok in Hm. destruct Hm as [-> ->].
    destruct (findById Transaction.id transactionId (DB.transaction db)) as [x|] eqn:F.
    + destruct (status_eqb (Transaction.status x) WAITING_FOR_PAYMENT) eqn:S; simpl in E.
      * bind_inv E. apply updateTable_ok in Hm. destruct Hm as (r & Fr & _ & ->).
        destruct u.
        assert (F' : findById Transaction.id transactionId
                       (DB.transaction
                          (DB.with_transaction
                             (updateRows Transaction.id transactionId
                                (Transaction.with_status EXPIRED) (DB.transaction db)) db))
                     = Some (Transaction.with_status EXPIRED x)).
        { simpl. apply findById_unique.
          - rewrite updateRows_keys; [apply (inv_transactions I) | intro y; reflexivity].
          - apply findById_some in F. destruct F as [Hin K].
            unfold updateRows. apply in_map_iff. exists x.
            apply id_eqb_eq in K. rewrite K. split; [reflexivity | exact Hin].
          - apply findById_some in F. apply F. }
        destruct (@rollbackTransaction_ok _ _ _ _ _ F' E) as [TT T].
        apply findById_some in F. destruct F as [Hx Kx].
        eapply Inv_transition; [exact I | exact Hx | exact Kx | | exact T
                               | right; split; [reflexivity | exact TT]].
        destruct (Transaction.status x); simpl in S; try discriminate; reflexivity.
      * apply ret_ok in E. destruct E as [_ ->]. exact I.
    + apply ret_ok in E. destruct E as [_ ->]. exact I.
  - match type of E with
    | prisma_transaction ?b db = _ =>
        destruct (prisma_transaction_atomic b db) as [[a E']|[e' E']];
        rewrite E' in E; inversion E; subst; exact I
    end.
Qed.

Lemma step_Inv db op : Inv db -> Inv (step addMonths addHours db op).
Proof.
  intro I. destruct op; simpl.
  - apply createTransaction_Inv. exact I.
  - apply uploadPaymentProof_Inv. exact I.
  - apply confirmTransaction_Inv. exact I.
  - apply expireTransaction_Inv. exact I.
Qed.

Lemma run_Inv ops : forall db, Inv db -> Inv (run addMonths addHours db ops).
Proof.
  unfold run. induction ops as [|op ops IH]; intros db I; simpl.
  - exact I.
  - apply IH. apply step_Inv. exact I.
Qed.

(** C1.  From a consistent database, after any sequence of calls of
    createTransaction, uploadPaymentProof, confirmTransaction and of the
    expiry path, every ticket type has
    [0 <= tickets held by bookings <= soldQuantity <= quantity]. *)
Theorem sold_within_capacity db0 ops t :
  consistent db0 = true ->
  In t (DB.eventTicketType (run addMonths addHours db0 ops)) ->
  (0 <= reserved (EventTicketType.id t) (DB.transaction (run addMonths addHours db0 ops))
   <= EventTicketType.soldQuantity t)%Z
  /\ (0 <= EventTicketType.soldQuantity t <= EventTicketType.quantity t)%Z.
Proof.
  intros C Ht.
  pose proof (@run_Inv ops db0 (@consistent_Inv db0 C)) as I.
  pose proof (inv_bounds I t Ht) as B.
  pose proof (@reserved_nonneg (EventTicketType.id t) _ (inv_positive I)) as N.
  lia.
Qed.

(** *** Bookings that end REJECTED or EXPIRED *)

Lemma findById_updateRows R (key : R -> Id) i f rows r :
  (forall x, key (f x) = key x) ->
  findById key i rows = Some r ->
  findById key i (updateRows key i f rows) = Some (f r).
Proof.
  intro Hf. unfold findById, updateRows.
  induction rows as [|x rows IH]; simpl; [discriminate|].
  destruct (id_eqb (key x) i) eqn:E.
  - intro H. injection H as <-. simpl. rewrite Hf, E. reflexivity.
  - intro H. simpl. rewrite E. apply IH. exact H.
Qed.

Lemma Transaction_eta x s : s = Transaction.status x -> Transaction.with_status s x = x.
Proof. intros ->. destruct x. reflexivity. Qed.


(** *** The first confirmation goes through *)

Lemma confirmTransaction_accept_succeeds env transactionId organizerId db x0 :
  findForConfirmation transactionId organizerId db = Some x0 ->
  findById EventAttendee.transactionId transactionId (DB.eventAttendee db) = None ->
  exists x db1,
    confirmTransaction addMonths env transactionId organizerId true db = (Ok x, db1).
Proof.
  intros F A.
  pose proof (findForConfirmation_some _ _ _ F) as (Hx & Kx & _).
  destruct (@findById_in _ Transaction.id transactionId (DB.transaction db)) as (r & Fr).
  { rewrite <- Kx. apply in_map. exact Hx. }
  unfold confirmTransaction.
  eexists. eexists. apply prisma_transaction_commit.
  unfold bind, get. rewrite F.
  unfold createRow, create. cbn [EventAttendee.transactionId]. rewrite A.
  unfold ret. apply updateTable_found. exact Fr.
Qed.

Lemma confirmTransaction_reject_succeeds env transactionId organizerId db x0 r :
  findForConfirmation transactionId organizerId db = Some x0 ->
  findById Transaction.id transactionId (DB.transaction db) = Some r ->
  rollbackReady r db ->
  exists x db1,
    confirmTransaction addMonths env transactionId organizerId false db = (Ok x, db1).
Proof.
  intros F Fr (R1 & R2 & R3 & R4 & R5).
  destruct (@rollbackTransaction_run env transactionId db r Fr R1 R2 R3 R4 R5)
    as (d' & Run & T & _).
  unfold confirmTransaction.
  eexists. eexists. apply prisma_transaction_commit.
  unfold bind at 1. unfold get. rewrite F.
  rewrite (@bind_run _ _ _ _ _ _ _ Run).
  apply updateTable_found. rewrite T. exact Fr.
Qed.

(** *** A payment proof sent after the deadline *)

(** The expiry that uploadPaymentProof runs before it throws is written
    inside the unit of work that the throw aborts: the call reports
    TRANSACTION_EXPIRED and the database is as it was before the call. *)
Lemma uploadPaymentProof_late env transactionId userId uploaded db x :
  findForPayment transactionId userId db = Some x ->
  (now env > Transaction.expiryTime x)%Z ->
  (exists e, uploadPaymentProof addMonths env transactionId userId uploaded db
             = (Throw e, db))
  /\ (forall d, expireTransaction addMonths env transactionId db = (Ok tt, d) ->
                uploadPaymentProof addMonths env transactionId userId uploaded db
                = (Throw (TransactionError TRANSACTION_EXPIRED), db)).
Proof.
  intros F L.
  assert (G : (now env >? Transaction.expiryTime x)%Z = true) by (apply Z.gtb_lt; lia).
  split.
  - unfold uploadPaymentProof, prisma_transaction.
    unfold bind at 1. unfold get. rewrite F, G.
    destruct ((expireTransaction addMonths env transactionId ;;;
               throw (TransactionError TRANSACTION_EXPIRED)) db)
      as [[a|e] d] eqn:E.
    + bind_inv E. discriminate.
    + exists e. reflexivity.
  - intros d E.
    unfold uploadPaymentProof, prisma_transaction.
    unfold bind at 1. unfold get. rewrite F, G.
    unfold bind. rewrite E. reflexivity.
Qed.

(** ** Further properties of createTransaction *)

(** *** Pricing *)

Lemma validateTickets_total eventTicketTypes ticketTypes :
  forall totalAmount acc total' ups items,
  validateTickets eventTicketTypes ticketTypes totalAmount acc = Ok (total', ups) ->
  makeItems eventTicketTypes ticketTypes = Ok items ->
  total' = fold_left (fun s it => s + TransactionItem.subtotal it) items totalAmount.
Proof.
  induction ticketTypes as [|l rest IH]; intros a acc t ups items VT MI; simpl in *.
  - injection VT as <- _. injection MI as <-. reflexivity.
  - destruct (findById EventTicketType.id (TicketLine.ticketTypeId l) eventTicketTypes)
      as [tt0|]; [|discriminate].
    destruct (TicketLine.quantity l <=? 0)%Z; [discriminate|].
    destruct (TicketLine.quantity l >? _)%Z; [discriminate|].
    destruct (makeItems eventTicketTypes rest) as [its|] eqn:MR; [|discriminate].
    injection MI as <-. simpl. eapply IH; [exact VT|reflexivity].
Qed.

Lemma makeItems_priced eventTicketTypes ticketTypes : forall items,
  makeItems eventTicketTypes ticketTypes = Ok items ->
  forall it, In it items ->
  exists t, In t eventTicketTypes
            /\ EventTicketType.id t = TransactionItem.ticketTypeId it
            /\ TransactionItem.pricePerTicket it = EventTicketType.price t
            /\ TransactionItem.subtotal it
               = inject_Z (TransactionItem.quantity it) * EventTicketType.price t.
Proof.
  induction ticketTypes as [|l rest IH]; intros items MI it Hit; simpl in MI.
  - injection MI as <-. destruct Hit.
  - destruct (findById EventTicketType.id (TicketLine.ticketTypeId l) eventTicketTypes)
      as [t|] eqn:F; [|discriminate].
    destruct (makeItems eventTicketTypes rest) as [its|] eqn:MR; [|discriminate].
    injection MI as <-. destruct Hit as [<-|Hit].
    + exists t. apply findById_some in F. destruct F as [Hin Hid].
      simpl. repeat split; assumption.
    + eapply IH; [reflexivity|exact Hit].
Qed.

(** X1.  A booking is priced from the ticket types of its event as they
    are read at the start of the call: every item carries the current price
    of its ticket type and the subtotal quantity * price, the items follow
    the requested lines, and the subtotals, added in the order of the
    lines, give exactly the recorded totalAmount. *)
Theorem createTransaction_items_priced env userId data db tx db' :
  createTransaction addHours env userId data db = (Ok tx, db') ->
  fold_left (fun s it => s + TransactionItem.subtotal it) (Transaction.items tx) 0
  = Transaction.totalAmount tx
  /\ itemKeys (Transaction.items tx) = lineKeys (TransactionCreateRequest.ticketTypes data)
  /\ forall it, In it (Transaction.items tx) ->
       exists t, In t (DB.eventTicketType db)
                 /\ EventTicketType.id t = TransactionItem.ticketTypeId it
                 /\ EventTicketType.eventId t = Transaction.eventId tx
                 /\ TransactionItem.pricePerTicket it = EventTicketType.price t
                 /\ TransactionItem.subtotal it
                    = inject_Z (TransactionItem.quantity it) * EventTicketType.price t.
Proof.
  intro H. apply createTransaction_ok in H. cbv zeta in H.
  destruct H as (event & totalAmount & ticketUpdates & pointsDiscount & vd & av & cd & ac
                 & items & d1 & d2 & d3 & d4 & d5 & H).
  destruct H as (NE & FE & MT & VT & SE & VP & VV & VC & MI & R & _).
  rewrite R. simpl. split; [|split].
  - symmetry. eapply validateTickets_total; [exact VT|exact MI].
  - apply (makeItems_ok _ _ MI).
  - intros it Hit. destruct (makeItems_priced _ _ MI it Hit) as (t & Hin & Hid & Hp & Hs).
    exists t. unfold includedTicketTypes in Hin. apply filter_In in Hin.
    destruct Hin as [Hin Hf]. apply andb_true_iff in Hf. destruct Hf as [He _].
    apply id_eqb_eq in He.
    unfold findBookableEvent in FE. apply find_some in FE. destruct FE as [_ FE].
    apply andb_true_iff in FE. destruct FE as [FE _].
    apply andb_true_iff in FE. destruct FE as [FE _]. apply id_eqb_eq in FE.
    repeat split; try assumption. rewrite He. exact FE.
Qed.

Lemma calculateDiscount_le_amount amount t value cap :
  calculateDiscount amount t value cap <= amount.
Proof. unfold calculateDiscount. apply Q.le_min_r. Qed.

Lemma validateVoucher_le now eventId voucherCode totalAmount db d av :
  validateVoucher now eventId voucherCode totalAmount db = Ok (d, av) ->
  (av = None /\ d = 0)
  \/ (exists v, av = Some v
                /\ d = calculateDiscount totalAmount (EventVoucher.discountType v)
                         (EventVoucher.discountValue v) None).
Proof.
  intro H. destruct av as [v|].
  - right. exists v. split; [reflexivity|]. apply validateVoucher_applied in H. apply H.
  - left. split; [reflexivity|]. eapply validateVoucher_skipped. exact H.
Qed.

Lemma validateCoupon_le now userId couponCode totalAmount db d ac :
  validateCoupon now userId couponCode totalAmount db = Ok (d, ac) ->
  (ac = None /\ d = 0) \/ (exists t v cap, d = calculateDiscount totalAmount t v cap).
Proof.
  unfold validateCoupon. destruct (suppliedCode couponCode) as [code|].
  - destruct (findCoupon now userId code db) as [[c t]|].
    + destruct (Js.ltb _ _); [discriminate|]. intro H. injection H as <- <-.
      right. eauto.
    + intro H. injection H as <- <-. left. split; reflexivity.
  - intro H. injection H as <- <-. left. split; reflexivity.
Qed.

(** X2.  The amounts a booking records: the points used are not
    negative, and neither they nor the voucher discount nor the coupon
    discount exceed totalAmount (0 when totalAmount is negative);
    finalAmount is totalAmount less the three, cut off at 0, so it is never
    negative. *)
Theorem createTransaction_final_amount env userId data db tx db' :
  createTransaction addHours env userId data db = (Ok tx, db') ->
  0 <= Transaction.pointsUsed tx <= Qmax 0 (Transaction.totalAmount tx)
  /\ Transaction.voucherDiscount tx <= Qmax 0 (Transaction.totalAmount tx)
  /\ Transaction.couponDiscount tx <= Qmax 0 (Transaction.totalAmount tx)
  /\ Transaction.finalAmount tx
     == Qmax 0 (Transaction.totalAmount tx - Transaction.pointsUsed tx
                - Transaction.voucherDiscount tx - Transaction.couponDiscount tx)
  /\ 0 <= Transaction.finalAmount tx.
Proof.
  intro H. apply createTransaction_ok in H. cbv zeta in H.
  destruct H as (event & totalAmount & ticketUpdates & pointsDiscount & vd & av & cd & ac
                 & items & d1 & d2 & d3 & d4 & d5 & H).
  destruct H as (NE & FE & MT & VT & SE & VP & VV & VC & MI & R & _).
  rewrite R. simpl.
  apply validatePoints_ok in VP.
  assert (HP : 0 <= pointsDiscount <= Qmax 0 totalAmount).
  { destruct VP as [(G & -> & L & _)|(G & ->)].
    - apply JsFacts.gtb_gt in G. split; [lra|]. qminmax; lra.
    - split; [lra|]. apply Q.le_max_l. }
  assert (HV : vd <= Qmax 0 totalAmount).
  { destruct (validateVoucher_le _ _ _ _ _ VV) as [[_ ->]|(v & _ & ->)].
    - apply Q.le_max_l.
    - eapply Qle_trans; [apply calculateDiscount_le_amount|apply Q.le_max_r]. }
  assert (HC : cd <= Qmax 0 totalAmount).
  { destruct (validateCoupon_le _ _ _ _ _ VC) as [[_ ->]|(t & v & cap & ->)].
    - apply Q.le_max_l.
    - eapply Qle_trans; [apply calculateDiscount_le_amount|apply Q.le_max_r]. }
  split; [exact HP|]. split; [exact HV|]. split; [exact HC|].
  split; [reflexivity|]. apply Q.le_max_l.
Qed.

(** *** Quantities *)

(** X3.  A request with a line whose quantity is zero or negative is
    never booked: the call throws and the database is left as it was. *)
Theorem createTransaction_rejects_nonpositive_quantity env userId data db l :
  In l (TransactionCreateRequest.ticketTypes data) ->
  (TicketLine.quantity l <= 0)%Z ->
  exists e, createTransaction addHours env userId data db = (Throw e, db).
Proof.
  intros Hl Hq.
  destruct (createTransaction_atomic env userId data db) as [(tx & db' & E)|E];
    [exfalso|exact E].
  apply createTransaction_tables in E.
  destruct E as (ups & av & ac & _ & _ & IK & _ & _ & _ & _ & _ & Pos & _).
  assert (Hk : In (TicketLine.ticketTypeId l, TicketLine.quantity l)
                  (itemKeys (Transaction.items tx))).
  { rewrite IK. unfold lineKeys.
    apply (in_map (fun l => (TicketLine.ticketTypeId l, TicketLine.quantity l))).
    exact Hl. }
  unfold itemKeys in Hk. apply in_map_iff in Hk. destruct Hk as (it & Eit & Hit).
  injection Eit as _ E2. destruct (Pos it Hit) as [P _]. lia.
Qed.

Lemma adjustSold_in_inv k rows t :
  In t rows ->
  In (EventTicketType.with_soldQuantity
        (EventTicketType.soldQuantity t + k (EventTicketType.id t))%Z t)
     (adjustSold k rows).
Proof.
  intro H. unfold adjustSold.
  apply (in_map (fun t => EventTicketType.with_soldQuantity
                            (EventTicketType.soldQuantity t + k (EventTicketType.id t))%Z t)).
  exact H.
Qed.

(** X4.  A booking never takes more tickets of a type than were left:
    when the call succeeds, the quantities of all the lines that name a
    ticket type, added up, fit into quantity - soldQuantity as it was
    before the call, also when several lines name the same type (each line
    alone passes the check of step 2; the re-check after each increment
    catches their sum).  The sold counter then grows by exactly that sum. *)
Theorem createTransaction_within_stock env userId data db tx db' t :
  NoDup (map EventTicketType.id (DB.eventTicketType db)) ->
  (forall r, In r (DB.eventTicketType db) ->
             (EventTicketType.soldQuantity r <= EventTicketType.quantity r)%Z) ->
  createTransaction addHours env userId data db = (Ok tx, db') ->
  In t (DB.eventTicketType db) ->
  let requested :=
    quantityFor (EventTicketType.id t)
                (lineKeys (TransactionCreateRequest.ticketTypes data)) in
  (0 <= requested <= EventTicketType.quantity t - EventTicketType.soldQuantity t)%Z
  /\ findById EventTicketType.id (EventTicketType.id t) (DB.eventTicketType db')
     = Some (EventTicketType.with_soldQuantity
               (EventTicketType.soldQuantity t + requested)%Z t).
Proof.
  intros ND B E Ht requested.
  pose proof (@createTransaction_bounded _ _ _ _ _ _ ND B E) as B'.
  apply createTransaction_tables in E.
  destruct E as (ups & av & ac & _ & UK & IK & _ & _ & _ & _ & _ & Pos & _ & _ & ET & _).
  rewrite UK in ET.
  assert (Hin : In (EventTicketType.with_soldQuantity
                      (EventTicketType.soldQuantity t + requested)%Z t)
                   (DB.eventTicketType db')).
  { rewrite ET.
    apply (@adjustSold_in_inv
             (fun i => quantityFor i (lineKeys (TransactionCreateRequest.ticketTypes data)))
             _ _ Ht). }
  split; [split|].
  - apply quantityFor_nonneg. rewrite <- IK. intros e He.
    unfold itemKeys in He. apply in_map_iff in He. destruct He as (it & <- & Hit).
    simpl. destruct (Pos it Hit) as [P _]. lia.
  - specialize (B' _ Hin). simpl in B'. lia.
  - apply findById_unique; [|exact Hin|reflexivity].
    rewrite ET. rewrite adjustSold_keys. exact ND.
Qed.

(** *** Points *)



(** ** The booking life cycle *)

(** *** Tables the calls leave alone *)

Lemma preserves_prisma_transaction T A (proj : DB.t -> T) (body : M A) :
  preserves proj body -> preserves proj (prisma_transaction body).
Proof.
  intros H db. unfold prisma_transaction. specialize (H db).
  destruct (body db) as [[a|e] d]; simpl in *; [exact H|reflexivity].
Qed.

Lemma frame_rollbackTransaction T (proj : DB.t -> T) env transactionId :
  frame proj -> preserves proj (rollbackTransaction addMonths env transactionId).
Proof.
  intros (Fe & Ft & Fv & Fc & Fp & _). unfold rollbackTransaction.
  apply preserves_bind; [apply preserves_get|]. intro db.
  destruct (findById Transaction.id transactionId (DB.transaction db)) as [x|];
    [|apply preserves_ret].
  apply preserves_bind; [apply rollbackItems_writes_ticketTypes; exact Ft|]. intros _.
  apply preserves_bind.
  { unfold rollbackBookedSeats. apply preserves_bind; [|intro; apply preserves_ret].
    apply preserves_updateTable. exact Fe. }
  intros _. apply preserves_bind.
  { unfold rollbackVoucherUsage. destruct (presentId _); [|apply preserves_ret].
    apply preserves_bind; [|intro; apply preserves_ret].
    apply preserves_updateTable. exact Fv. }
  intros _. apply preserves_bind.
  { unfold rollbackCouponUsage. destruct (presentId _); [|apply preserves_ret].
    apply preserves_bind; [|intro; apply preserves_ret].
    apply preserves_updateTable. exact Fc. }
  intros _. destruct (Js.gtb (Transaction.pointsUsed x) 0); [|apply preserves_ret].
  apply restorePoints_writes_points. exact Fp.
Qed.

Lemma frame_expireTransaction T (proj : DB.t -> T) env transactionId :
  frame proj -> preserves proj (expireTransaction addMonths env transactionId).
Proof.
  intro F. unfold expireTransaction.
  apply preserves_bind; [apply preserves_get|]. intro db.
  destruct (findById Transaction.id transactionId (DB.transaction db)) as [x|];
    [|apply preserves_ret].
  destruct (negb _); [apply preserves_ret|].
  apply preserves_bind; [|intro; apply frame_rollbackTransaction; exact F].
  apply preserves_updateTable. apply F.
Qed.

Lemma frame_upsertPayment T (proj : DB.t -> T) transactionId paymentProofUrl :
  frame proj -> preserves proj (upsertPayment transactionId paymentProofUrl).
Proof.
  intros F db. unfold upsertPayment.
  destruct (findById _ _ _); simpl; apply F.
Qed.

Lemma frame_uploadPaymentProof T (proj : DB.t -> T) env transactionId userId uploaded :
  frame proj ->
  preserves proj (uploadPaymentProof addMonths env transactionId userId uploaded).
Proof.
  intro F. unfold uploadPaymentProof. apply preserves_prisma_transaction.
  apply preserves_bind; [apply preserves_get|]. intro db.
  destruct (findForPayment transactionId userId db) as [x|]; [|apply preserves_throw].
  destruct (now env >? Transaction.expiryTime x)%Z.
  - apply preserves_bind; [apply frame_expireTransaction; exact F|].
    intro. apply preserves_throw.
  - destruct uploaded as [url|]; [|apply preserves_throw].
    apply preserves_bind; [apply frame_upsertPayment; exact F|]. intro pay.
    apply preserves_bind; [|intro; apply preserves_ret].
    apply preserves_updateTable. apply F.
Qed.

Lemma frame_updateTicketCounts T (proj : DB.t -> T) ticketUpdates :
  frame proj -> preserves proj (updateTicketCounts ticketUpdates).
Proof.
  intro F. induction ticketUpdates as [|u rest IH]; simpl.
  - apply preserves_ret.
  - apply preserves_bind; [apply preserves_updateTable; apply F|]. intro updated.
    destruct (_ >? _)%Z; [apply preserves_throw|exact IH].
Qed.

Lemma frame_createTransaction T (proj : DB.t -> T) env userId data :
  frame proj -> preserves proj (createTransaction addHours env userId data).
Proof.
  intro F. pose proof F as (Fe & Ft & Fv & Fc & Fp & Fx & Fy).
  unfold createTransaction.
  destruct (TransactionCreateRequest.ticketTypes data) as [|l0 ls];
    [apply preserves_throw|].
  apply preserves_prisma_transaction.
  apply preserves_bind; [apply preserves_get|]. intro db.
  destruct (findBookableEvent _ _ db) as [event|]; [|apply preserves_throw].
  destruct (missingTicketTypes _ _); [|apply preserves_throw].
  apply preserves_bind; [apply preserves_lift|]. intros [totalAmount ticketUpdates].
  destruct (_ >? _)%Z; [apply preserves_throw|].
  apply preserves_bind; [apply preserves_lift|]. intro pointsDiscount.
  apply preserves_bind; [apply preserves_lift|]. intros [vd av].
  apply preserves_bind; [apply preserves_lift|]. intros [cd ac].
  apply preserves_bind; [apply preserves_lift|]. intro items.
  apply preserves_bind.
  { intro d. unfold createTransactionRow. destruct (existsb _ _); [reflexivity|].
    apply preserves_createRow. exact Fx. }
  intro transaction.
  apply preserves_bind; [apply frame_updateTicketCounts; exact F|]. intros _.
  apply preserves_bind.
  { unfold updateEventBookedSeats. apply preserves_bind; [|intro; apply preserves_ret].
    apply preserves_updateTable. exact Fe. }
  intros _. apply preserves_bind.
  { unfold updateVoucherUsage. destruct av; [|apply preserves_ret].
    apply preserves_bind; [|intro; apply preserves_ret].
    apply preserves_updateTable. exact Fv. }
  intros _. apply preserves_bind.
  { unfold markCouponAsUsed. destruct ac; [|apply preserves_ret].
    apply preserves_bind; [|intro; apply preserves_ret].
    apply preserves_updateTable. exact Fc. }
  intros _. apply preserves_bind; [|intro; apply preserves_ret].
  destruct (Js.gtb _ 0); [|apply preserves_ret].
  apply deductPoints_writes_points. exact Fp.
Qed.

Lemma frame_eventAttendee : frame DB.eventAttendee.
Proof. repeat split. Qed.


(** *** What each call does to the bookings and the attendee list *)

Lemma expireTransaction_ok env transactionId db u db' :
  expireTransaction addMonths env transactionId db = (Ok u, db') ->
  db' = db
  \/ (exists x, findById Transaction.id transactionId (DB.transaction db) = Some x
                /\ Transaction.status x = WAITING_FOR_PAYMENT
                /\ DB.transaction db' =
                   updateRows Transaction.id transactionId
                     (Transaction.with_status EXPIRED) (DB.transaction db)).
Proof.
  intro E. unfold expireTransaction in E.
  bind_inv E. apply ret_ok in Hm. destruct Hm as [-> ->].
  destruct (findById Transaction.id transactionId (DB.transaction db)) as [x|] eqn:F.
  - destruct (status_eqb (Transaction.status x) WAITING_FOR_PAYMENT) eqn:S; simpl in E.
    + right. exists x. split; [reflexivity|]. split.
      * destruct (Transaction.status x); simpl in S; try discriminate; reflexivity.
      * bind_inv E. apply updateTable_ok in Hm. destruct Hm as (r & Fr & _ & ->).
        rewrite (@preserves_run _ _ _ _ _ _ _ (rollbackTransaction_keeps_transactions env transactionId) E).
        reflexivity.
    + left. apply ret_ok in E. destruct E as [_ ->]. reflexivity.
  - left. apply ret_ok in E. destruct E as [_ ->]. reflexivity.
Qed.

Lemma confirmTransaction_effect env transactionId organizerId isAccepted db x db1 :
  confirmTransaction addMonths env transactionId organizerId isAccepted db = (Ok x, db1) ->
  exists x0,
    findForConfirmation transactionId organizerId db = Some x0
    /\ DB.transaction db1 =
       updateRows Transaction.id transactionId
         (Transaction.with_status (decided isAccepted)) (DB.transaction db)
    /\ if isAccepted
       then findById EventAttendee.transactionId transactionId (DB.eventAttendee db) = None
            /\ DB.eventAttendee db1 = DB.eventAttendee db ++ [attendeeOf x0]
            /\ sameLedger db1 db
       else DB.eventAttendee db1 = DB.eventAttendee db.
Proof.
  intro H. apply prisma_transaction_ok in H.
  bind_inv H. apply ret_ok in Hm. destruct Hm as [-> ->].
  destruct (findForConfirmation transactionId organizerId db) as [x0|] eqn:F;
    [|discriminate].
  exists x0. split; [reflexivity|].
  pose proof (findForConfirmation_some _ _ _ F) as (_ & K & _).
  bind_inv H. apply updateTable_ok in H. destruct H as (r & Fr & -> & ->).
  destruct isAccepted.
  - bind_inv Hm. apply ret_ok in Hm. destruct Hm as [_ ->].
    apply createRow_ok in Hm0. destruct Hm0 as (Fa & _ & ->). simpl in *.
    split; [reflexivity|].
    split; [exact Fa|]. split.
    + unfold attendeeOf. rewrite K. reflexivity.
    + unfold sameLedger. repeat split.
  - simpl.
    rewrite (@preserves_run _ _ _ _ _ _ _ (rollbackTransaction_keeps_transactions env transactionId) Hm).
    split; [reflexivity|].
    exact (@preserves_run _ _ DB.eventAttendee _ _ _ _
               (@frame_rollbackTransaction _ _ env transactionId frame_eventAttendee) Hm).
Qed.

Lemma step_effect db op :
  let db' := step addMonths addHours db op in
  (DB.transaction db' = DB.transaction db /\ DB.eventAttendee db' = DB.eventAttendee db)
  \/ (exists tx,
        DB.transaction db' = DB.transaction db ++ [tx]
        /\ Transaction.status tx = WAITING_FOR_PAYMENT
        /\ findById Transaction.id (Transaction.id tx) (DB.transaction db) = None
        /\ DB.eventAttendee db' = DB.eventAttendee db)
  \/ (exists x s,
        In x (DB.transaction db)
        /\ transition (Transaction.status x) s = true
        /\ DB.transaction db' =
           updateRows Transaction.id (Transaction.id x) (Transaction.with_status s)
             (DB.transaction db)
        /\ ((s <> DONE /\ DB.eventAttendee db' = DB.eventAttendee db)
            \/ (s = DONE
                /\ findById EventAttendee.transactionId (Transaction.id x)
                     (DB.eventAttendee db) = None
                /\ DB.eventAttendee db' = DB.eventAttendee db ++ [attendeeOf x]))).
Proof.
  destruct op as [env userId data|env transactionId userId uploaded
                 |env transactionId organizerId isAccepted|env transactionId]; simpl.
  - pose proof (@frame_createTransaction _ DB.eventAttendee env userId data
                  frame_eventAttendee db) as KA.
    destruct (createTransaction addHours env userId data db) as [[tx|e] db'] eqn:E; simpl.
    + right; left. exists tx. simpl in KA.
      apply createTransaction_tables in E.
      destruct E as (ups & av & ac & Fresh & _ & _ & _ & _ & _ & _ & _ & _ & St & Tx & _).
      repeat split; assumption.
    + left. apply createTransaction_throw in E. subst db'. split; reflexivity.
  - pose proof (@frame_uploadPaymentProof _ DB.eventAttendee env transactionId userId
                  uploaded frame_eventAttendee db) as KA.
    destruct (uploadPaymentProof addMonths env transactionId userId uploaded db)
      as [[pay|e] db'] eqn:E; simpl.
    + right; right. simpl in KA.
      apply uploadPaymentProof_ok in E. destruct E as (x & F & _ & Tx & _).
      apply findForPayment_some in F. destruct F as (Hin & K & _ & St).
      exists x, WAITING_FOR_CONFIRMATION. rewrite St, K.
      split; [exact Hin|]. split; [reflexivity|]. split; [exact Tx|].
      left. split; [discriminate|exact KA].
    + left. unfold uploadPaymentProof in E.
      match type of E with
      | prisma_transaction ?b db = _ =>
          destruct (prisma_transaction_atomic b db) as [[a E']|[e' E']];
          rewrite E' in E; inversion E; subst; split; reflexivity
      end.
  - destruct (confirmTransaction addMonths env transactionId organizerId isAccepted db)
      as [[x|e] db'] eqn:E; simpl.
    + right; right. apply confirmTransaction_effect in E.
      destruct E as (x0 & F & Tx & A).
      apply findForConfirmation_some in F. destruct F as (Hin & K & St).
      exists x0, (decided isAccepted). rewrite St, K.
      split; [exact Hin|]. split; [destruct isAccepted; reflexivity|].
      split; [exact Tx|]. destruct isAccepted.
      * right. destruct A as (Fa & Ea & _). repeat split; assumption.
      * left. split; [discriminate|exact A].
    + left. unfold confirmTransaction in E.
      match type of E with
      | prisma_transaction ?b db = _ =>
          destruct (prisma_transaction_atomic b db) as [[a E']|[e' E']];
          rewrite E' in E; inversion E; subst; split; reflexivity
      end.
  - destruct (prisma_transaction (expireTransaction addMonths env transactionId) db)
      as [[u|e] db'] eqn:E; simpl.
    + apply prisma_transaction_ok in E.
      pose proof (@frame_expireTransaction _ DB.eventAttendee env transactionId
                    frame_eventAttendee db) as KA.
      rewrite E in KA. simpl in KA.
      apply expireTransaction_ok in E. destruct E as [->|(x & F & St & Tx)].
      * left. split; reflexivity.
      * right; right. apply findById_some in F. destruct F as [Hin K].
        exists x, EXPIRED. rewrite St, K.
        split; [exact Hin|]. split; [reflexivity|]. split; [exact Tx|].
        left. split; [discriminate|exact KA].
    + left.
      match type of E with
      | prisma_transaction ?b db = _ =>
          destruct (prisma_transaction_atomic b db) as [[a E']|[e' E']];
          rewrite E' in E; inversion E; subst; split; reflexivity
      end.
Qed.

(** *** The status of a booking *)

Lemma step_keys db op :
  NoDup (map Transaction.id (DB.transaction db)) ->
  NoDup (map Transaction.id (DB.transaction (step addMonths addHours db op))).
Proof.
  intro ND. destruct (step_effect db op) as [[E _]|[(tx & E & _ & F & _)|(x & s & _ & _ & E & _)]];
    rewrite E.
  - exact ND.
  - rewrite map_app. simpl. apply NoDup_snoc; [exact ND|].
    apply findById_none. exact F.
  - rewrite updateRows_keys; [exact ND|intro; reflexivity].
Qed.

Lemma step_booking db op x :
  NoDup (map Transaction.id (DB.transaction db)) ->
  In x (DB.transaction db) ->
  exists s,
    In (Transaction.with_status s x) (DB.transaction (step addMonths addHours db op))
    /\ (s = Transaction.status x \/ transition (Transaction.status x) s = true).
Proof.
  intros ND Hx.
  destruct (step_effect db op)
    as [[E _]|[(tx & E & _ & F & _)|(x0 & s & Hx0 & Tr & E & _)]]; rewrite E.
  - exists (Transaction.status x). split; [|left; reflexivity].
    rewrite Transaction_eta; [exact Hx|reflexivity].
  - exists (Transaction.status x). split; [|left; reflexivity].
    rewrite Transaction_eta; [|reflexivity]. apply in_or_app. left. exact Hx.
  - destruct (string_dec (Transaction.id x) (Transaction.id x0)) as [K|K].
    + assert (x = x0) by (eapply NoDup_key_eq; eassumption). subst x0.
      exists s. split; [|right; exact Tr].
      unfold updateRows. apply in_map_iff. exists x.
      rewrite id_eqb_refl. split; [reflexivity|exact Hx].
    + exists (Transaction.status x). split; [|left; reflexivity].
      rewrite Transaction_eta; [|reflexivity].
      apply updateRows_other; assumption.
Qed.

(** X6.  The status of a booking moves only along the life cycle.  After
    any call of the engine (create, upload of a payment proof, confirm or
    reject, expiry), a booking that was in the database is still there
    under its key, with every column but the status as it was, and its
    status either is the same or has taken one of four steps:
    WAITING_FOR_PAYMENT to WAITING_FOR_CONFIRMATION or to EXPIRED,
    WAITING_FOR_CONFIRMATION to DONE or to REJECTED. *)
Theorem status_moves_along_life_cycle db op x :
  NoDup (map Transaction.id (DB.transaction db)) ->
  In x (DB.transaction db) ->
  exists s,
    findById Transaction.id (Transaction.id x)
      (DB.transaction (step addMonths addHours db op))
    = Some (Transaction.with_status s x)
    /\ (s = Transaction.status x \/ transition (Transaction.status x) s = true).
Proof.
  intros ND Hx. destruct (@step_booking db op x ND Hx) as (s & Hin & Hs).
  exists s. split; [|exact Hs].
  apply findById_unique; [apply step_keys; exact ND|exact Hin|reflexivity].
Qed.

(** X7.  A settled booking is final: once a booking is DONE, REJECTED,
    EXPIRED or CANCELED, no sequence of calls of the engine changes its row
    again. *)
Theorem settled_booking_is_final ops : forall db x,
  NoDup (map Transaction.id (DB.transaction db)) ->
  In x (DB.transaction db) ->
  settled (Transaction.status x) = true ->
  In x (DB.transaction (run addMonths addHours db ops)).
Proof.
  induction ops as [|op ops IH]; intros db x ND Hx S; [exact Hx|].
  simpl. apply IH; [apply step_keys; exact ND| |exact S].
  destruct (@step_booking db op x ND Hx) as (s & Hin & [->|Tr]).
  - rewrite Transaction_eta in Hin; [exact Hin|reflexivity].
  - destruct (Transaction.status x); discriminate.
Qed.

(** *** Attendees *)

Lemma step_Attended db op : Attended db -> Attended (step addMonths addHours db op).
Proof.
  intros [NDt NDa Acc Rec].
  pose proof (@step_keys db op NDt) as NDt'.
  destruct (step_effect db op)
    as [[Et Ea]|[(tx & Et & St & F & Ea)|(x0 & s & Hx0 & Tr & Et & A)]].
  - constructor; rewrite ?Et, ?Ea; assumption.
  - constructor.
    + exact NDt'.
    + rewrite Ea. exact NDa.
    + rewrite Ea, Et. intros a Ha. destruct (Acc a Ha) as (x & Hx & Sx & ->).
      exists x. split; [apply in_or_app; left; exact Hx|]. split; [exact Sx|reflexivity].
    + rewrite Ea, Et. intros x Hx Sx. apply in_app_or in Hx. destruct Hx as [Hx|[<-|[]]].
      * apply Rec; assumption.
      * rewrite St in Sx. discriminate.
  - assert (Other : forall x, In x (DB.transaction db) -> Transaction.status x = DONE ->
                              In x (DB.transaction (step addMonths addHours db op))).
    { intros x Hx Sx. rewrite Et. apply updateRows_other; [exact Hx|].
      intro K. assert (x = x0) by (exact (@NoDup_key_eq _ Transaction.id _ _ _ NDt Hx Hx0 K)).
      subst x0.
      rewrite Sx in Tr. discriminate. }
    assert (Back : forall y, In y (DB.transaction (step addMonths addHours db op)) ->
                             y = Transaction.with_status s x0
                             \/ In y (DB.transaction db)).
    { intros y Hy. rewrite Et in Hy. apply updateRows_in in Hy.
      destruct Hy as (r & Hr & [[K ->]|[K ->]]).
      - left. assert (r = x0) by (exact (@NoDup_key_eq _ Transaction.id _ _ _ NDt Hr Hx0 K)).
        subst r. reflexivity.
      - right. exact Hr. }
    destruct A as [[Ns Ea]|(-> & Fa & Ea)].
    + constructor.
      * exact NDt'.
      * rewrite Ea. exact NDa.
      * rewrite Ea. intros a Ha. destruct (Acc a Ha) as (x & Hx & Sx & ->).
        exists x. split; [apply Other; assumption|]. split; [exact Sx|reflexivity].
      * rewrite Ea. intros y Hy Sy. destruct (Back y Hy) as [->|Hy'].
        -- simpl in Sy. contradiction.
        -- apply Rec; assumption.
    + constructor.
      * exact NDt'.
      * rewrite Ea, map_app. simpl. apply NoDup_snoc; [exact NDa|].
        apply findById_none. exact Fa.
      * rewrite Ea. intros a Ha. apply in_app_or in Ha. destruct Ha as [Ha|[<-|[]]].
        -- destruct (Acc a Ha) as (x & Hx & Sx & ->).
           exists x. split; [apply Other; assumption|]. split; [exact Sx|reflexivity].
        -- exists (Transaction.with_status DONE x0). split; [|split; reflexivity].
           rewrite Et. unfold updateRows. apply in_map_iff. exists x0.
           rewrite id_eqb_refl. split; [reflexivity|exact Hx0].
      * rewrite Ea. intros y Hy Sy. apply in_or_app. destruct (Back y Hy) as [->|Hy'].
        -- right. left. reflexivity.
        -- left. apply Rec; assumption.
Qed.

(** X8.  The attendee list and the bookings stay in step.  From a
    database where every attendee row is the row of a DONE booking (its
    event, buyer, number of tickets and amount paid) and every DONE booking
    has its row, with unique keys, every sequence of calls of the engine
    leads to a database where this holds again: an attendee row is written
    when, and only when, an organizer accepts the booking, and never
    twice. *)
Theorem attendees_are_accepted_bookings ops : forall db,
  Attended db -> Attended (run addMonths addHours db ops).
Proof.
  induction ops as [|op ops IH]; intros db A; [exact A|].
  simpl. apply IH. apply step_Attended. exact A.
Qed.

(** *** Accepting a booking *)

(** X9.  Accepting a booking releases nothing: when confirmTransaction
    succeeds with isAccepted = true (booking keys being unique), the
    returned booking is DONE, one attendee row for it (its event, its
    buyer, the sum of its item quantities, its finalAmount) is added at the
    end of the attendee list, and the ticket counters, the booked seats,
    the vouchers, the coupons and the point lots are exactly as before. *)
Theorem confirmTransaction_accept_effects env transactionId organizerId db x db1 :
  NoDup (map Transaction.id (DB.transaction db)) ->
  confirmTransaction addMonths env transactionId organizerId true db = (Ok x, db1) ->
  Transaction.status x = DONE
  /\ Transaction.id x = transactionId
  /\ sameLedger db1 db
  /\ DB.eventAttendee db1
     = DB.eventAttendee db
       ++ [EventAttendee.mk (Transaction.eventId x) (Transaction.userId x) transactionId
             (totalTickets (Transaction.items x)) (Transaction.finalAmount x)].
Proof.
  intros ND H. pose proof H as H'.
  apply confirmTransaction_ok in H. destruct H as (x0 & r & F & Fr & -> & _).
  apply confirmTransaction_effect in H'. destruct H' as (x1 & F1 & _ & _ & Ea & L).
  rewrite F in F1. injection F1 as <-.
  apply findById_some in Fr. destruct Fr as [Hr Kr].
  apply findForConfirmation_some in F. destruct F as (Hx0 & K0 & _).
  assert (r = x0)
    by (apply (@NoDup_key_eq _ Transaction.id _ _ _ ND Hr Hx0); congruence).
  subst r. simpl. split; [reflexivity|]. split; [exact K0|]. split; [exact L|].
  rewrite Ea. unfold attendeeOf. rewrite K0. reflexivity.
Qed.

(** *** Expiry and payment proofs *)

Lemma findById_status_updated transactionId s rows x :
  findById Transaction.id transactionId
    (updateRows Transaction.id transactionId (Transaction.with_status s) rows) = Some x ->
  Transaction.status x = s.
Proof.
  intro F. apply findById_some in F. destruct F as [Hin K].
  apply updateRows_in in Hin. destruct Hin as (r & _ & [[_ ->]|[N ->]]).
  - reflexivity.
  - contradiction.
Qed.

(** X10.  The expiry path runs once: after it has returned for a booking,
    running it again for that booking, at any later time, returns without
    changing the database. *)
Theorem expireTransaction_runs_once env transactionId db u db' :
  expireTransaction addMonths env transactionId db = (Ok u, db') ->
  forall env', expireTransaction addMonths env' transactionId db' = (Ok tt, db').
Proof.
  intros E env'. pose proof (expireTransaction_ok _ _ _ E) as E'.
  assert (Skip : forall d,
            (forall y, findById Transaction.id transactionId (DB.transaction d) = Some y ->
                       Transaction.status y <> WAITING_FOR_PAYMENT) ->
            expireTransaction addMonths env' transactionId d = (Ok tt, d)).
  { intros d Hd. unfold expireTransaction. unfold bind at 1. unfold get.
    destruct (findById Transaction.id transactionId (DB.transaction d)) as [y|];
      [|reflexivity].
    specialize (Hd y eq_refl).
    destruct (Transaction.status y); try reflexivity. contradiction. }
  destruct E' as [->|(x & F & St & Tx)].
  - apply Skip. intros y Fy Sy.
    unfold expireTransaction in E. unfold bind at 1 in E. unfold get in E.
    rewrite Fy, Sy in E. simpl in E.
    bind_inv E. apply updateTable_ok in Hm. destruct Hm as (r & Fr & _ & Ed).
    pose proof (@preserves_run _ _ _ _ _ _ _
                  (rollbackTransaction_keeps_transactions env transactionId) E) as K.
    rewrite Ed in K. simpl in K.
    rewrite K in Fy. apply findById_status_updated in Fy. congruence.
  - apply Skip. intros y Fy. rewrite Tx in Fy.
    apply findById_status_updated in Fy. rewrite Fy. discriminate.
Qed.

Lemma uploadPaymentProof_not_found env transactionId userId uploaded db :
  findForPayment transactionId userId db = None ->
  uploadPaymentProof addMonths env transactionId userId uploaded db
  = (Throw (TransactionError TRANSACTION_NOT_FOUND), db).
Proof.
  intro F. unfold uploadPaymentProof, prisma_transaction.
  unfold bind, get. rewrite F. reflexivity.
Qed.

Lemma confirmTransaction_not_found env transactionId organizerId isAccepted db :
  findForConfirmation transactionId organizerId db = None ->
  confirmTransaction addMonths env transactionId organizerId isAccepted db
  = (Throw (TransactionError TRANSACTION_NOT_FOUND), db).
Proof.
  intro F. unfold confirmTransaction, prisma_transaction.
  unfold bind, get. rewrite F. reflexivity.
Qed.

(** X11.  A payment proof is taken at most once per booking: after
    uploadPaymentProof has succeeded for a booking, every later upload for
    that booking, by whomever and whenever, fails with
    TRANSACTION_NOT_FOUND and leaves the database as it is. *)
Theorem uploadPaymentProof_at_most_once env transactionId userId uploaded db pay db' :
  uploadPaymentProof addMonths env transactionId userId uploaded db = (Ok pay, db') ->
  forall env' userId' uploaded',
    uploadPaymentProof addMonths env' transactionId userId' uploaded' db'
    = (Throw (TransactionError TRANSACTION_NOT_FOUND), db').
Proof.
  intros H env' userId' uploaded'. apply uploadPaymentProof_ok in H.
  destruct H as (x & _ & _ & Tx & _).
  apply uploadPaymentProof_not_found.
  unfold findForPayment. rewrite Tx. apply find_none_all. intros y Hy.
  apply updateRows_in in Hy. destruct Hy as (r & _ & [[K ->]|[K ->]]).
  - simpl. rewrite andb_false_r. reflexivity.
  - apply id_eqb_neq in K. rewrite K. reflexivity.
Qed.

Lemma findById_updateRows_at R (key : R -> Id) i f rows r :
  (forall x, key x = i -> key (f x) = i) ->
  findById key i rows = Some r ->
  findById key i (updateRows key i f rows) = Some (f r).
Proof.
  intros Hf. induction rows as [|x rows IH]; simpl; [discriminate|].
  destruct (id_eqb (key x) i) eqn:K.
  - intro H. injection H as <-. simpl.
    apply id_eqb_eq in K. apply Hf in K. apply id_eqb_eq in K. rewrite K. reflexivity.
  - intro H. simpl. rewrite K. apply IH. exact H.
Qed.

Lemma findById_updateRows_other R (key : R -> Id) i j f rows :
  i <> j ->
  (forall x, key x = j -> key (f x) = j) ->
  findById key i (updateRows key j f rows) = findById key i rows.
Proof.
  intros N Hf. induction rows as [|x rows IH]; simpl; [reflexivity|].
  destruct (id_eqb (key x) j) eqn:K.
  - apply id_eqb_eq in K. rewrite (Hf x K), K.
    assert (Kj : id_eqb j i = false) by (apply id_eqb_neq; congruence).
    rewrite Kj. exact IH.
  - destruct (id_eqb (key x) i); [reflexivity|exact IH].
Qed.

Lemma updateRows_keys_at R (key : R -> Id) i f rows :
  (forall x, key x = i -> key (f x) = i) ->
  map key (updateRows key i f rows) = map key rows.
Proof.
  intros Hf. induction rows as [|x rows IH]; simpl; [reflexivity|].
  rewrite IH. f_equal. destruct (id_eqb (key x) i) eqn:K; [|reflexivity].
  apply id_eqb_eq in K. rewrite (Hf x K). symmetry. exact K.
Qed.

Lemma findById_app_other R (key : R -> Id) i rows r :
  i <> key r -> findById key i (rows ++ [r]) = findById key i rows.
Proof.
  intro N. induction rows as [|x rows IH]; simpl.
  - assert (K : id_eqb (key r) i = false) by (apply id_eqb_neq; congruence).
    rewrite K. reflexivity.
  - destruct (id_eqb (key x) i); [reflexivity|exact IH].
Qed.

Lemma upsertPayment_ok transactionId paymentProofUrl db pay d :
  upsertPayment transactionId paymentProofUrl db = (Ok pay, d) ->
  let row := TransactionPayment.mk transactionId paymentProofUrl in
  pay = row
  /\ findById TransactionPayment.transactionId transactionId (DB.transactionPayment d)
     = Some row
  /\ (forall i, i <> transactionId ->
        findById TransactionPayment.transactionId i (DB.transactionPayment d)
        = findById TransactionPayment.transactionId i (DB.transactionPayment db))
  /\ (NoDup (map TransactionPayment.transactionId (DB.transactionPayment db)) ->
      NoDup (map TransactionPayment.transactionId (DB.transactionPayment d)))
  /\ DB.transaction d = DB.transaction db.
Proof.
  unfold upsertPayment.
  assert (Hf : forall x : TransactionPayment.t,
             TransactionPayment.transactionId x = transactionId ->
             TransactionPayment.transactionId
               ((fun _ => TransactionPayment.mk transactionId paymentProofUrl) x)
             = transactionId) by (intros; reflexivity).
  destruct (findById TransactionPayment.transactionId transactionId
              (DB.transactionPayment db)) as [old|] eqn:F;
    intro H; injection H as <- <-; simpl.
  - split; [reflexivity|]. split; [|split; [|split; [|reflexivity]]].
    + apply (@findById_updateRows_at _ TransactionPayment.transactionId _
               (fun _ => TransactionPayment.mk transactionId paymentProofUrl) _ old Hf F).
    + intros i N. apply findById_updateRows_other; [exact N|exact Hf].
    + intro ND. rewrite updateRows_keys_at; [exact ND|exact Hf].
  - split; [reflexivity|]. split; [|split; [|split; [|reflexivity]]].
    + apply (@findById_app_fresh _ TransactionPayment.transactionId _
               (TransactionPayment.mk transactionId paymentProofUrl)). exact F.
    + intros i N. apply findById_app_other. exact N.
    + intro ND. rewrite map_app. simpl. apply NoDup_snoc; [exact ND|].
      apply findById_none. exact F.
Qed.

(** X12.  What a successful upload leaves behind: the booking waits for
    confirmation, and the payment table holds exactly one row for it, with
    the URL of the uploaded file (a row that was there is overwritten, not
    doubled); the payments of other bookings, the inventory and the rewards
    are as before. *)
Theorem uploadPaymentProof_records_payment env transactionId userId uploaded db pay db' :
  NoDup (map TransactionPayment.transactionId (DB.transactionPayment db)) ->
  uploadPaymentProof addMonths env transactionId userId uploaded db = (Ok pay, db') ->
  uploaded = Some (TransactionPayment.paymentProofUrl pay)
  /\ TransactionPayment.transactionId pay = transactionId
  /\ findById TransactionPayment.transactionId transactionId (DB.transactionPayment db')
     = Some pay
  /\ NoDup (map TransactionPayment.transactionId (DB.transactionPayment db'))
  /\ (forall i, i <> transactionId ->
        findById TransactionPayment.transactionId i (DB.transactionPayment db')
        = findById TransactionPayment.transactionId i (DB.transactionPayment db))
  /\ (forall x, findById Transaction.id transactionId (DB.transaction db') = Some x ->
                Transaction.status x = WAITING_FOR_CONFIRMATION)
  /\ sameLedger db' db.
Proof.
  intros ND H. pose proof (uploadPaymentProof_ok _ _ _ _ _ H) as (x0 & _ & _ & Tx & _ & L).
  apply prisma_transaction_ok in H.
  bind_inv H. apply ret_ok in Hm. destruct Hm as [-> ->].
  destruct (findForPayment transactionId userId db) as [x|] eqn:F; [|discriminate].
  destruct (now env >? Transaction.expiryTime x)%Z eqn:Late.
  - bind_inv H. discriminate.
  - destruct uploaded as [url|]; [|discriminate].
    bind_inv H. bind_inv H. apply ret_ok in H. destruct H as [<- ->].
    apply updateTable_ok in Hm0. destruct Hm0 as (r & Fr & _ & ->).
    apply upsertPayment_ok in Hm. destruct Hm as (-> & Fp & Fo & NDp & _).
    simpl. split; [reflexivity|]. split; [reflexivity|]. split; [exact Fp|].
    split; [apply NDp; exact ND|]. split; [exact Fo|]. split; [|exact L].
    intros y Fy. simpl in Tx. rewrite Tx in Fy.
    apply findById_status_updated in Fy. exact Fy.
Qed.

(** X13.  Only the parties of a booking act on it.  An upload for a
    booking that does not belong to the caller, and a confirmation or
    rejection by an organizer who does not own the event of the booking,
    fail with TRANSACTION_NOT_FOUND and leave the database as it is. *)
Theorem booking_calls_need_their_party env transactionId db :
  (forall userId uploaded,
     (forall x, In x (DB.transaction db) -> Transaction.id x = transactionId ->
                Transaction.userId x <> userId) ->
     uploadPaymentProof addMonths env transactionId userId uploaded db
     = (Throw (TransactionError TRANSACTION_NOT_FOUND), db))
  /\ (forall organizerId isAccepted,
        (forall x e, In x (DB.transaction db) -> Transaction.id x = transactionId ->
                     In e (DB.event db) -> Event.id e = Transaction.eventId x ->
                     Event.organizerId e <> organizerId) ->
        confirmTransaction addMonths env transactionId organizerId isAccepted db
        = (Throw (TransactionError TRANSACTION_NOT_FOUND), db)).
Proof.
  split.
  - intros userId uploaded H. apply uploadPaymentProof_not_found.
    unfold findForPayment. apply find_none_all. intros x Hx.
    destruct (id_eqb (Transaction.id x) transactionId) eqn:K; [|reflexivity].
    apply id_eqb_eq in K. specialize (H x Hx K). apply id_eqb_neq in H.
    rewrite H. reflexivity.
  - intros organizerId isAccepted H. apply confirmTransaction_not_found.
    unfold findForConfirmation. apply find_none_all. intros x Hx.
    destruct (id_eqb (Transaction.id x) transactionId) eqn:K; [|reflexivity].
    apply id_eqb_eq in K. simpl.
    assert (E : existsb (fun e => id_eqb (Event.id e) (Transaction.eventId x)
                                  && id_eqb (Event.organizerId e) organizerId)
                        (DB.event db) = false).
    { destruct (existsb _ (DB.event db)) eqn:Ex; [|reflexivity].
      apply existsb_exists in Ex. destruct Ex as (e & He & Hb).
      apply andb_true_iff in Hb. destruct Hb as [H1 H2].
      apply id_eqb_eq in H1. apply id_eqb_eq in H2.
      exfalso. exact (H x e Hx K He H1 H2). }
    rewrite E. reflexivity.
Qed.

(** ** Inventory and seats over sequences of calls *)

Lemma rollbackTransaction_events env transactionId d d' x :
  findById Transaction.id transactionId (DB.transaction d) = Some x ->
  rollbackTransaction addMonths env transactionId d = (Ok tt, d') ->
  DB.event d' =
    updateRows Event.id (Transaction.eventId x)
      (fun e => Event.with_bookedSeats
                  (Event.bookedSeats e - totalTickets (Transaction.items x))%Z e)
      (DB.event d).
Proof.
  intros F H. unfold rollbackTransaction in H. bind_inv H.
  apply ret_ok in Hm. destruct Hm as [-> ->]. rewrite F in H.
  bind_inv H. bind_inv H.
  pose proof (@preserves_run _ _ DB.event _ _ _ _
                (@rollbackItems_writes_ticketTypes _ DB.event (Transaction.items x)
                   (fun _ _ => eq_refl)) Hm) as K0.
  unfold rollbackBookedSeats in Hm0. bind_inv Hm0.
  apply ret_ok in Hm0. destruct Hm0 as [_ ->].
  apply updateTable_ok in Hm1. destruct Hm1 as (r & _ & _ & ->).
  match type of H with
  | ?m _ = _ => assert (P : preserves DB.event m)
  end.
  { apply preserves_bind; [unfold rollbackVoucherUsage; preserves_tac|]. intros _.
    apply preserves_bind; [unfold rollbackCouponUsage; preserves_tac|]. intros _.
    destruct (Js.gtb (Transaction.pointsUsed x) 0); [|apply preserves_ret].
    apply restorePoints_writes_points. reflexivity. }
  rewrite (@preserves_run _ _ _ _ _ _ _ P H). simpl. rewrite K0. reflexivity.
Qed.

Lemma step_ledger db op :
  Inv db ->
  let db' := step addMonths addHours db op in
  (DB.transaction db' = DB.transaction db
   /\ DB.eventTicketType db' = DB.eventTicketType db
   /\ DB.event db' = DB.event db)
  \/ (exists tx e,
        DB.transaction db' = DB.transaction db ++ [tx]
        /\ holds (Transaction.status tx) = true
        /\ DB.eventTicketType db' =
           adjustSold (fun i => quantityFor i (itemKeys (Transaction.items tx)))
             (DB.eventTicketType db)
        /\ In e (DB.event db) /\ Event.id e = Transaction.eventId tx
        /\ (Event.bookedSeats e + totalTickets (Transaction.items tx)
            <= Event.availableSeats e)%Z
        /\ DB.event db' =
           updateRows Event.id (Transaction.eventId tx)
             (fun e => Event.with_bookedSeats
                         (Event.bookedSeats e + totalTickets (Transaction.items tx))%Z e)
             (DB.event db))
  \/ (exists x s,
        In x (DB.transaction db)
        /\ holds (Transaction.status x) = true /\ holds s = true
        /\ DB.transaction db' =
           updateRows Transaction.id (Transaction.id x) (Transaction.with_status s)
             (DB.transaction db)
        /\ DB.eventTicketType db' = DB.eventTicketType db
        /\ DB.event db' = DB.event db)
  \/ (exists x s,
        In x (DB.transaction db)
        /\ holds (Transaction.status x) = true /\ holds s = false
        /\ DB.transaction db' =
           updateRows Transaction.id (Transaction.id x) (Transaction.with_status s)
             (DB.transaction db)
        /\ DB.eventTicketType db' =
           adjustSold (fun i => (- quantityFor i (itemKeys (Transaction.items x)))%Z)
             (DB.eventTicketType db)
        /\ DB.event db' =
           updateRows Event.id (Transaction.eventId x)
             (fun e => Event.with_bookedSeats
                         (Event.bookedSeats e - totalTickets (Transaction.items x))%Z e)
             (DB.event db)).
Proof.
  intro I.
  destruct op as [env userId data|env transactionId userId uploaded
                 |env transactionId organizerId isAccepted|env transactionId]; simpl.
  - destruct (createTransaction_atomic env userId data db) as [(tx & db1 & E)|(e & E)];
      rewrite E; simpl; [|left; repeat split].
    right; left.
    pose proof (createTransaction_ok _ _ _ _ E) as O. cbv zeta in O.
    destruct O as (event & totalAmount & ticketUpdates & pointsDiscount & vd & av & cd & ac
                   & items & d1 & d2 & d3 & d4 & d5 & O).
    destruct O as (_ & FE & _ & _ & SE & _ & _ & _ & _ & R & _).
    apply createTransaction_tables in E.
    destruct E as (ups & av' & ac' & Fresh & UK & IK & _ & _ & _ & _ & _
                   & Items & St & T1 & TT1 & EE & _).
    assert (Tot : totalTicketsRequested (TransactionCreateRequest.ticketTypes data)
                  = totalTickets (Transaction.items tx)).
    { rewrite totalTicketsRequested_sum, totalTickets_sum, IK. reflexivity. }
    exists tx, event.
    unfold findBookableEvent in FE. apply find_some in FE. destruct FE as [He Hb].
    apply andb_true_iff in Hb. destruct Hb as [Hb _].
    apply andb_true_iff in Hb. destruct Hb as [Hb _]. apply id_eqb_eq in Hb.
    assert (Etx : Transaction.eventId tx = TransactionCreateRequest.eventId data)
      by (rewrite R; reflexivity).
    split; [exact T1|]. split; [rewrite St; reflexivity|].
    split; [rewrite TT1, UK, IK; reflexivity|].
    split; [exact He|]. split; [congruence|].
    split; [unfold availableEventSeats in SE; lia|].
    rewrite EE, Tot. reflexivity.
  - destruct (uploadPaymentProof addMonths env transactionId userId uploaded db)
      as [[pay|e] db'] eqn:E; simpl.
    + right; right; left.
      apply uploadPaymentProof_ok in E. destruct E as (x & F & _ & T & TT & L).
      apply findForPayment_some in F. destruct F as (Hx & Kx & _ & Sx).
      exists x, WAITING_FOR_CONFIRMATION. rewrite Sx, Kx.
      split; [exact Hx|]. split; [reflexivity|]. split; [reflexivity|].
      split; [exact T|]. split; [exact TT|]. apply L.
    + left. unfold uploadPaymentProof in E.
      match type of E with
      | prisma_transaction ?b db = _ =>
          destruct (prisma_transaction_atomic b db) as [[a E']|[e' E']];
          rewrite E' in E; inversion E; subst; repeat split
      end.
  - destruct (confirmTransaction addMonths env transactionId organizerId isAccepted db)
      as [[x|e] db'] eqn:E; simpl.
    + pose proof (@confirmTransaction_ok _ _ _ _ _ _ _ E) as (x0 & r & F & Fr & _ & T).
      apply findForConfirmation_some in F. destruct F as (Hx & Kx & Sx).
      assert (r = x0).
      { apply findById_some in Fr. destruct Fr as [Hr Kr].
        eapply NoDup_key_eq; [exact (inv_transactions I)| | |]; eauto; congruence. }
      subst r.
      destruct isAccepted.
      * right; right; left. apply confirmTransaction_effect in E.
        destruct E as (x1 & _ & _ & _ & _ & L).
        exists x0, DONE. rewrite Sx, Kx.
        split; [exact Hx|]. split; [reflexivity|]. split; [reflexivity|].
        split; [exact T|]. split; apply L.
      * right; right; right.
        exists x0, REJECTED. rewrite Sx, Kx.
        split; [exact Hx|]. split; [reflexivity|]. split; [reflexivity|].
        split; [exact T|].
        apply prisma_transaction_ok in E.
        bind_inv E. apply ret_ok in Hm. destruct Hm as [-> ->].
        destruct (findForConfirmation transactionId organizerId db); [|discriminate].
        bind_inv E. apply updateTable_ok in E. destruct E as (r' & _ & _ & ->). simpl.
        destruct a. split.
        -- apply (@rollbackTransaction_ok _ _ _ _ _ Fr Hm).
        -- apply (@rollbackTransaction_events _ _ _ _ _ Fr Hm).
    + left. unfold confirmTransaction in E.
      match type of E with
      | prisma_transaction ?b db = _ =>
          destruct (prisma_transaction_atomic b db) as [[a E']|[e' E']];
          rewrite E' in E; inversion E; subst; repeat split
      end.
  - destruct (prisma_transaction (expireTransaction addMonths env transactionId) db)
      as [[u|e] db'] eqn:E; simpl.
    + apply prisma_transaction_ok in E. unfold expireTransaction in E.
      bind_inv E. apply ret_ok in Hm. destruct Hm as [-> ->].
      destruct (findById Transaction.id transactionId (DB.transaction db)) as [x|] eqn:F.
      * destruct (status_eqb (Transaction.status x) WAITING_FOR_PAYMENT) eqn:S;
          simpl in E.
        -- right; right; right.
           bind_inv E. apply updateTable_ok in Hm. destruct Hm as (r & Fr & _ & ->).
           destruct u.
           assert (F' : findById Transaction.id transactionId
                          (DB.transaction
                             (DB.with_transaction
                                (updateRows Transaction.id transactionId
                                   (Transaction.with_status EXPIRED) (DB.transaction db))
                                db))
                        = Some (Transaction.with_status EXPIRED x)).
           { simpl. apply findById_updateRows; [intro; reflexivity|exact F]. }
           destruct (@rollbackTransaction_ok _ _ _ _ _ F' E) as [TT T].
           pose proof (@rollbackTransaction_events _ _ _ _ _ F' E) as EE.
           apply findById_some in F. destruct F as [Hx Kx].
           exists x, EXPIRED. rewrite Kx.
           split; [exact Hx|]. split.
           { destruct (Transaction.status x); simpl in S; try discriminate; reflexivity. }
           split; [reflexivity|]. split; [exact T|]. split; [exact TT|exact EE].
        -- left. apply ret_ok in E. destruct E as [_ ->]. repeat split.
      * left. apply ret_ok in E. destruct E as [_ ->]. repeat split.
    + left.
      match type of E with
      | prisma_transaction ?b db = _ =>
          destruct (prisma_transaction_atomic b db) as [[a E']|[e' E']];
          rewrite E' in E; inversion E; subst; repeat split
      end.
Qed.

Lemma seatsHeld_app i l1 l2 : seatsHeld i (l1 ++ l2) = (seatsHeld i l1 + seatsHeld i l2)%Z.
Proof.
  induction l1 as [|x l1 IH]; simpl; [reflexivity|].
  destruct (holds (Transaction.status x) && id_eqb (Transaction.eventId x) i)%bool;
    rewrite IH; lia.
Qed.

Lemma seatsHeld_with_status i transactionId s txs x :
  NoDup (map Transaction.id txs) ->
  In x txs -> Transaction.id x = transactionId ->
  seatsHeld i (updateRows Transaction.id transactionId (Transaction.with_status s) txs)
  = (seatsHeld i txs
     - (if (holds (Transaction.status x) && id_eqb (Transaction.eventId x) i)%bool
        then totalTickets (Transaction.items x) else 0)
     + (if (holds s && id_eqb (Transaction.eventId x) i)%bool
        then totalTickets (Transaction.items x) else 0))%Z.
Proof.
  induction txs as [|y txs IH]; intros ND Hin K; [contradiction|].
  inversion ND as [|? ? Hy ND']; subst. simpl.
  destruct (id_eqb (Transaction.id y) (Transaction.id x)) eqn:E.
  - apply id_eqb_eq in E.
    assert (y = x).
    { destruct Hin as [Hin|Hin]; [exact Hin|].
      exfalso. apply Hy. rewrite E. apply in_map. exact Hin. }
    subst y. simpl.
    fold (updateRows Transaction.id (Transaction.id x) (Transaction.with_status s) txs).
    rewrite updateRows_absent; [|exact Hy].
    destruct (holds s); destruct (holds (Transaction.status x));
      destruct (id_eqb (Transaction.eventId x) i); simpl; lia.
  - apply id_eqb_neq in E.
    destruct Hin as [Hin|Hin]; [exfalso; apply E; rewrite Hin; reflexivity|].
    fold (updateRows Transaction.id (Transaction.id x) (Transaction.with_status s) txs).
    rewrite (IH ND' Hin eq_refl).
    destruct (holds (Transaction.status y) && id_eqb (Transaction.eventId y) i)%bool; lia.
Qed.

Lemma totalTickets_nonneg items :
  (forall it, In it items -> (0 < TransactionItem.quantity it)%Z) ->
  (0 <= totalTickets items)%Z.
Proof.
  intro H. rewrite totalTickets_sum.
  pose proof (itemKeys_nonneg _ H) as N. clear H.
  induction (itemKeys items) as [|e l IH]; simpl; [lia|].
  assert (0 <= snd e)%Z by (apply N; left; reflexivity).
  assert (0 <= sumKeys l)%Z by (apply IH; intros e' He'; apply N; right; exact He').
  lia.
Qed.

(** The three facts the seat properties carry along a sequence of calls. *)
Lemma step_seats db op :
  Inv db -> NoDup (map Event.id (DB.event db)) ->
  let db' := step addMonths addHours db op in
  NoDup (map Event.id (DB.event db'))
  /\ (seatsWithinCapacity db -> seatsWithinCapacity db')
  /\ forall e', In e' (DB.event db') ->
       exists e, In e (DB.event db)
                 /\ e' = Event.with_bookedSeats (Event.bookedSeats e') e
                 /\ (Event.bookedSeats e' - seatsHeld (Event.id e') (DB.transaction db')
                     = Event.bookedSeats e - seatsHeld (Event.id e) (DB.transaction db))%Z.
Proof.
  intros I NDe db'.
  assert (Same : DB.transaction db' = DB.transaction db -> DB.event db' = DB.event db ->
                 NoDup (map Event.id (DB.event db'))
                 /\ (seatsWithinCapacity db -> seatsWithinCapacity db')
                 /\ forall e', In e' (DB.event db') ->
                      exists e, In e (DB.event db)
                                /\ e' = Event.with_bookedSeats (Event.bookedSeats e') e
                                /\ (Event.bookedSeats e'
                                    - seatsHeld (Event.id e') (DB.transaction db')
                                    = Event.bookedSeats e
                                      - seatsHeld (Event.id e) (DB.transaction db))%Z).
  { intros Et Ee. unfold seatsWithinCapacity. rewrite Et, Ee.
    split; [exact NDe|]. split; [auto|].
    intros e' He'. exists e'. split; [exact He'|]. split; [|reflexivity].
    symmetry. apply Event_eta. reflexivity. }
  destruct (@step_ledger db op I)
    as [(Et & _ & Ee)
       |[(tx & e & Et & Hh & _ & He & Ke & Cap & Ee)
        |[(x & s & Hx & Hh & Hs & Et & _ & Ee)
         |(x & s & Hx & Hh & Hs & Et & _ & Ee)]]]; fold db' in Et, Ee.
  - apply Same; assumption.
  - split; [|split].
    + rewrite Ee, updateRows_keys; [exact NDe|intro; reflexivity].
    + intros W e' He'. rewrite Ee in He'. apply updateRows_in in He'.
      destruct He' as (r & Hr & [[K ->]|[K ->]]).
      * assert (r = e)
          by (apply (@NoDup_key_eq _ Event.id _ _ _ NDe Hr He); congruence).
        subst r. simpl. exact Cap.
      * apply W. exact Hr.
    + intros e' He'. rewrite Ee in He'. apply updateRows_in in He'.
      destruct He' as (r & Hr & [[K ->]|[K ->]]); exists r; (split; [exact Hr|]).
      * split; [reflexivity|]. simpl. rewrite Et, seatsHeld_app. simpl.
        rewrite Hh, K, id_eqb_refl. simpl. lia.
      * split; [symmetry; apply Event_eta; reflexivity|].
        rewrite Et, seatsHeld_app. simpl.
        assert (N : id_eqb (Transaction.eventId tx) (Event.id r) = false)
          by (apply id_eqb_neq; congruence).
        rewrite N, andb_false_r. lia.
  - split; [rewrite Ee; exact NDe|]. split.
    + unfold seatsWithinCapacity. rewrite Ee. auto.
    + intros e' He'. rewrite Ee in He'. exists e'. split; [exact He'|].
      split; [symmetry; apply Event_eta; reflexivity|].
      rewrite Et.
      rewrite (@seatsHeld_with_status _ _ s _ x (inv_transactions I) Hx eq_refl).
      rewrite Hh, Hs. simpl. lia.
  - assert (Pos : (0 <= totalTickets (Transaction.items x))%Z)
      by (apply totalTickets_nonneg; apply (inv_positive I x Hx Hh)).
    split; [|split].
    + rewrite Ee, updateRows_keys; [exact NDe|intro; reflexivity].
    + intros W e' He'. rewrite Ee in He'. apply updateRows_in in He'.
      destruct He' as (r & Hr & [[K ->]|[K ->]]).
      * simpl. specialize (W r Hr). lia.
      * apply W. exact Hr.
    + intros e' He'. rewrite Ee in He'. apply updateRows_in in He'.
      destruct He' as (r & Hr & [[K ->]|[K ->]]); exists r; (split; [exact Hr|]).
      * split; [reflexivity|]. simpl. rewrite Et.
        rewrite (@seatsHeld_with_status _ _ s _ x (inv_transactions I) Hx eq_refl).
        rewrite Hh, Hs, K, id_eqb_refl. simpl. lia.
      * split; [symmetry; apply Event_eta; reflexivity|].
        rewrite Et.
        rewrite (@seatsHeld_with_status _ _ s _ x (inv_transactions I) Hx eq_refl).
        assert (N : id_eqb (Transaction.eventId x) (Event.id r) = false)
          by (apply id_eqb_neq; congruence).
        rewrite N, !andb_false_r. lia.
Qed.

Lemma run_seats ops : forall db,
  Inv db -> NoDup (map Event.id (DB.event db)) ->
  (seatsWithinCapacity db -> seatsWithinCapacity (run addMonths addHours db ops))
  /\ forall e', In e' (DB.event (run addMonths addHours db ops)) ->
       exists e, In e (DB.event db)
                 /\ e' = Event.with_bookedSeats (Event.bookedSeats e') e
                 /\ (Event.bookedSeats e'
                     - seatsHeld (Event.id e')
                         (DB.transaction (run addMonths addHours db ops))
                     = Event.bookedSeats e - seatsHeld (Event.id e) (DB.transaction db))%Z.
Proof.
  induction ops as [|op ops IH]; intros db I NDe.
  - simpl. split; [auto|]. intros e' He'. exists e'. split; [exact He'|].
    split; [symmetry; apply Event_eta; reflexivity|reflexivity].
  - destruct (@step_seats db op I NDe) as (NDe' & W & C).
    destruct (IH _ (@step_Inv db op I) NDe') as (W' & C').
    simpl. split; [auto|].
    intros e2 He2. destruct (C' e2 He2) as (e1 & He1 & E21 & D21).
    destruct (C e1 He1) as (e & He & E1 & D1).
    exists e. split; [exact He|]. split.
    + rewrite E21, E1. reflexivity.
    + fold (run addMonths addHours (step addMonths addHours db op) ops) in D21.
      lia.
Qed.

(** X14.  No event is overbooked.  From a consistent database whose
    events have unique keys and no more booked seats than available seats,
    every sequence of calls of the engine leads to a database where every
    event still has bookedSeats <= availableSeats. *)
Theorem booked_seats_within_capacity db0 ops e :
  consistent db0 = true ->
  NoDup (map Event.id (DB.event db0)) ->
  seatsWithinCapacity db0 ->
  In e (DB.event (run addMonths addHours db0 ops)) ->
  (Event.bookedSeats e <= Event.availableSeats e)%Z.
Proof.
  intros C NDe W He.
  destruct (@run_seats ops db0 (@consistent_Inv db0 C) NDe) as [W' _].
  apply (W' W). exact He.
Qed.

(** X15.  The booked seats of an event move in step with its bookings.
    Along every sequence of calls of the engine from a consistent database
    with unique event keys, an event keeps every column but bookedSeats,
    and bookedSeats less the seats of the bookings that hold tickets of the
    event (those waiting for payment or confirmation and those DONE) stays
    what it was: a booking adds its tickets once, a rejection or expiry
    takes exactly them away, and nothing else moves the counter. *)
Theorem booked_seats_track_bookings db0 ops e' :
  consistent db0 = true ->
  NoDup (map Event.id (DB.event db0)) ->
  In e' (DB.event (run addMonths addHours db0 ops)) ->
  exists e, In e (DB.event db0)
            /\ e' = Event.with_bookedSeats (Event.bookedSeats e') e
            /\ (Event.bookedSeats e'
                - seatsHeld (Event.id e') (DB.transaction (run addMonths addHours db0 ops))
                = Event.bookedSeats e - seatsHeld (Event.id e) (DB.transaction db0))%Z.
Proof.
  intros C NDe He.
  destruct (@run_seats ops db0 (@consistent_Inv db0 C) NDe) as [_ T].
  apply T. exact He.
Qed.

Lemma step_sold db op :
  Inv db ->
  forall t', In t' (DB.eventTicketType (step addMonths addHours db op)) ->
    exists t, In t (DB.eventTicketType db)
              /\ t' = EventTicketType.with_soldQuantity (EventTicketType.soldQuantity t') t
              /\ (EventTicketType.soldQuantity t'
                  - reserved (EventTicketType.id t')
                      (DB.transaction (step addMonths addHours db op))
                  = EventTicketType.soldQuantity t
                    - reserved (EventTicketType.id t) (DB.transaction db))%Z.
Proof.
  intros I t' Ht'.
  destruct (@step_ledger db op I)
    as [(Et & Ett & _)
       |[(tx & e & Et & Hh & Ett & _)
        |[(x & s & Hx & Hh & Hs & Et & Ett & _)
         |(x & s & Hx & Hh & Hs & Et & Ett & _)]]]; rewrite Ett in Ht'; rewrite Et.
  - exists t'. split; [exact Ht'|]. split; [|reflexivity].
    symmetry. apply EventTicketType_eta. reflexivity.
  - apply adjustSold_in in Ht'. destruct Ht' as (t & Ht & ->).
    exists t. split; [exact Ht|]. split; [reflexivity|].
    simpl. rewrite reserved_app. simpl. rewrite Hh. lia.
  - exists t'. split; [exact Ht'|].
    split; [symmetry; apply EventTicketType_eta; reflexivity|].
    rewrite (@reserved_with_status _ _ s _ x (inv_transactions I) Hx eq_refl).
    rewrite Hh, Hs. lia.
  - apply adjustSold_in in Ht'. destruct Ht' as (t & Ht & ->).
    exists t. split; [exact Ht|]. split; [reflexivity|].
    simpl. rewrite (@reserved_with_status _ _ s _ x (inv_transactions I) Hx eq_refl).
    rewrite Hh, Hs. lia.
Qed.

(** X16.  The sold counter of a ticket type moves in step with its
    bookings.  Along every sequence of calls of the engine from a
    consistent database, a ticket type keeps every column but
    soldQuantity, and soldQuantity less the tickets of the type held by
    bookings (those waiting for payment or confirmation and those DONE)
    stays what it was: no call leaks or invents a ticket. *)
Theorem sold_counter_tracks_bookings ops : forall db0 t',
  consistent db0 = true ->
  In t' (DB.eventTicketType (run addMonths addHours db0 ops)) ->
  exists t, In t (DB.eventTicketType db0)
            /\ t' = EventTicketType.with_soldQuantity (EventTicketType.soldQuantity t') t
            /\ (EventTicketType.soldQuantity t'
                - reserved (EventTicketType.id t')
                    (DB.transaction (run addMonths addHours db0 ops))
                = EventTicketType.soldQuantity t
                  - reserved (EventTicketType.id t) (DB.transaction db0))%Z.
Proof.
  intros db0 t' C. pose proof (@consistent_Inv db0 C) as I. clear C.
  revert db0 I t'.
  induction ops as [|op ops IH]; intros db I t' Ht'.
  - exists t'. split; [exact Ht'|]. split; [|reflexivity].
    symmetry. apply EventTicketType_eta. reflexivity.
  - simpl in Ht'.
    destruct (IH _ (@step_Inv db op I) t' Ht') as (t1 & Ht1 & E1 & D1).
    destruct (@step_sold db op I t1 Ht1) as (t & Ht & E & D).
    exists t. split; [exact Ht|]. split.
    + rewrite E1, E. reflexivity.
    + simpl. fold (run addMonths addHours (step addMonths addHours db op) ops) in D1.
      lia.
Qed.

(** ** Reading a booking back *)

Lemma find_app_skip A (f : A -> bool) l1 l2 :
  (forall x, In x l1 -> f x = false) -> find f (l1 ++ l2) = find f l2.
Proof.
  induction l1 as [|x l1 IH]; intro H; simpl; [reflexivity|].
  rewrite (H x (or_introl eq_refl)). apply IH. intros y Hy. apply H. right. exact Hy.
Qed.

(** X17.  A booking can be read back as it was created.  After a
    successful createTransaction, getTransactionById with the new key
    returns the created booking, for the buyer and for a caller that passes
    no user; for any other user it fails with TRANSACTION_NOT_FOUND. *)
Theorem createTransaction_then_getTransactionById env userId data db tx db' :
  createTransaction addHours env userId data db = (Ok tx, db') ->
  (exists detail, getTransactionById (Transaction.id tx) (Some userId) db' = Ok detail
                  /\ TransactionDetail.transaction detail = tx)
  /\ (exists detail, getTransactionById (Transaction.id tx) None db' = Ok detail
                     /\ TransactionDetail.transaction detail = tx)
  /\ (forall u, u <> userId -> u <> ""%string ->
        getTransactionById (Transaction.id tx) (Some u) db'
        = Throw (TransactionError TRANSACTION_NOT_FOUND)).
Proof.
  intro E.
  assert (U : Transaction.userId tx = userId).
  { pose proof (createTransaction_ok _ _ _ _ E) as O. cbv zeta in O.
    destruct O as (event & totalAmount & ticketUpdates & pointsDiscount & vd & av & cd & ac
                   & items & d1 & d2 & d3 & d4 & d5 & O).
    destruct O as (_ & _ & _ & _ & _ & _ & _ & _ & _ & R & _). rewrite R. reflexivity. }
  apply createTransaction_tables in E.
  destruct E as (ups & av & ac & Fresh & _ & _ & _ & _ & _ & _ & _ & _ & _ & T1 & _).
  assert (Skip : forall g : Transaction.t -> bool,
            find (fun x => id_eqb (Transaction.id x) (Transaction.id tx) && g x)%bool
                 (DB.transaction db')
            = if g tx then Some tx else None).
  { intro g. rewrite T1, find_app_skip.
    - simpl. rewrite id_eqb_refl. simpl. destruct (g tx); reflexivity.
    - intros x Hx.
      assert (N : id_eqb (Transaction.id x) (Transaction.id tx) = false).
      { apply id_eqb_neq. intro K.
        apply (proj1 (findById_none Transaction.id _ _) Fresh).
        rewrite <- K. apply in_map. exact Hx. }
      rewrite N. reflexivity. }
  unfold getTransactionById. split; [|split].
  - rewrite Skip. destruct (presentId (Some userId)) as [u|] eqn:P.
    + assert (u = userId).
      { unfold presentId in P. destruct (Js.truthy_string userId); congruence. }
      subst u. rewrite U, id_eqb_refl. eexists. split; reflexivity.
    + eexists. split; reflexivity.
  - rewrite Skip. simpl. eexists. split; reflexivity.
  - intros u Nu Ne. rewrite Skip. rewrite presentId_some; [|exact Ne].
    assert (N : id_eqb (Transaction.userId tx) u = false)
      by (apply id_eqb_neq; congruence).
    rewrite N. reflexivity.
Qed.

(** X18.  An uploaded payment proof shows on the booking.  After a
    successful uploadPaymentProof, getTransactionById for the buyer returns
    the booking in WAITING_FOR_CONFIRMATION together with the payment row
    that the upload returned. *)
Theorem uploadPaymentProof_then_getTransactionById
    env transactionId userId uploaded db pay db' :
  uploadPaymentProof addMonths env transactionId userId uploaded db = (Ok pay, db') ->
  exists detail,
    getTransactionById transactionId (Some userId) db' = Ok detail
    /\ Transaction.id (TransactionDetail.transaction detail) = transactionId
    /\ Transaction.status (TransactionDetail.transaction detail) = WAITING_FOR_CONFIRMATION
    /\ TransactionDetail.payment detail = Some pay.
Proof.
  intro H. pose proof (uploadPaymentProof_ok _ _ _ _ _ H) as (x & F & _ & Tx & _).
  assert (Fp : findById TransactionPayment.transactionId transactionId
                 (DB.transactionPayment db') = Some pay).
  { apply prisma_transaction_ok in H.
    bind_inv H. apply ret_ok in Hm. destruct Hm as [-> ->]. rewrite F in H.
    destruct (now env >? Transaction.expiryTime x)%Z.
    - bind_inv H. discriminate.
    - destruct uploaded as [url|]; [|discriminate].
      bind_inv H. bind_inv H. apply ret_ok in H. destruct H as [<- ->].
      apply updateTable_ok in Hm0. destruct Hm0 as (r & Fr & _ & ->).
      apply upsertPayment_ok in Hm. destruct Hm as (-> & Fp & _). exact Fp. }
  apply findForPayment_some in F. destruct F as (Hx & Kx & Ux & Sx).
  unfold getTransactionById.
  set (g := fun x0 : Transaction.t =>
              (id_eqb (Transaction.id x0) transactionId
               && match presentId (Some userId) with
                  | Some u => id_eqb (Transaction.userId x0) u
                  | None => true
                  end)%bool).
  destruct (find g (DB.transaction db')) as [y|] eqn:Fy.
  - eexists. split; [reflexivity|]. simpl. rewrite Fp.
    apply find_some in Fy. destruct Fy as [Hy Gy]. unfold g in Gy.
    apply andb_true_iff in Gy. destruct Gy as [Gy _]. apply id_eqb_eq in Gy.
    split; [exact Gy|]. split; [|reflexivity].
    rewrite Tx in Hy. apply updateRows_in in Hy.
    destruct Hy as (r & _ & [[_ ->]|[N ->]]); [reflexivity|contradiction].
  - exfalso.
    assert (Hin : In (Transaction.with_status WAITING_FOR_CONFIRMATION x)
                     (DB.transaction db')).
    { rewrite Tx. unfold updateRows. apply in_map_iff. exists x.
      apply id_eqb_eq in Kx. rewrite Kx. split; [reflexivity|exact Hx]. }
    pose proof (find_none _ _ Fy _ Hin) as G. unfold g in G. simpl in G.
    apply id_eqb_eq in Kx. rewrite Kx in G. simpl in G.
    destruct (Js.truthy_string userId); [|discriminate].
    apply id_eqb_neq in G. contradiction.
Qed.

(** ** VoucherService *)

Lemma plain_transaction_ok A (body : Plain A) db a db' :
  plain_transaction body db = (Returned a, db') -> body db = (Returned a, db').
Proof.
  unfold plain_transaction. destruct (body db) as [[b|e] d]; intro H.
  - exact H.
  - discriminate.
Qed.

Lemma plain_transaction_raised A (body : Plain A) db e db' :
  plain_transaction body db = (Raised e, db') -> db' = db.
Proof.
  unfold plain_transaction. destruct (body db) as [[b|e'] d]; intro H.
  - discriminate.
  - injection H as _ <-. reflexivity.
Qed.

Lemma createVoucher_ok env eventId organizerId voucherData db v db' :
  VoucherService.createVoucher env eventId organizerId voucherData db = (Returned v, db') ->
  (exists e, VoucherService.ownedEvent eventId organizerId db = Some e)
  /\ (forall w, In w (DB.eventVoucher db) ->
                EventVoucher.code w <> VoucherCreateRequest.code voucherData)
  /\ findById EventVoucher.id (newId env) (DB.eventVoucher db) = None
  /\ v = EventVoucher.mk (newId env) eventId
           (VoucherCreateRequest.code voucherData)
           (VoucherCreateRequest.discountType voucherData)
           (VoucherCreateRequest.discountValue voucherData)
           (VoucherCreateRequest.maxUsage voucherData)
           0
           (match VoucherCreateRequest.minPurchaseAmount voucherData with
            | Some a => if Js.truthy a then a else 0
            | None => 0
            end)
           (VoucherCreateRequest.startDate voucherData)
           (VoucherCreateRequest.endDate voucherData)
  /\ db' = DB.with_eventVoucher (DB.eventVoucher db ++ [v]) db.
Proof.
  intro H. unfold VoucherService.createVoucher in H.
  apply plain_transaction_ok in H.
  destruct (VoucherService.ownedEvent eventId organizerId db) as [e|] eqn:Fe;
    [|discriminate].
  destruct (find _ (DB.eventVoucher db)) as [w|] eqn:Fc; [discriminate|].
  unfold create in H.
  match type of H with
  | context [findById EventVoucher.id ?k ?rows] =>
      destruct (findById EventVoucher.id k rows) eqn:Fi; [discriminate|]
  end.
  injection H as <- <-. simpl in Fi.
  split; [exists e; reflexivity|]. split; [|split; [exact Fi|split; reflexivity]].
  intros w Hw K. pose proof (find_none _ _ Fc _ Hw) as N. simpl in N.
  rewrite K in N. rewrite String.eqb_refl in N. discriminate.
Qed.

(** X19.  A voucher that has just been created is on offer.  When
    createVoucher succeeds, the new voucher belongs to the event, has not
    been used, and is the last row of the table, the other rows being as
    they were; at every instant of its validity window, provided maxUsage
    is positive, getActiveVouchers lists it and validateVoucher returns it
    for its code and any total that reaches its minimum purchase. *)
Theorem createVoucher_then_active env eventId organizerId voucherData db v db' :
  VoucherService.createVoucher env eventId organizerId voucherData db = (Returned v, db') ->
  DB.eventVoucher db' = DB.eventVoucher db ++ [v]
  /\ EventVoucher.eventId v = eventId
  /\ EventVoucher.code v = VoucherCreateRequest.code voucherData
  /\ EventVoucher.usedCount v = 0%Z
  /\ forall now,
       (EventVoucher.startDate v <= now <= EventVoucher.endDate v)%Z ->
       (0 < EventVoucher.maxUsage v)%Z ->
       In v (VoucherService.getActiveVouchers now eventId db')
       /\ forall totalAmount,
            EventVoucher.minPurchaseAmount v <= totalAmount ->
            VoucherService.validateVoucher now (EventVoucher.code v) eventId totalAmount db'
            = Returned v.
Proof.
  intro H. apply createVoucher_ok in H. destruct H as (_ & Fresh & _ & Ev & ->).
  simpl. split; [reflexivity|].
  assert (E1 : EventVoucher.eventId v = eventId) by (rewrite Ev; reflexivity).
  assert (E2 : EventVoucher.code v = VoucherCreateRequest.code voucherData)
    by (rewrite Ev; reflexivity).
  assert (E3 : EventVoucher.usedCount v = 0%Z) by (rewrite Ev; reflexivity).
  split; [exact E1|]. split; [exact E2|]. split; [exact E3|].
  intros now [W1 W2] M.
  assert (Act : (id_eqb (EventVoucher.eventId v) eventId
                 && (EventVoucher.startDate v <=? now)%Z
                 && (now <=? EventVoucher.endDate v)%Z
                 && (EventVoucher.usedCount v <? EventVoucher.maxUsage v)%Z)%bool = true).
  { rewrite E1, id_eqb_refl, E3.
    apply Z.leb_le in W1. apply Z.leb_le in W2. apply Z.ltb_lt in M.
    rewrite W1, W2, M. reflexivity. }
  split.
  - unfold VoucherService.getActiveVouchers. simpl. apply filter_In.
    split; [apply in_or_app; right; left; reflexivity|exact Act].
  - intros totalAmount Hmin. unfold VoucherService.validateVoucher. simpl.
    rewrite find_app_skip.
    + simpl. rewrite String.eqb_refl.
      rewrite <- !andb_assoc in Act. rewrite <- !andb_assoc. simpl.
      rewrite Act.
      apply JsFacts.ltb_ge in Hmin. rewrite Hmin. reflexivity.
    + intros w Hw. specialize (Fresh w Hw). rewrite E2.
      apply String.eqb_neq in Fresh. rewrite Fresh. reflexivity.
Qed.

Lemma ownedVoucher_some voucherId organizerId db v :
  VoucherService.ownedVoucher voucherId organizerId db = Some v ->
  In v (DB.eventVoucher db) /\ EventVoucher.id v = voucherId
  /\ exists e, In e (DB.event db) /\ Event.id e = EventVoucher.eventId v
               /\ Event.organizerId e = organizerId.
Proof.
  intro F. unfold VoucherService.ownedVoucher in F. apply find_some in F.
  destruct F as [Hin Hb]. apply andb_true_iff in Hb. destruct Hb as [K Ex].
  apply id_eqb_eq in K. apply existsb_exists in Ex. destruct Ex as (e & He & Hb).
  apply andb_true_iff in Hb. destruct Hb as [H1 H2].
  apply id_eqb_eq in H1. apply id_eqb_eq in H2.
  split; [exact Hin|]. split; [exact K|]. exists e. repeat split; assumption.
Qed.

Lemma updateVoucher_ok voucherId organizerId updateData db v' db' :
  VoucherService.updateVoucher voucherId organizerId updateData db = (Returned v', db') ->
  exists v r,
    VoucherService.ownedVoucher voucherId organizerId db = Some v
    /\ findById EventVoucher.id voucherId (DB.eventVoucher db) = Some r
    /\ v' = VoucherService.applyUpdate updateData r
    /\ (forall w, In w (DB.eventVoucher db) -> EventVoucher.id w <> voucherId ->
                  EventVoucher.code w <> EventVoucher.code v')
    /\ db' = DB.with_eventVoucher
               (updateRows EventVoucher.id voucherId
                  (VoucherService.applyUpdate updateData) (DB.eventVoucher db)) db.
Proof.
  intro H. unfold VoucherService.updateVoucher in H.
  apply plain_transaction_ok in H.
  destruct (VoucherService.ownedVoucher voucherId organizerId db) as [v|] eqn:Fo;
    [|discriminate].
  match type of H with
  | match ?c with Some _ => _ | None => _ end = _ => destruct c; [discriminate|]
  end.
  unfold VoucherService.updateVoucherRow in H.
  destruct (update EventVoucher.id voucherId (VoucherService.applyUpdate updateData)
              (DB.eventVoucher db)) as [[u rows]|e] eqn:U; [|discriminate].
  apply update_ok in U. destruct U as (r & Fr & -> & ->).
  destruct (existsb _ (DB.eventVoucher db)) eqn:Ex; [discriminate|].
  injection H as <- <-.
  exists v, r. split; [reflexivity|]. split; [exact Fr|]. split; [reflexivity|].
  split; [|reflexivity].
  intros w Hw Nw K.
  assert (T : existsb
                (fun v0 => negb (id_eqb (EventVoucher.id v0) voucherId)
                           && String.eqb (EventVoucher.code v0)
                                (EventVoucher.code
                                   (VoucherService.applyUpdate updateData r)))%bool
                (DB.eventVoucher db) = true).
  { apply existsb_exists. exists w. split; [exact Hw|].
    apply id_eqb_neq in Nw. rewrite Nw, K, String.eqb_refl. reflexivity. }
  rewrite T in Ex. discriminate.
Qed.

Lemma deleteVoucher_ok voucherId organizerId db msg db' :
  VoucherService.deleteVoucher voucherId organizerId db = (Returned msg, db') ->
  (exists v, VoucherService.ownedVoucher voucherId organizerId db = Some v)
  /\ db' = DB.with_transaction
             (map (VoucherService.clearVoucher voucherId) (DB.transaction db))
             (DB.with_eventVoucher
                (filter (fun v => negb (id_eqb (EventVoucher.id v) voucherId))
                        (DB.eventVoucher db))
                db).
Proof.
  unfold VoucherService.deleteVoucher.
  destruct (VoucherService.ownedVoucher voucherId organizerId db) as [v|];
    [|discriminate].
  intro H. injection H as _ <-. split; [exists v; reflexivity|reflexivity].
Qed.

Lemma NoDup_map_filter A B (g : A -> B) (f : A -> bool) l :
  NoDup (map g l) -> NoDup (map g (filter f l)).
Proof.
  induction l as [|x l IH]; simpl; intro ND; [constructor|].
  inversion ND as [|? ? Hx ND']; subst.
  destruct (f x); simpl; [|apply IH; exact ND'].
  constructor; [|apply IH; exact ND'].
  intro Hin. apply Hx. apply in_map_iff in Hin. destruct Hin as (y & Ey & Hy).
  apply filter_In in Hy. rewrite <- Ey. apply in_map. apply Hy.
Qed.

Lemma updateRows_codes i f rows :
  NoDup (map EventVoucher.id rows) ->
  NoDup (map EventVoucher.code rows) ->
  (forall w y, In w rows -> In y rows -> EventVoucher.id w <> i -> EventVoucher.id y = i ->
               EventVoucher.code w <> EventVoucher.code (f y)) ->
  NoDup (map EventVoucher.code (updateRows EventVoucher.id i f rows)).
Proof.
  induction rows as [|x rows IH]; simpl; intros NDi NDc H; [constructor|].
  inversion NDi as [|? ? Hxi NDi']; subst. inversion NDc as [|? ? Hxc NDc']; subst.
  fold (updateRows EventVoucher.id i f rows).
  assert (IH' : NoDup (map EventVoucher.code (updateRows EventVoucher.id i f rows))).
  { apply IH; [exact NDi'|exact NDc'|].
    intros w y Hw Hy. apply H; right; assumption. }
  constructor; [|exact IH'].
  intro Hin. apply in_map_iff in Hin. destruct Hin as (z & Ez & Hz).
  apply updateRows_in in Hz. destruct Hz as (r & Hr & [[K ->]|[K ->]]).
  - destruct (id_eqb (EventVoucher.id x) i) eqn:Kx.
    + apply id_eqb_eq in Kx. apply Hxi. rewrite Kx, <- K. apply in_map. exact Hr.
    + apply id_eqb_neq in Kx.
      apply (H x r (or_introl eq_refl) (or_intror Hr) Kx K). symmetry. exact Ez.
  - destruct (id_eqb (EventVoucher.id x) i) eqn:Kx.
    + apply id_eqb_eq in Kx.
      apply (H r x (or_intror Hr) (or_introl eq_refl) K Kx). exact Ez.
    + apply Hxc. rewrite <- Ez. apply in_map. exact Hr.
Qed.

Lemma voucher_step_keys db op :
  NoDup (map EventVoucher.id (DB.eventVoucher db)) ->
  NoDup (map EventVoucher.code (DB.eventVoucher db)) ->
  NoDup (map EventVoucher.id (DB.eventVoucher (VoucherService.step db op)))
  /\ NoDup (map EventVoucher.code (DB.eventVoucher (VoucherService.step db op))).
Proof.
  intros NDi NDc. destruct op as [env eventId organizerId voucherData
                                 |voucherId organizerId updateData
                                 |voucherId organizerId]; simpl.
  - destruct (VoucherService.createVoucher env eventId organizerId voucherData db)
      as [[v|e] db'] eqn:E; simpl.
    + apply createVoucher_ok in E. destruct E as (_ & Fresh & Fi & Ev & ->). simpl.
      rewrite !map_app. simpl. split.
      * apply NoDup_snoc; [exact NDi|]. apply findById_none in Fi.
        rewrite Ev. exact Fi.
      * apply NoDup_snoc; [exact NDc|]. intro Hin. apply in_map_iff in Hin.
        destruct Hin as (w & Ew & Hw). apply (Fresh w Hw). rewrite Ew, Ev. reflexivity.
    + unfold VoucherService.createVoucher in E. apply plain_transaction_raised in E.
      subst db'. split; assumption.
  - destruct (VoucherService.updateVoucher voucherId organizerId updateData db)
      as [[v|e] db'] eqn:E; simpl.
    + apply updateVoucher_ok in E. destruct E as (v0 & r & _ & Fr & -> & Other & ->).
      simpl. split.
      * rewrite updateRows_keys; [exact NDi|intro; reflexivity].
      * apply updateRows_codes; [exact NDi|exact NDc|].
        intros w y Hw Hy Nw Ky.
        apply findById_some in Fr. destruct Fr as [Hr Kr].
        assert (y = r)
          by (apply (@NoDup_key_eq _ EventVoucher.id _ _ _ NDi Hy Hr); congruence).
        subst y. apply Other; assumption.
    + unfold VoucherService.updateVoucher in E. apply plain_transaction_raised in E.
      subst db'. split; assumption.
  - destruct (VoucherService.deleteVoucher voucherId organizerId db)
      as [[v|e] db'] eqn:E; simpl.
    + apply deleteVoucher_ok in E. destruct E as (_ & ->). simpl.
      split; apply NoDup_map_filter; assumption.
    + unfold VoucherService.deleteVoucher in E.
      destruct (VoucherService.ownedVoucher voucherId organizerId db);
        [discriminate|]. injection E as _ <-. split; assumption.
Qed.

(** X20.  Voucher codes stay unique.  From a voucher table whose keys
    and whose codes are unique, every sequence of createVoucher,
    updateVoucher and deleteVoucher calls, whoever makes them and whether
    they succeed or fail, leads to a table whose keys and codes are again
    unique. *)
Theorem voucher_codes_stay_unique ops : forall db,
  NoDup (map EventVoucher.id (DB.eventVoucher db)) ->
  NoDup (map EventVoucher.code (DB.eventVoucher db)) ->
  NoDup (map EventVoucher.id (DB.eventVoucher (fold_left VoucherService.step ops db)))
  /\ NoDup (map EventVoucher.code
              (DB.eventVoucher (fold_left VoucherService.step ops db))).
Proof.
  induction ops as [|op ops IH]; intros db NDi NDc; simpl.
  - split; assumption.
  - destruct (@voucher_step_keys db op NDi NDc) as [NDi' NDc'].
    apply IH; assumption.
Qed.


Lemma find_agree A (f g : A -> bool) l :
  (forall x, f x = g x) -> find f l = find g l.
Proof.
  intro H. induction l as [|x l IH]; simpl; [reflexivity|].
  rewrite H, IH. reflexivity.
Qed.

Lemma find_unique_code (f : EventVoucher.t -> bool) rows v :
  NoDup (map EventVoucher.code rows) ->
  In v rows -> f v = true ->
  find (fun w => String.eqb (EventVoucher.code w) (EventVoucher.code v) && f w)%bool rows
  = Some v.
Proof.
  intros ND Hv Fv.
  destruct (find _ rows) as [w|] eqn:F.
  - apply find_some in F. destruct F as [Hw Hb].
    apply andb_true_iff in Hb. destruct Hb as [K _]. apply String.eqb_eq in K.
    f_equal. apply (@NoDup_key_eq _ EventVoucher.code _ _ _ ND Hw Hv K).
  - pose proof (find_none _ _ F _ Hv) as N. simpl in N.
    rewrite String.eqb_refl, Fv in N. discriminate.
Qed.

(** X22.  The list of active vouchers and the validation agree.  A
    voucher that validateVoucher returns for an event is one that
    getActiveVouchers lists for it at that instant, it carries the code
    asked for and its minimum purchase does not exceed the total; and,
    codes being unique, every voucher that getActiveVouchers lists is
    returned by validateVoucher for its code and any total that reaches
    its minimum purchase. *)
Theorem active_vouchers_are_the_valid_ones now eventId db v :
  (forall code totalAmount,
     VoucherService.validateVoucher now code eventId totalAmount db = Returned v ->
     In v (VoucherService.getActiveVouchers now eventId db)
     /\ EventVoucher.code v = code
     /\ EventVoucher.minPurchaseAmount v <= totalAmount)
  /\ (NoDup (map EventVoucher.code (DB.eventVoucher db)) ->
      In v (VoucherService.getActiveVouchers now eventId db) ->
      forall totalAmount,
        EventVoucher.minPurchaseAmount v <= totalAmount ->
        VoucherService.validateVoucher now (EventVoucher.code v) eventId totalAmount db
        = Returned v).
Proof.
  split.
  - intros code totalAmount H. unfold VoucherService.validateVoucher in H.
    destruct (find _ (DB.eventVoucher db)) as [w|] eqn:F; [|discriminate].
    destruct (Js.ltb totalAmount (EventVoucher.minPurchaseAmount w)) eqn:L;
      [discriminate|].
    injection H as ->. apply find_some in F. destruct F as [Hv Hb].
    rewrite <- !andb_assoc in Hb. apply andb_true_iff in Hb. destruct Hb as [K Act].
    apply String.eqb_eq in K.
    split; [|split; [exact K|apply JsFacts.ltb_ge; exact L]].
    unfold VoucherService.getActiveVouchers. apply filter_In.
    split; [exact Hv|]. rewrite <- !andb_assoc. exact Act.
  - intros ND Hin totalAmount Hmin.
    unfold VoucherService.getActiveVouchers in Hin. apply filter_In in Hin.
    destruct Hin as [Hv Act].
    unfold VoucherService.validateVoucher.
    assert (F : find (fun w => String.eqb (EventVoucher.code w) (EventVoucher.code v)
                               && id_eqb (EventVoucher.eventId w) eventId
                               && (EventVoucher.startDate w <=? now)%Z
                               && (now <=? EventVoucher.endDate w)%Z
                               && (EventVoucher.usedCount w <? EventVoucher.maxUsage w)%Z)%bool
                     (DB.eventVoucher db) = Some v).
    { rewrite <- (@find_unique_code
                    (fun w => id_eqb (EventVoucher.eventId w) eventId
                              && (EventVoucher.startDate w <=? now)%Z
                              && (now <=? EventVoucher.endDate w)%Z
                              && (EventVoucher.usedCount w <? EventVoucher.maxUsage w)%Z)%bool
                    _ v ND Hv Act).
      apply find_agree. intro w. rewrite <- !andb_assoc. reflexivity. }
    rewrite F. apply JsFacts.ltb_ge in Hmin. rewrite Hmin. reflexivity.
Qed.




Lemma clearVoucher_id voucherId x :
  Transaction.id (VoucherService.clearVoucher voucherId x) = Transaction.id x.
Proof.
  unfold VoucherService.clearVoucher. destruct (Transaction.voucherId x) as [i|];
    [|reflexivity]. destruct (id_eqb i voucherId); reflexivity.
Qed.

Lemma findById_map R (key : R -> Id) (g : R -> R) i rows :
  (forall r, key (g r) = key r) ->
  findById key i (map g rows) = option_map g (findById key i rows).
Proof.
  intro H. induction rows as [|x rows IH]; simpl; [reflexivity|].
  rewrite H. destruct (id_eqb (key x) i); [reflexivity|exact IH].
Qed.

(** X24.  Deleting a voucher leaves nothing pointing at it.  When
    deleteVoucher succeeds, the voucher is gone from the table while every
    other voucher is still there, unchanged; every booking is still there
    under its key, those that had used the voucher with an empty voucher
    reference and the others exactly as they were; the other tables are as
    before. *)
Theorem deleteVoucher_clears_references voucherId organizerId db msg db' :
  VoucherService.deleteVoucher voucherId organizerId db = (Returned msg, db') ->
  findById EventVoucher.id voucherId (DB.eventVoucher db') = None
  /\ (forall w, EventVoucher.id w <> voucherId ->
                (In w (DB.eventVoucher db') <-> In w (DB.eventVoucher db)))
  /\ (forall x, In x (DB.transaction db') -> Transaction.voucherId x <> Some voucherId)
  /\ (forall i, findById Transaction.id i (DB.transaction db')
                = option_map (VoucherService.clearVoucher voucherId)
                    (findById Transaction.id i (DB.transaction db)))
  /\ (forall x, Transaction.voucherId x <> Some voucherId ->
                VoucherService.clearVoucher voucherId x = x)
  /\ DB.eventTicketType db' = DB.eventTicketType db
  /\ DB.event db' = DB.event db
  /\ DB.userCoupon db' = DB.userCoupon db
  /\ DB.userPoint db' = DB.userPoint db.
Proof.
  intro H. apply deleteVoucher_ok in H. destruct H as (_ & ->). simpl.
  split; [|split; [|split; [|split; [|split; [|repeat split]]]]].
  - apply findById_none. intro Hin. apply in_map_iff in Hin.
    destruct Hin as (w & K & Hw). apply filter_In in Hw. destruct Hw as [_ N].
    apply id_eqb_eq in K. rewrite K in N. discriminate.
  - intros w Nw. rewrite filter_In. apply id_eqb_neq in Nw. rewrite Nw. simpl.
    split; [intros [Hw _]; exact Hw|intro Hw; split; [exact Hw|reflexivity]].
  - intros x Hx. apply in_map_iff in Hx. destruct Hx as (x0 & <- & _).
    unfold VoucherService.clearVoucher.
    destruct (Transaction.voucherId x0) as [i|] eqn:V; [|rewrite V; discriminate].
    destruct (id_eqb i voucherId) eqn:K; [simpl; discriminate|].
    rewrite V. apply id_eqb_neq in K. congruence.
  - intro i. apply findById_map. apply clearVoucher_id.
  - intros x Nx. unfold VoucherService.clearVoucher.
    destruct (Transaction.voucherId x) as [i|]; [|reflexivity].
    destruct (id_eqb i voucherId) eqn:K; [|reflexivity].
    apply id_eqb_eq in K. congruence.
Qed.

(** X25.  Deleting a voucher does not stand in the way of a refund.  If
    the rows that the rollback of a booking updates were there before a
    voucher was deleted, then after the deletion the rollback of that
    booking still runs to its end, for a booking that had used the deleted
    voucher as for any other. *)
Theorem deleteVoucher_keeps_rollback_possible
    voucherId organizerId db msg db' env transactionId x :
  VoucherService.deleteVoucher voucherId organizerId db = (Returned msg, db') ->
  findById Transaction.id transactionId (DB.transaction db) = Some x ->
  rollbackReady x db ->
  exists d', rollbackTransaction addMonths env transactionId db' = (Ok tt, d').
Proof.
  intros H F (Ri & Re & Rv & Rc & Rp).
  apply deleteVoucher_ok in H. destruct H as (_ & ->).
  assert (F' : findById Transaction.id transactionId
                 (DB.transaction
                    (DB.with_transaction
                       (map (VoucherService.clearVoucher voucherId) (DB.transaction db))
                       (DB.with_eventVoucher
                          (filter (fun v => negb (id_eqb (EventVoucher.id v) voucherId))
                                  (DB.eventVoucher db)) db)))
               = Some (VoucherService.clearVoucher voucherId x)).
  { simpl. rewrite findById_map; [|apply clearVoucher_id]. rewrite F. reflexivity. }
  assert (Same : Transaction.items (VoucherService.clearVoucher voucherId x)
                 = Transaction.items x
                 /\ Transaction.eventId (VoucherService.clearVoucher voucherId x)
                    = Transaction.eventId x
                 /\ Transaction.couponId (VoucherService.clearVoucher voucherId x)
                    = Transaction.couponId x
                 /\ Transaction.pointsUsed (VoucherService.clearVoucher voucherId x)
                    = Transaction.pointsUsed x
                 /\ Transaction.userId (VoucherService.clearVoucher voucherId x)
                    = Transaction.userId x).
  { unfold VoucherService.clearVoucher. destruct (Transaction.voucherId x) as [i|];
      [|repeat split]. destruct (id_eqb i voucherId); repeat split. }
  destruct Same as (Si & Se & Sc & Sp & Su).
  destruct (@rollbackTransaction_run env transactionId _ _ F') as (d' & Run & _).
  - rewrite Si. exact Ri.
  - rewrite Se. exact Re.
  - intros i Pi. simpl. unfold VoucherService.clearVoucher in Pi.
    destruct (Transaction.voucherId x) as [j|] eqn:V.
    + destruct (id_eqb j voucherId) eqn:K; [discriminate|].
      rewrite V in Pi. specialize (Rv i Pi).
      apply in_map_iff in Rv. destruct Rv as (w & Kw & Hw).
      apply in_map_iff. exists w. split; [exact Kw|]. apply filter_In.
      split; [exact Hw|].
      assert (E : i = j).
      { unfold presentId in Pi. destruct (Js.truthy_string j); congruence. }
      rewrite Kw, E, K. reflexivity.
    + rewrite V in Pi. discriminate.
  - rewrite Sc. exact Rc.
  - rewrite Sp, Su. exact Rp.
  - exists d'. exact Run.
Qed.

(** X26.  Only the organizer of an event manages its vouchers.  For an
    organizer who does not own the event, createVoucher fails with 'Event
    not found or access denied'; for an organizer who does not own the
    event of the voucher, updateVoucher and deleteVoucher fail with
    'Voucher not found or access denied'.  In each case the database is
    left as it was. *)
Theorem voucher_writes_need_the_organizer organizerId db :
  (forall env eventId voucherData,
     (forall e, In e (DB.event db) -> Event.id e = eventId ->
                Event.organizerId e <> organizerId) ->
     VoucherService.createVoucher env eventId organizerId voucherData db
     = (Raised (PlainError "Event not found or access denied"), db))
  /\ (forall voucherId,
        (forall v e, In v (DB.eventVoucher db) -> EventVoucher.id v = voucherId ->
                     In e (DB.event db) -> Event.id e = EventVoucher.eventId v ->
                     Event.organizerId e <> organizerId) ->
        (forall updateData,
           VoucherService.updateVoucher voucherId organizerId updateData db
           = (Raised (PlainError "Voucher not found or access denied"), db))
        /\ VoucherService.deleteVoucher voucherId organizerId db
           = (Raised (PlainError "Voucher not found or access denied"), db)).
Proof.
  split.
  - intros env eventId voucherData H.
    assert (F : VoucherService.ownedEvent eventId organizerId db = None).
    { unfold VoucherService.ownedEvent. apply find_none_all. intros e He.
      destruct (id_eqb (Event.id e) eventId) eqn:K; [|reflexivity].
      apply id_eqb_eq in K. specialize (H e He K). apply id_eqb_neq in H.
      rewrite H. reflexivity. }
    unfold VoucherService.createVoucher, plain_transaction.
    rewrite F. reflexivity.
  - intros voucherId H.
    assert (F : VoucherService.ownedVoucher voucherId organizerId db = None).
    { destruct (VoucherService.ownedVoucher voucherId organizerId db) as [v|] eqn:F;
        [|reflexivity].
      apply ownedVoucher_some in F. destruct F as (Hv & Kv & e & He & Ke & Oe).
      exfalso. exact (H v e Hv Kv He Ke Oe). }
    split.
    + intro updateData.
      unfold VoucherService.updateVoucher, plain_transaction.
      rewrite F. reflexivity.
    + unfold VoucherService.deleteVoucher. rewrite F. reflexivity.
Qed.

(** ** calculateDiscount *)



(** ** The older createTransaction *)

Lemma plain_bind_ok A B (m : Plain A) (k : A -> Plain B) db b db' :
  plain_bind m k db = (Returned b, db') ->
  exists a d, m db = (Returned a, d) /\ k a d = (Returned b, db').
Proof.
  unfold plain_bind. destruct (m db) as [[a|e] d]; intro H; [|discriminate].
  exists a, d. split; [reflexivity|exact H].
Qed.

Lemma call_ok A (m : M A) db a d :
  call m db = (Returned a, d) -> m db = (Ok a, d).
Proof.
  unfold call. destruct (m db) as [[x|e] d0]; intro H; [|discriminate].
  injection H as <- <-. reflexivity.
Qed.

Lemma plain_lift_ok A (r : Outcome A) db a d :
  plain_lift r db = (Returned a, d) -> r = Returned a /\ d = db.
Proof. unfold plain_lift. intro H. injection H as -> <-. split; reflexivity. Qed.

Ltac plain_inv H :=
  let a := fresh "a" in
  let d := fresh "d" in
  let H1 := fresh "Hm" in
  apply plain_bind_ok in H; destruct H as (a & d & H1 & H).

Lemma legacy_createTransaction_ok env userId data db tx db' :
  Legacy.createTransaction addHours env userId data db = (Returned tx, db') ->
  let eventId := TransactionCreateRequest.eventId data in
  let ticketTypes := TransactionCreateRequest.ticketTypes data in
  let pointsUsed :=
    match TransactionCreateRequest.pointsUsed data with Some p => p | None => 0 end in
  exists event totalAmount ticketUpdates pointsDiscount
         voucherDiscount appliedVoucher couponDiscount appliedCoupon items
         d1 d2 d3 d4 d5,
    let eventTicketTypes := Legacy.ticketTypesOf event db in
    Legacy.findPublishedEvent eventId db = Some event
    /\ Legacy.validateTickets eventTicketTypes ticketTypes 0 []
       = Returned (totalAmount, ticketUpdates)
    /\ Legacy.validatePoints (now env) userId pointsUsed totalAmount db
       = Returned pointsDiscount
    /\ Legacy.validateVoucher (now env) eventId (TransactionCreateRequest.voucherCode data)
         totalAmount db = Returned (voucherDiscount, appliedVoucher)
    /\ Legacy.validateCoupon (now env) userId (TransactionCreateRequest.couponCode data)
         totalAmount db = Returned (couponDiscount, appliedCoupon)
    /\ makeItems eventTicketTypes ticketTypes = Ok items
    /\ tx = Transaction.mk (newId env) userId eventId (newInvoiceNumber env)
              WAITING_FOR_PAYMENT totalAmount pointsDiscount
              (option_map EventVoucher.id appliedVoucher) voucherDiscount
              (option_map UserCoupon.id appliedCoupon) couponDiscount
              (Qmax 0 (totalAmount - pointsDiscount - voucherDiscount - couponDiscount))
              (addHours (now env) 2) items
    /\ createTransactionRow tx db = (Ok tx, d1)
    /\ Legacy.updateTicketsSold ticketUpdates d1 = (Ok tt, d2)
    /\ updateEventBookedSeats eventId (totalTicketsRequested ticketTypes) d2 = (Ok tt, d3)
    /\ markCouponAsUsed appliedCoupon d3 = (Ok tt, d4)
    /\ updateVoucherUsage appliedVoucher d4 = (Ok tt, d5)
    /\ (if Js.gtb pointsUsed 0 then Legacy.deductPoints (now env) userId pointsDiscount
        else ret tt) d5 = (Ok tt, db').
Proof.
  intro H. unfold Legacy.createTransaction in H. apply plain_transaction_ok in H.
  plain_inv H. apply call_ok in Hm. apply ret_ok in Hm. destruct Hm as [-> ->].
  destruct (Legacy.findPublishedEvent (TransactionCreateRequest.eventId data) db)
    as [event|] eqn:FE; [|discriminate].
  plain_inv H. apply plain_lift_ok in Hm. destruct Hm as [VT ->].
  destruct a as [totalAmount ticketUpdates].
  plain_inv H. apply plain_lift_ok in Hm. destruct Hm as [VP ->].
  plain_inv H. apply plain_lift_ok in Hm. destruct Hm as [VV ->].
  destruct a0 as [vd av].
  plain_inv H. apply plain_lift_ok in Hm. destruct Hm as [VC ->].
  destruct a0 as [cd ac].
  plain_inv H. apply call_ok in Hm. apply lift_ok in Hm. destruct Hm as [MI ->].
  plain_inv H. apply call_ok in Hm. rename Hm into CR.
  plain_inv H. apply call_ok in Hm. rename Hm into UT.
  plain_inv H. apply call_ok in Hm. rename Hm into UE.
  plain_inv H. apply call_ok in Hm. rename Hm into UC.
  plain_inv H. apply call_ok in Hm. rename Hm into UV.
  plain_inv H. apply call_ok in Hm. rename Hm into DP.
  unfold plain_ret in H. injection H as <- <-.
  repeat match goal with u : unit |- _ => destruct u end.
  pose proof (createTransactionRow_ok _ _ CR) as (_ & E & _). subst a1.
  cbv zeta.
  exists event, totalAmount, ticketUpdates, a, vd, av, cd, ac, a0, d, d0, d1, d2, d3.
  repeat split; try assumption; reflexivity.
Qed.

Lemma legacy_validateTickets_ok eventTicketTypes ticketTypes :
  forall totalAmount acc total' ups,
  Legacy.validateTickets eventTicketTypes ticketTypes totalAmount acc
  = Returned (total', ups) ->
  ups = acc ++ lineKeys ticketTypes
  /\ forall l, In l ticketTypes ->
       exists t, findById EventTicketType.id (TicketLine.ticketTypeId l) eventTicketTypes
                 = Some t
                 /\ (EventTicketType.soldQuantity t + TicketLine.quantity l
                     <= EventTicketType.quantity t)%Z.
Proof.
  induction ticketTypes as [|l rest IH]; intros a acc t ups H; simpl in H.
  - injection H as _ <-. split; [rewrite app_nil_r; reflexivity|intros l []].
  - destruct (findById EventTicketType.id (TicketLine.ticketTypeId l) eventTicketTypes)
      as [tt0|] eqn:F; [|discriminate].
    destruct (_ >? _)%Z eqn:G; [discriminate|].
    apply IH in H. destruct H as [-> Hrest].
    pose proof (findById_some _ _ _ F) as [_ K].
    split.
    + rewrite <- app_assoc. simpl. rewrite K. reflexivity.
    + intros l' [<-|Hl'].
      * exists tt0. split; [exact F|]. rewrite Z.gtb_ltb in G. apply Z.ltb_ge in G. exact G.
      * apply Hrest. exact Hl'.
Qed.

Lemma legacy_updateTicketsSold_ok ticketUpdates : forall d d',
  Legacy.updateTicketsSold ticketUpdates d = (Ok tt, d') ->
  d' = DB.with_eventTicketType
         (adjustSold (fun i => quantityFor i ticketUpdates) (DB.eventTicketType d)) d.
Proof.
  induction ticketUpdates as [|u us IH]; intros d d' H; simpl in H.
  - apply ret_ok in H. destruct H as [_ ->].
    rewrite adjustSold_zero; [destruct d; reflexivity|]. intros t _. reflexivity.
  - bind_inv H. apply updateTable_ok in Hm. destruct Hm as (r & F & -> & ->).
    apply IH in H. subst d'.
    assert (E : adjustSold (fun i => quantityFor i us)
                  (updateRows EventTicketType.id (fst u)
                     (fun t => EventTicketType.with_soldQuantity
                                 (EventTicketType.soldQuantity t + snd u)%Z t)
                     (DB.eventTicketType d))
                = adjustSold (fun i => quantityFor i (u :: us)) (DB.eventTicketType d)).
    { rewrite updateRows_adjust, adjustSold_twice. apply adjustSold_ext.
      intros t _. destruct u as [j q]. rewrite quantityFor_cons. simpl.
      destruct (id_eqb (EventTicketType.id t) j) eqn:K.
      - apply id_eqb_eq in K. rewrite K, id_eqb_refl. lia.
      - apply id_eqb_neq in K.
        assert (K' : id_eqb j (EventTicketType.id t) = false).
        { apply id_eqb_neq. intro C. apply K. symmetry. exact C. }
        rewrite K'. lia. }
    unfold DB.with_eventTicketType. simpl. rewrite E. reflexivity.
Qed.

Lemma legacy_deductPoints_writes_points T (proj : DB.t -> T) now userId amount :
  (forall rows db, proj (DB.with_userPoint rows db) = proj db) ->
  preserves proj (Legacy.deductPoints now userId amount).
Proof.
  intro H. unfold Legacy.deductPoints.
  apply preserves_bind; [apply preserves_get|]. intro db.
  apply preserves_bind; [apply deductLoop_writes_points; exact H|]. intro rem.
  apply preserves_ret.
Qed.

(** X28.  The older createTransaction checks each line on its own.  When
    the call of the copy in unnamed/part_001 succeeds, every requested line
    names a ticket type of the event and fitted, taken alone, into the
    stock as it was read at the start of the call; the sold counters have
    moved by the sum of the lines of their type and the booked seats of the
    event by the sum of all lines.  Nothing bounds these sums: the copy has
    no check of the quantity's sign, none after the increments and none of
    the seats of the event. *)
Theorem legacy_createTransaction_checks_lines_apart env userId data db tx db' :
  Legacy.createTransaction addHours env userId data db = (Returned tx, db') ->
  (forall l, In l (TransactionCreateRequest.ticketTypes data) ->
     exists t, In t (DB.eventTicketType db)
               /\ EventTicketType.id t = TicketLine.ticketTypeId l
               /\ EventTicketType.eventId t = TransactionCreateRequest.eventId data
               /\ (EventTicketType.soldQuantity t + TicketLine.quantity l
                   <= EventTicketType.quantity t)%Z)
  /\ DB.eventTicketType db' =
     adjustSold (fun i => quantityFor i
                            (lineKeys (TransactionCreateRequest.ticketTypes data)))
       (DB.eventTicketType db)
  /\ DB.event db' =
     updateRows Event.id (TransactionCreateRequest.eventId data)
       (fun e => Event.with_bookedSeats
                   (Event.bookedSeats e
                    + totalTicketsRequested (TransactionCreateRequest.ticketTypes data))%Z e)
       (DB.event db).
Proof.
  intro H. apply legacy_createTransaction_ok in H. cbv zeta in H.
  destruct H as (event & totalAmount & ticketUpdates & pointsDiscount & vd & av & cd & ac
                 & items & d1 & d2 & d3 & d4 & d5 & H).
  destruct H as (FE & VT & VP & VV & VC & MI & R & CR & UT & UE & UC & UV & DP).
  apply legacy_validateTickets_ok in VT. destruct VT as [-> Lines]. simpl in UT.
  apply createTransactionRow_ok in CR. destruct CR as (_ & _ & ->).
  apply legacy_updateTicketsSold_ok in UT. subst d2.
  apply updateEventBookedSeats_ok in UE. destruct UE as [_ ->].
  apply markCouponAsUsed_ok in UC. subst d4.
  apply updateVoucherUsage_ok in UV. subst d5.
  assert (Keep : forall T (proj : DB.t -> T),
             (forall rows db, proj (DB.with_userPoint rows db) = proj db) ->
             forall d, (if Js.gtb match TransactionCreateRequest.pointsUsed data with
                                  | Some p => p | None => 0 end 0
                        then Legacy.deductPoints (now env) userId pointsDiscount
                        else ret tt) d = (Ok tt, db') -> proj db' = proj d).
  { intros T proj Hproj d E. eapply preserves_run; [|exact E].
    destruct (Js.gtb _ 0); [apply legacy_deductPoints_writes_points; exact Hproj
                           | apply preserves_ret]. }
  split; [|split].
  - intros l Hl. destruct (Lines l Hl) as (t & F & B).
    apply findById_some in F. destruct F as [Hin K].
    unfold Legacy.ticketTypesOf in Hin. apply filter_In in Hin. destruct Hin as [Hin He].
    apply id_eqb_eq in He.
    unfold Legacy.findPublishedEvent in FE. apply find_some in FE. destruct FE as [_ FE].
    apply andb_true_iff in FE. destruct FE as [FE _]. apply id_eqb_eq in FE.
    exists t. repeat split; try assumption. congruence.
  - rewrite (Keep _ DB.eventTicketType (fun _ _ => eq_refl) _ DP).
    destruct av, ac; reflexivity.
  - rewrite (Keep _ DB.event (fun _ _ => eq_refl) _ DP).
    destruct av, ac; reflexivity.
Qed.

Lemma legacy_createTransaction_atomic env userId data db :
  (exists tx db', Legacy.createTransaction addHours env userId data db
                  = (Returned tx, db'))
  \/ (exists e, Legacy.createTransaction addHours env userId data db = (Raised e, db)).
Proof.
  destruct (Legacy.createTransaction addHours env userId data db) as [[tx|e] d] eqn:E.
  - left. exists tx, d. reflexivity.
  - right. exists e. unfold Legacy.createTransaction in E.
    apply plain_transaction_raised in E. subst d. reflexivity.
Qed.

(** X29.  The older createTransaction never skips a code.  In the copy
    in unnamed/part_001, a non-empty voucher code that no voucher of the
    event carries inside its window, or a non-empty coupon code that
    matches no unused, unexpired coupon of the buyer, makes the call fail
    and leaves the database as it was, where the later version books
    without the discount. *)
Theorem legacy_createTransaction_unknown_code_fails env userId data db code :
  code <> ""%string ->
  (TransactionCreateRequest.voucherCode data = Some code
   /\ findVoucher (now env) (TransactionCreateRequest.eventId data) code db = None)
  \/ (TransactionCreateRequest.couponCode data = Some code
      /\ findCoupon (now env) userId code db = None) ->
  exists e, Legacy.createTransaction addHours env userId data db = (Raised e, db).
Proof.
  intros Ne H.
  assert (T : Js.truthy_string code = true).
  { unfold Js.truthy_string. apply String.eqb_neq in Ne. rewrite Ne. reflexivity. }
  destruct (legacy_createTransaction_atomic env userId data db)
    as [(tx & db' & E)|E]; [exfalso|exact E].
  apply legacy_createTransaction_ok in E. cbv zeta in E.
  destruct E as (event & totalAmount & ticketUpdates & pointsDiscount & vd & av & cd & ac
                 & items & d1 & d2 & d3 & d4 & d5 & E).
  destruct E as (_ & _ & _ & VV & VC & _).
  destruct H as [[Hc F]|[Hc F]].
  - unfold Legacy.validateVoucher in VV. rewrite Hc, T, F in VV. discriminate.
  - unfold Legacy.validateCoupon in VC. rewrite Hc, T, F in VC. discriminate.
Qed.

End Properties.

(** * The properties on the sample data *)

Local Open Scope string_scope.


Lemma sold_within_capacity_witness :
  consistent Sample.db0 = true
  /\ In (EventTicketType.mk "tt1" "ev1" "Regular" 100000 2 2)
        (DB.eventTicketType (run Sample.addMonths Sample.addHours Sample.db0 Sample.ops))
  /\ (0 <= reserved "tt1"
             (DB.transaction (run Sample.addMonths Sample.addHours Sample.db0 Sample.ops))
      <= 2)%Z
  /\ (0 <= 2 <= 2)%Z.
Proof.
  assert (C : consistent Sample.db0 = true) by reflexivity.
  assert (H : In (EventTicketType.mk "tt1" "ev1" "Regular" 100000 2 2)
                 (DB.eventTicketType
                    (run Sample.addMonths Sample.addHours Sample.db0 Sample.ops)))
    by (vm_compute; left; reflexivity).
  split; [exact C|]. split; [exact H|].
  exact (@sold_within_capacity Sample.addMonths Sample.addHours Sample.db0 Sample.ops
           (EventTicketType.mk "tt1" "ev1" "Regular" 100000 2 2) C H).
Defined.



(** C3: the code at a late payment proof.  The booking of the sample
    order has its deadline at 8200000; a proof sent at 8300000 is refused
    with TRANSACTION_EXPIRED, and in the database the call leaves behind
    the booking is still WAITING_FOR_PAYMENT, its two tickets are still
    sold, the voucher is still used and the points are still debited:
    what expireTransaction wrote was discarded with the aborted unit of
    work. *)
Theorem late_payment_proof_leaves_booking_unexpired :
  Sample.upload Sample.envLate "tx1" "u1" (Some Sample.proofUrl) Sample.db1
  = (Throw (TransactionError TRANSACTION_EXPIRED), Sample.db1)
  /\ map (fun x => (Transaction.id x, Transaction.status x, Transaction.expiryTime x))
         (DB.transaction Sample.db1)
     = [("tx1", WAITING_FOR_PAYMENT, 8200000%Z)]
  /\ map EventTicketType.soldQuantity (DB.eventTicketType Sample.db1) = [2%Z; 0%Z]
  /\ map EventVoucher.usedCount (DB.eventVoucher Sample.db1) = [1%Z; 3%Z]
  /\ map UserPoint.amount (DB.userPoint Sample.db1) = [10000; 0; 0]
  /\ map (fun x => (Transaction.id x, Transaction.status x))
         (DB.transaction (snd (Sample.expire Sample.envLate "tx1" Sample.db1)))
     = [("tx1", EXPIRED)]
  /\ map EventTicketType.soldQuantity
         (DB.eventTicketType (snd (Sample.expire Sample.envLate "tx1" Sample.db1)))
     = [0%Z; 0%Z].
Proof.
  split; [vm_compute; reflexivity|].
  split; [vm_compute; reflexivity|].
  split; [vm_compute; reflexivity|].
  split; [vm_compute; reflexivity|].
  split; [vm_compute; reflexivity|].
  split; vm_compute; reflexivity.
Qed.



Example exhausted_voucher_is_refused :
  Sample.create Sample.env1 "u1" Sample.reqExhaustedVoucher Sample.db0
  = (Throw (TransactionError VOUCHER_ERROR), Sample.db0).
Proof. vm_compute. reflexivity. Qed.


Lemma confirmTransaction_at_most_once_witness :
  exists x db3,
    Sample.confirm Sample.env3 "tx1" "org1" false Sample.db2 = (Ok x, db3)
    /\ Transaction.status x = REJECTED
    /\ Sample.confirm Sample.envLate "tx1" "org1" true db3
       = (Throw (TransactionError TRANSACTION_NOT_FOUND), db3).
Proof.
  assert (H : exists x db3,
             Sample.confirm Sample.env3 "tx1" "org1" false Sample.db2 = (Ok x, db3))
    by (vm_compute; eexists; eexists; reflexivity).
  destruct H as (x & db3 & H).
  exists x, db3. split; [exact H|].
  destruct (@confirmTransaction_at_most_once Sample.addMonths Sample.env3 "tx1" "org1" false
              Sample.db2 x db3 Sample.envLate "org1" true H) as (_ & S & _ & R).
  split; [exact S | exact R].
Defined.

Lemma createTransaction_insufficient_seats_witness :
  findBookableEvent 1000000 "ev2" Sample.dbSmall = Some Sample.evSmall
  /\ (totalTicketsRequested (TransactionCreateRequest.ticketTypes Sample.reqTwoSeats)
      > Event.availableSeats Sample.evSmall - Event.bookedSeats Sample.evSmall)%Z
  /\ Sample.create Sample.env1 "u1" Sample.reqTwoSeats Sample.dbSmall
     = (Throw (TransactionError INSUFFICIENT_SEATS), Sample.dbSmall).
Proof.
  assert (F : findBookableEvent (now Sample.env1)
                (TransactionCreateRequest.eventId Sample.reqTwoSeats) Sample.dbSmall
              = Some Sample.evSmall) by reflexivity.
  assert (G : (totalTicketsRequested (TransactionCreateRequest.ticketTypes Sample.reqTwoSeats)
               > Event.availableSeats Sample.evSmall - Event.bookedSeats Sample.evSmall)%Z)
    by reflexivity.
  split; [exact F|]. split; [exact G|].
  refine (proj2 (@createTransaction_insufficient_seats Sample.addHours Sample.env1 "u1"
                   Sample.reqTwoSeats Sample.dbSmall Sample.evSmall F G)
                100000 [TicketUpdate.mk "tt9" 2 0 5 "Regular" 50000] _ _ _).
  - discriminate.
  - reflexivity.
  - vm_compute. reflexivity.
Defined.

Lemma voucher_discount_has_no_cap_witness :
  exists tx db1,
    Sample.create Sample.env1 "u1" Sample.req1 Sample.db0 = (Ok tx, db1)
    /\ Transaction.voucherId tx = Some "v1"
    /\ Transaction.voucherDiscount tx == 20000
    /\ exists v,
         In v (DB.eventVoucher Sample.db0) /\ EventVoucher.id v = "v1"
         /\ Transaction.voucherDiscount tx =
            calculateDiscount (Transaction.totalAmount tx) (EventVoucher.discountType v)
              (EventVoucher.discountValue v) None.
Proof.
  assert (H : exists tx db1,
             Sample.create Sample.env1 "u1" Sample.req1 Sample.db0 = (Ok tx, db1)
             /\ Transaction.voucherId tx = Some "v1"
             /\ Transaction.voucherDiscount tx == 20000)
    by (vm_compute; eexists; eexists; repeat split; reflexivity).
  destruct H as (tx & db1 & H & V & D).
  exists tx, db1. split; [exact H|]. split; [exact V|]. split; [exact D|].
  destruct (proj1 (@voucher_discount_has_no_cap Sample.addHours Sample.env1 "u1"
                     Sample.req1 Sample.db0 tx db1 H) "v1" V) as (v & Hin & Hid & E & _).
  exists v. repeat split; assumption.
Defined.

(** ** Further properties on the sample data *)

Lemma sample_booking :
  exists tx db1, Sample.create Sample.env1 "u1" Sample.req1 Sample.db0 = (Ok tx, db1).
Proof. vm_compute. eexists. eexists. reflexivity. Defined.

Lemma createTransaction_items_priced_witness :
  exists tx db1,
    Sample.create Sample.env1 "u1" Sample.req1 Sample.db0 = (Ok tx, db1)
    /\ fold_left (fun s it => s + TransactionItem.subtotal it) (Transaction.items tx) 0
       = Transaction.totalAmount tx.
Proof.
  destruct sample_booking as (tx & db1 & H). exists tx, db1. split; [exact H|].
  exact (proj1 (@createTransaction_items_priced Sample.addHours Sample.env1 "u1"
                  Sample.req1 Sample.db0 tx db1 H)).
Defined.

Lemma createTransaction_final_amount_witness :
  exists tx db1,
    Sample.create Sample.env1 "u1" Sample.req1 Sample.db0 = (Ok tx, db1)
    /\ 0 <= Transaction.pointsUsed tx <= Qmax 0 (Transaction.totalAmount tx)
    /\ 0 <= Transaction.finalAmount tx.
Proof.
  destruct sample_booking as (tx & db1 & H). exists tx, db1. split; [exact H|].
  destruct (@createTransaction_final_amount Sample.addHours Sample.env1 "u1"
              Sample.req1 Sample.db0 tx db1 H) as (P & _ & _ & _ & F).
  split; [exact P|exact F].
Defined.

Lemma createTransaction_rejects_nonpositive_quantity_witness :
  In (Sample.line "tt2" 0) (TransactionCreateRequest.ticketTypes Sample.reqNoTickets)
  /\ (TicketLine.quantity (Sample.line "tt2" 0) <= 0)%Z
  /\ exists e, Sample.create Sample.env1 "u1" Sample.reqNoTickets Sample.db0
               = (Throw e, Sample.db0).
Proof.
  assert (H1 : In (Sample.line "tt2" 0)
                  (TransactionCreateRequest.ticketTypes Sample.reqNoTickets))
    by (right; left; reflexivity).
  assert (H2 : (TicketLine.quantity (Sample.line "tt2" 0) <= 0)%Z) by (simpl; lia).
  split; [exact H1|]. split; [exact H2|].
  exact (@createTransaction_rejects_nonpositive_quantity Sample.addHours Sample.env1 "u1"
           Sample.reqNoTickets Sample.db0 (Sample.line "tt2" 0) H1 H2).
Defined.

Lemma sample_ticket_keys :
  NoDup (map EventTicketType.id (DB.eventTicketType Sample.db0))
  /\ (forall r, In r (DB.eventTicketType Sample.db0) ->
                (EventTicketType.soldQuantity r <= EventTicketType.quantity r)%Z).
Proof.
  split.
  - simpl. constructor; [intros [E|[]]; discriminate|].
    constructor; [intros []|constructor].
  - intros r [<-|[<-|[]]]; simpl; lia.
Defined.

Lemma createTransaction_within_stock_witness :
  exists tx db1,
    Sample.create Sample.env1 "u1" Sample.req1 Sample.db0 = (Ok tx, db1)
    /\ findById EventTicketType.id "tt1" (DB.eventTicketType db1)
       = Some (EventTicketType.with_soldQuantity 2 Sample.tt1).
Proof.
  destruct sample_booking as (tx & db1 & H). exists tx, db1. split; [exact H|].
  destruct sample_ticket_keys as [ND B].
  exact (proj2 (@createTransaction_within_stock Sample.addHours Sample.env1 "u1"
                  Sample.req1 Sample.db0 tx db1 Sample.tt1 ND B H
                  (or_introl eq_refl))).
Defined.


Lemma sample_booking_row :
  exists x, DB.transaction Sample.db1 = [x]
            /\ Transaction.id x = "tx1" /\ Transaction.userId x = "u1"
            /\ Transaction.status x = WAITING_FOR_PAYMENT.
Proof. vm_compute. eexists. repeat split. Defined.

Lemma status_moves_along_life_cycle_witness :
  exists x s,
    In x (DB.transaction Sample.db1)
    /\ findById Transaction.id (Transaction.id x)
         (DB.transaction
            (step Sample.addMonths Sample.addHours Sample.db1
               (OpUpload Sample.env2 "tx1" "u1" (Some Sample.proofUrl))))
       = Some (Transaction.with_status s x)
    /\ (s = Transaction.status x \/ transition (Transaction.status x) s = true).
Proof.
  destruct sample_booking_row as (x & E & K & _).
  assert (ND : NoDup (map Transaction.id (DB.transaction Sample.db1))).
  { rewrite E. simpl. constructor; [intros []|constructor]. }
  assert (Hx : In x (DB.transaction Sample.db1)) by (rewrite E; left; reflexivity).
  destruct (@status_moves_along_life_cycle Sample.addMonths Sample.addHours Sample.db1
              (OpUpload Sample.env2 "tx1" "u1" (Some Sample.proofUrl)) x ND Hx)
    as (s & F & T).
  exists x, s. split; [exact Hx|]. split; [exact F|exact T].
Defined.

Lemma sample_rejected_row :
  exists x, DB.transaction Sample.db3 = [x] /\ Transaction.status x = REJECTED.
Proof. vm_compute. eexists. repeat split. Defined.

Lemma settled_booking_is_final_witness :
  exists x,
    In x (DB.transaction Sample.db3)
    /\ settled (Transaction.status x) = true
    /\ In x (DB.transaction (run Sample.addMonths Sample.addHours Sample.db3 Sample.ops)).
Proof.
  destruct sample_rejected_row as (x & E & S).
  assert (ND : NoDup (map Transaction.id (DB.transaction Sample.db3))).
  { rewrite E. simpl. constructor; [intros []|constructor]. }
  assert (Hx : In x (DB.transaction Sample.db3)) by (rewrite E; left; reflexivity).
  assert (St : settled (Transaction.status x) = true) by (rewrite S; reflexivity).
  exists x. split; [exact Hx|]. split; [exact St|].
  exact (@settled_booking_is_final Sample.addMonths Sample.addHours Sample.ops
           Sample.db3 x ND Hx St).
Defined.

Lemma sample_attended : Attended Sample.db0.
Proof.
  constructor; simpl.
  - constructor.
  - constructor.
  - intros a [].
  - intros x [].
Defined.

Lemma attendees_are_accepted_bookings_witness :
  Attended Sample.db0
  /\ Attended (run Sample.addMonths Sample.addHours Sample.db0 Sample.ops).
Proof.
  split; [exact sample_attended|].
  exact (@attendees_are_accepted_bookings Sample.addMonths Sample.addHours Sample.ops
           Sample.db0 sample_attended).
Defined.

Lemma confirmTransaction_accept_effects_witness :
  exists x db',
    Sample.confirm Sample.env3 "tx1" "org1" true Sample.db2 = (Ok x, db')
    /\ Transaction.status x = DONE
    /\ sameLedger db' Sample.db2.
Proof.
  assert (H : exists x db',
             Sample.confirm Sample.env3 "tx1" "org1" true Sample.db2 = (Ok x, db'))
    by (vm_compute; eexists; eexists; reflexivity).
  destruct H as (x & db' & H).
  assert (ND : NoDup (map Transaction.id (DB.transaction Sample.db2))).
  { vm_compute. constructor; [intros []|constructor]. }
  destruct (@confirmTransaction_accept_effects Sample.addMonths Sample.env3 "tx1" "org1"
              Sample.db2 x db' ND H) as (S & _ & L & _).
  exists x, db'. split; [exact H|]. split; [exact S|exact L].
Defined.

Lemma expireTransaction_runs_once_witness :
  exists db',
    Sample.expire Sample.envLate "tx1" Sample.db1 = (Ok tt, db')
    /\ Sample.expire Sample.env3 "tx1" db' = (Ok tt, db').
Proof.
  assert (H : exists db', Sample.expire Sample.envLate "tx1" Sample.db1 = (Ok tt, db'))
    by (vm_compute; eexists; reflexivity).
  destruct H as (db' & H). exists db'. split; [exact H|].
  exact (@expireTransaction_runs_once Sample.addMonths Sample.envLate "tx1" Sample.db1
           tt db' H Sample.env3).
Defined.

Lemma sample_upload :
  exists pay db',
    Sample.upload Sample.env2 "tx1" "u1" (Some Sample.proofUrl) Sample.db1 = (Ok pay, db').
Proof. vm_compute. eexists. eexists. reflexivity. Defined.

Lemma uploadPaymentProof_at_most_once_witness :
  exists pay db',
    Sample.upload Sample.env2 "tx1" "u1" (Some Sample.proofUrl) Sample.db1 = (Ok pay, db')
    /\ Sample.upload Sample.env3 "tx1" "u1" (Some Sample.proofUrl) db'
       = (Throw (TransactionError TRANSACTION_NOT_FOUND), db').
Proof.
  destruct sample_upload as (pay & db' & H). exists pay, db'. split; [exact H|].
  exact (@uploadPaymentProof_at_most_once Sample.addMonths Sample.env2 "tx1" "u1"
           (Some Sample.proofUrl) Sample.db1 pay db' H
           Sample.env3 "u1" (Some Sample.proofUrl)).
Defined.

Lemma uploadPaymentProof_records_payment_witness :
  exists pay db',
    Sample.upload Sample.env2 "tx1" "u1" (Some Sample.proofUrl) Sample.db1 = (Ok pay, db')
    /\ findById TransactionPayment.transactionId "tx1" (DB.transactionPayment db')
       = Some pay
    /\ sameLedger db' Sample.db1.
Proof.
  destruct sample_upload as (pay & db' & H). exists pay, db'. split; [exact H|].
  assert (ND : NoDup (map TransactionPayment.transactionId
                        (DB.transactionPayment Sample.db1)))
    by (vm_compute; constructor).
  destruct (@uploadPaymentProof_records_payment Sample.addMonths Sample.env2 "tx1" "u1"
              (Some Sample.proofUrl) Sample.db1 pay db' ND H)
    as (_ & _ & F & _ & _ & _ & L).
  split; [exact F|exact L].
Defined.

Lemma booking_calls_need_their_party_witness :
  Sample.upload Sample.env2 "tx1" "u2" (Some Sample.proofUrl) Sample.db1
  = (Throw (TransactionError TRANSACTION_NOT_FOUND), Sample.db1)
  /\ Sample.confirm Sample.env3 "tx1" "org9" true Sample.db2
     = (Throw (TransactionError TRANSACTION_NOT_FOUND), Sample.db2).
Proof.
  split.
  - apply (proj1 (@booking_calls_need_their_party Sample.addMonths Sample.env2 "tx1"
                    Sample.db1)).
    destruct sample_booking_row as (x & E & _ & U & _).
    intros y Hy _. rewrite E in Hy. destruct Hy as [<-|[]]. rewrite U. discriminate.
  - apply (proj2 (@booking_calls_need_their_party Sample.addMonths Sample.env3 "tx1"
                    Sample.db2)).
    intros y e _ _ He _. assert (E : DB.event Sample.db2 = [Event.mk "ev1" "org1" 9000000 100 2 true])
      by (vm_compute; reflexivity).
    rewrite E in He. destruct He as [<-|[]]. simpl. discriminate.
Defined.

Lemma sample_seats :
  NoDup (map Event.id (DB.event Sample.db0)) /\ seatsWithinCapacity Sample.db0.
Proof.
  split.
  - simpl. constructor; [intros []|constructor].
  - intros e [<-|[]]. simpl. lia.
Defined.

Lemma sample_day_events :
  exists e, DB.event (run Sample.addMonths Sample.addHours Sample.db0 Sample.ops) = [e].
Proof. vm_compute. eexists. reflexivity. Defined.

Lemma booked_seats_within_capacity_witness :
  exists e,
    In e (DB.event (run Sample.addMonths Sample.addHours Sample.db0 Sample.ops))
    /\ (Event.bookedSeats e <= Event.availableSeats e)%Z.
Proof.
  destruct sample_day_events as (e & E).
  assert (He : In e (DB.event (run Sample.addMonths Sample.addHours Sample.db0
                                 Sample.ops)))
    by (rewrite E; left; reflexivity).
  destruct sample_seats as [ND W].
  exists e. split; [exact He|].
  exact (@booked_seats_within_capacity Sample.addMonths Sample.addHours Sample.db0
           Sample.ops e eq_refl ND W He).
Defined.

Lemma booked_seats_track_bookings_witness :
  exists e' e,
    In e' (DB.event (run Sample.addMonths Sample.addHours Sample.db0 Sample.ops))
    /\ In e (DB.event Sample.db0)
    /\ (Event.bookedSeats e'
        - seatsHeld (Event.id e')
            (DB.transaction (run Sample.addMonths Sample.addHours Sample.db0 Sample.ops))
        = Event.bookedSeats e - seatsHeld (Event.id e) (DB.transaction Sample.db0))%Z.
Proof.
  destruct sample_day_events as (e' & E).
  assert (He : In e' (DB.event (run Sample.addMonths Sample.addHours Sample.db0
                                  Sample.ops)))
    by (rewrite E; left; reflexivity).
  destruct sample_seats as [ND _].
  destruct (@booked_seats_track_bookings Sample.addMonths Sample.addHours Sample.db0
              Sample.ops e' eq_refl ND He) as (e & Hin & _ & D).
  exists e', e. split; [exact He|]. split; [exact Hin|exact D].
Defined.

Lemma sold_counter_tracks_bookings_witness :
  exists t' t,
    In t' (DB.eventTicketType (run Sample.addMonths Sample.addHours Sample.db0 Sample.ops))
    /\ In t (DB.eventTicketType Sample.db0)
    /\ (EventTicketType.soldQuantity t'
        - reserved (EventTicketType.id t')
            (DB.transaction (run Sample.addMonths Sample.addHours Sample.db0 Sample.ops))
        = EventTicketType.soldQuantity t
          - reserved (EventTicketType.id t) (DB.transaction Sample.db0))%Z.
Proof.
  assert (H : In (EventTicketType.mk "tt1" "ev1" "Regular" 100000 2 2)
                 (DB.eventTicketType
                    (run Sample.addMonths Sample.addHours Sample.db0 Sample.ops)))
    by (vm_compute; left; reflexivity).
  destruct (@sold_counter_tracks_bookings Sample.addMonths Sample.addHours Sample.ops
              Sample.db0 _ eq_refl H) as (t & Hin & _ & D).
  exists (EventTicketType.mk "tt1" "ev1" "Regular" 100000 2 2), t.
  split; [exact H|]. split; [exact Hin|exact D].
Defined.

Lemma createTransaction_then_getTransactionById_witness :
  exists tx db1,
    Sample.create Sample.env1 "u1" Sample.req1 Sample.db0 = (Ok tx, db1)
    /\ (exists detail, getTransactionById (Transaction.id tx) (Some "u1") db1 = Ok detail
                       /\ TransactionDetail.transaction detail = tx)
    /\ getTransactionById (Transaction.id tx) (Some "u2") db1
       = Throw (TransactionError TRANSACTION_NOT_FOUND).
Proof.
  destruct sample_booking as (tx & db1 & H). exists tx, db1. split; [exact H|].
  destruct (@createTransaction_then_getTransactionById Sample.addHours Sample.env1 "u1"
              Sample.req1 Sample.db0 tx db1 H) as (G1 & _ & G3).
  split; [exact G1|]. apply G3; discriminate.
Defined.

Lemma uploadPaymentProof_then_getTransactionById_witness :
  exists pay db' detail,
    Sample.upload Sample.env2 "tx1" "u1" (Some Sample.proofUrl) Sample.db1 = (Ok pay, db')
    /\ getTransactionById "tx1" (Some "u1") db' = Ok detail
    /\ Transaction.status (TransactionDetail.transaction detail) = WAITING_FOR_CONFIRMATION
    /\ TransactionDetail.payment detail = Some pay.
Proof.
  destruct sample_upload as (pay & db' & H).
  destruct (@uploadPaymentProof_then_getTransactionById Sample.addMonths Sample.env2
              "tx1" "u1" (Some Sample.proofUrl) Sample.db1 pay db' H)
    as (detail & G & _ & S & P).
  exists pay, db', detail. repeat split; assumption.
Defined.

Lemma sample_voucher :
  exists v db',
    VoucherService.createVoucher Sample.envVoucher "ev1" "org1" Sample.voucherReq
      Sample.db0 = (Returned v, db').
Proof. vm_compute. eexists. eexists. reflexivity. Defined.

Lemma createVoucher_then_active_witness :
  exists v db',
    VoucherService.createVoucher Sample.envVoucher "ev1" "org1" Sample.voucherReq
      Sample.db0 = (Returned v, db')
    /\ DB.eventVoucher db' = (DB.eventVoucher Sample.db0 ++ [v])%list
    /\ EventVoucher.usedCount v = 0%Z.
Proof.
  destruct sample_voucher as (v & db' & H). exists v, db'. split; [exact H|].
  destruct (@createVoucher_then_active Sample.envVoucher "ev1" "org1" Sample.voucherReq
              Sample.db0 v db' H) as (T & _ & _ & U & _).
  split; [exact T|exact U].
Defined.

Lemma sample_voucher_keys :
  NoDup (map EventVoucher.id (DB.eventVoucher Sample.db0))
  /\ NoDup (map EventVoucher.code (DB.eventVoucher Sample.db0)).
Proof.
  split; simpl.
  - constructor; [intros [E|[]]; discriminate|]. constructor; [intros []|constructor].
  - constructor; [intros [E|[]]; discriminate|]. constructor; [intros []|constructor].
Defined.

Lemma voucher_codes_stay_unique_witness :
  NoDup (map EventVoucher.id (DB.eventVoucher Sample.db0))
  /\ NoDup (map EventVoucher.code (DB.eventVoucher Sample.db0))
  /\ NoDup (map EventVoucher.code
              (DB.eventVoucher
                 (fold_left VoucherService.step Sample.voucherOps Sample.db0))).
Proof.
  destruct sample_voucher_keys as [NDi NDc].
  split; [exact NDi|]. split; [exact NDc|].
  exact (proj2 (@voucher_codes_stay_unique Sample.voucherOps Sample.db0 NDi NDc)).
Defined.


Lemma active_vouchers_are_the_valid_ones_witness :
  In Sample.v1 (VoucherService.getActiveVouchers 1000000 "ev1" Sample.db0)
  /\ VoucherService.validateVoucher 1000000 "SAVE10" "ev1" 200000 Sample.db0
     = Returned Sample.v1.
Proof.
  assert (H : In Sample.v1 (VoucherService.getActiveVouchers 1000000 "ev1" Sample.db0))
    by (vm_compute; left; reflexivity).
  split; [exact H|].
  destruct sample_voucher_keys as [_ NDc].
  apply (proj2 (@active_vouchers_are_the_valid_ones 1000000 "ev1" Sample.db0 Sample.v1)
           NDc H 200000).
  vm_compute. discriminate.
Defined.


Lemma sample_delete :
  exists msg db', VoucherService.deleteVoucher "v1" "org1" Sample.db1 = (Returned msg, db').
Proof. vm_compute. eexists. eexists. reflexivity. Defined.

Lemma deleteVoucher_clears_references_witness :
  exists msg db',
    VoucherService.deleteVoucher "v1" "org1" Sample.db1 = (Returned msg, db')
    /\ findById EventVoucher.id "v1" (DB.eventVoucher db') = None
    /\ forall x, In x (DB.transaction db') -> Transaction.voucherId x <> Some "v1".
Proof.
  destruct sample_delete as (msg & db' & H). exists msg, db'. split; [exact H|].
  destruct (@deleteVoucher_clears_references "v1" "org1" Sample.db1 msg db' H)
    as (F & _ & R & _).
  split; [exact F|exact R].
Defined.

Lemma sample_rollback_ready :
  exists x, findById Transaction.id "tx1" (DB.transaction Sample.db1) = Some x
            /\ rollbackReady x Sample.db1.
Proof.
  eexists. split; [vm_compute; reflexivity|].
  unfold rollbackReady. split; [|split; [|split; [|split]]].
  - intros it [<-|[]]. vm_compute. left. reflexivity.
  - vm_compute. left. reflexivity.
  - intros i Hi. vm_compute in Hi. injection Hi as <-. vm_compute. left. reflexivity.
  - intros i Hi. vm_compute in Hi. discriminate.
  - intros _. vm_compute. eexists. reflexivity.
Defined.

Lemma deleteVoucher_keeps_rollback_possible_witness :
  exists msg db' d',
    VoucherService.deleteVoucher "v1" "org1" Sample.db1 = (Returned msg, db')
    /\ Sample.rollback Sample.env3 "tx1" db' = (Ok tt, d').
Proof.
  destruct sample_delete as (msg & db' & H).
  destruct sample_rollback_ready as (x & F & R).
  destruct (@deleteVoucher_keeps_rollback_possible Sample.addMonths "v1" "org1"
              Sample.db1 msg db' Sample.env3 "tx1" x H F R) as (d' & Run).
  exists msg, db', d'. split; [exact H|exact Run].
Defined.

Lemma voucher_writes_need_the_organizer_witness :
  VoucherService.createVoucher Sample.envVoucher "ev1" "org9" Sample.voucherReq Sample.db0
  = (Raised (PlainError "Event not found or access denied"), Sample.db0)
  /\ VoucherService.deleteVoucher "v1" "org9" Sample.db0
     = (Raised (PlainError "Voucher not found or access denied"), Sample.db0).
Proof.
  split.
  - apply (proj1 (@voucher_writes_need_the_organizer "org9" Sample.db0)).
    intros e [<-|[]] _. simpl. discriminate.
  - apply (proj2 (@voucher_writes_need_the_organizer "org9" Sample.db0) "v1").
    intros v e _ _ [<-|[]] _. simpl. discriminate.
Defined.


Lemma legacy_createTransaction_checks_lines_apart_witness :
  exists tx db',
    Legacy.createTransaction Sample.addHours Sample.env1 "u1" Sample.reqTwice Sample.db0
    = (Returned tx, db')
    /\ In (EventTicketType.mk "tt1" "ev1" "Regular" 100000 2 4) (DB.eventTicketType db')
    /\ exists e, Sample.create Sample.env1 "u1" Sample.reqTwice Sample.db0
                 = (Throw e, Sample.db0).
Proof.
  assert (H : exists tx db',
             Legacy.createTransaction Sample.addHours Sample.env1 "u1" Sample.reqTwice
               Sample.db0 = (Returned tx, db'))
    by (vm_compute; eexists; eexists; reflexivity).
  destruct H as (tx & db' & H). exists tx, db'. split; [exact H|].
  destruct (@legacy_createTransaction_checks_lines_apart Sample.addHours Sample.env1 "u1"
              Sample.reqTwice Sample.db0 tx db' H) as (_ & ET & _).
  split.
  - rewrite ET. vm_compute. left. reflexivity.
  - vm_compute. eexists. reflexivity.
Defined.

Lemma legacy_createTransaction_unknown_code_fails_witness :
  exists e,
    Legacy.createTransaction Sample.addHours Sample.env1 "u1" Sample.reqUnknownVoucher
      Sample.db0 = (Raised e, Sample.db0).
Proof.
  refine (@legacy_createTransaction_unknown_code_fails Sample.addHours Sample.env1 "u1"
            Sample.reqUnknownVoucher Sample.db0 "NOSUCHCODE" _ (or_introl (conj eq_refl _))).
  - discriminate.
  - vm_compute. reflexivity.
Defined.
